(** * roxiler-backend: the transaction controller, embedded and verified

    A shallow embedding of [src/controllers/transactionController.js]: the
    six Express handlers ([initializeDatabase], [getTransactions],
    [getStatistics], [getBarChartData], [getPieChartData],
    [getCombinedData]) together with the parts of JavaScript, of the Date
    object and of the MongoDB query language they rely on.

    - JavaScript numbers are IEEE-754 binary64 values, taken from the
      executable specification [SpecFloat] of the standard library
      (no axiom is involved, every operation computes).
    - A search string, a title, a description and a price written as a
      string are texts: sequences of Unicode characters, each given by
      its code point.  The month of a request and the category of a
      record are strings of code units below 256.
    - The record store is the list of stored documents in natural
      (insertion) order; a query is a test applied to each document.
    - An object literal used as a map is a finite map of own properties
      over the properties inherited from [Object.prototype].
    - A handler returns the response it sends: status 200 with a body, or
      status 500 with a message.  The requests [getCombinedData] sends to
      its own server are calls of the handlers.
    - What depends on the server is a parameter: the offset of its time
      zone from UTC, which is taken to be fixed (a zone without daylight
      saving time); what its engine makes of a date string that is not
      [YYYY-MM-DD]; and, of its store, how it folds the case of the
      characters outside ASCII, what it does with a pattern that is more
      than ordinary characters and dots, and how many documents it puts
      into one batch.

    The properties C1 to C10 are those of the specification. *)

From Stdlib Require Import ZArith List String Ascii Bool Lia Permutation.
From Stdlib Require Import Floats.SpecFloat.
From stdpp Require Import base option list gmap strings.

Local Open Scope string_scope.
Local Open Scope Z_scope.

(* ===================================================================== *)
(** * JavaScript numbers *)
(* ===================================================================== *)

Module JSNumber.

(** binary64: 53 bits of precision, exponent of the infinities 1024 *)
Definition prec : Z := 53.
Definition emax : Z := 1024.

Definition number : Type := spec_float.

Definition NaN : number := S754_nan.
Definition Infinity : number := S754_infinity false.
Definition zero : number := S754_zero false.

(** the global [isNaN] applied to a number *)
Definition isNaN (x : number) : bool :=
  match x with S754_nan => true | _ => false end.

Definition add : number -> number -> number := SFadd prec emax.
Definition leb : number -> number -> bool := SFleb.
Definition ltb : number -> number -> bool := SFltb.
(** numeric equality: [+0] equals [-0], [NaN] equals nothing *)
Definition eqb : number -> number -> bool := SFeqb.

(** the number nearest to an integer (round to nearest, ties to even) *)
Definition ofZ (z : Z) : number := binary_normalize prec emax z 0 false.

(** the number nearest to [(-1)^neg * m * 10^e], for a decimal literal with
    digits [m] and decimal exponent [e]; a zero mantissa keeps the sign *)
Definition ofDecimal (neg : bool) (m : N) (e : Z) : number :=
  match m with
  | N0 => S754_zero neg
  | Npos p =>
      if 0 <=? e
      then binary_normalize prec emax
             ((if neg then Zneg p else Zpos p) * 10 ^ e) 0 neg
      else SFdiv prec emax (S754_finite neg p 0)
             (S754_finite false (Z.to_pos (10 ^ (- e))) 0)
  end.

End JSNumber.

Import JSNumber.

(* ===================================================================== *)
(** * JavaScript strings and the conversions the controller applies *)
(* ===================================================================== *)

Module JSString.

Definition code (c : ascii) : N := N_of_ascii c.

(** StrWhiteSpaceChar: TAB, LF, VT, FF, CR, SP and NBSP (the white space and
    line terminators among the code units below 256) *)
Definition isWhiteSpace (c : ascii) : bool :=
  existsb (N.eqb (code c)) [9; 10; 11; 12; 13; 32; 160]%N.

Fixpoint trimStart (s : string) : string :=
  match s with
  | String c s' => if isWhiteSpace c then trimStart s' else s
  | EmptyString => EmptyString
  end.

Fixpoint allWhiteSpace (s : string) : bool :=
  match s with
  | String c s' => isWhiteSpace c && allWhiteSpace s'
  | EmptyString => true
  end.

(** value of a digit in radix [r <= 36] *)
Definition digitValue (r : N) (c : ascii) : option N :=
  let n := code c in
  let v := if (48 <=? n)%N && (n <=? 57)%N then Some (n - 48)%N
           else if (97 <=? n)%N && (n <=? 122)%N then Some (n - 87)%N
           else if (65 <=? n)%N && (n <=? 90)%N then Some (n - 55)%N
           else None in
  match v with
  | Some d => if (d <? r)%N then Some d else None
  | None => None
  end.

(** the longest prefix of radix-[r] digits: its value, its length, the rest *)
Fixpoint scanDigits (r : N) (acc : N) (len : nat) (s : string)
  : N * nat * string :=
  match s with
  | String c s' =>
      match digitValue r c with
      | Some d => scanDigits r (acc * r + d)%N (S len) s'
      | None => (acc, len, s)
      end
  | EmptyString => (acc, len, s)
  end.

Definition stripPrefix (p s : string) : option string :=
  if String.prefix p s
  then Some (String.substring (String.length p)
               (String.length s - String.length p) s)
  else None.

(** a leading sign: whether it is [-], and the rest *)
Definition scanSign (s : string) : bool * string :=
  match s with
  | String "-" s' => (true, s')
  | String "+" s' => (false, s')
  | _ => (false, s)
  end.

(** [parseInt(string)] with no radix argument.  [None] is [NaN]; [Some z] is
    the integer read.  The controller only compares the result with 1 and
    12, which the rounding of a long digit string to binary64 cannot affect,
    so the integer is kept exact. *)
Definition parseInt (input : string) : option Z :=
  let (neg, s) := scanSign (trimStart input) in
  let (r, s) :=
    match s with
    | String "0" (String "x" s') | String "0" (String "X" s') => (16%N, s')
    | _ => (10%N, s)
    end in
  match scanDigits r 0 0 s with
  | (_, O, _) => None
  | (v, _, _) => Some (if neg then - Z.of_N v else Z.of_N v)
  end.

(** an ExponentPart, if one starts here: its value and the rest *)
Definition scanExponent (s : string) : option (Z * string) :=
  match s with
  | String "e" s' | String "E" s' =>
      let (neg, s'') := scanSign s' in
      match scanDigits 10 0 0 s'' with
      | (_, O, _) => None
      | (v, _, rest) => Some (if neg then - Z.of_N v else Z.of_N v, rest)
      end
  | _ => None
  end.

(** an unsigned decimal literal: [Infinity], or digits [m] with a decimal
    exponent [e], standing for [m * 10^e] *)
Inductive decimal : Type :=
| DecInfinity
| DecDigits (m : N) (e : Z).

(** the longest prefix that is a StrUnsignedDecimalLiteral ([Infinity],
    [digits], [digits.], [digits.digits] or [.digits], then an exponent if
    one follows), and the rest *)
Definition scanUnsignedDecimal (s : string) : option (decimal * string) :=
  match stripPrefix "Infinity" s with
  | Some rest => Some (DecInfinity, rest)
  | None =>
      let '(i, ilen, s1) := scanDigits 10 0 0 s in
      let '(m, flen, s2) :=
        match s1 with
        | String "." s1' =>
            let '(m, flen, s2) := scanDigits 10 i 0 s1' in
            match ilen, flen with
            | O, O => (i, O, s1)
            | _, _ => (m, flen, s2)
            end
        | _ => (i, O, s1)
        end in
      match ilen, flen with
      | O, O => None
      | _, _ =>
          match scanExponent s2 with
          | Some (e, rest) => Some (DecDigits m (e - Z.of_nat flen), rest)
          | None => Some (DecDigits m (- Z.of_nat flen), s2)
          end
      end
  end.

Definition decimalValue (neg : bool) (d : decimal) : number :=
  match d with
  | DecInfinity => S754_infinity neg
  | DecDigits m e => ofDecimal neg m e
  end.

(** the longest prefix that is a StrDecimalLiteral: its value and the rest *)
Definition scanStrDecimalLiteral (s : string) : option (number * string) :=
  let (neg, s') := scanSign s in
  match scanUnsignedDecimal s' with
  | Some (d, rest) => Some (decimalValue neg d, rest)
  | None => None
  end.

(** [parseFloat], for a string of code units below 256: the value of the
    longest prefix of the trimmed string that is a StrDecimalLiteral, [NaN]
    when there is none *)
Definition StringToFloat (input : string) : number :=
  match scanStrDecimalLiteral (trimStart input) with
  | Some (v, _) => v
  | None => NaN
  end.

(** a NonDecimalIntegerLiteral: [0x], [0o] or [0b] and digits, unsigned *)
Definition scanNonDecimal (s : string) : option (number * string) :=
  let radix :=
    match s with
    | String "0" (String c s') =>
        if existsb (Ascii.eqb c) ["x"; "X"]%char then Some (16%N, s')
        else if existsb (Ascii.eqb c) ["o"; "O"]%char then Some (8%N, s')
        else if existsb (Ascii.eqb c) ["b"; "B"]%char then Some (2%N, s')
        else None
    | _ => None
    end in
  match radix with
  | Some (r, s') =>
      match scanDigits r 0 0 s' with
      | (_, O, _) => None
      | (v, _, rest) => Some (ofZ (Z.of_N v), rest)
      end
  | None => None
  end.

(** StringToNumber, for a string of code units below 256: white space is
    trimmed on both sides, the empty string is [+0], and the whole of what
    remains has to be one numeric literal *)
Definition StringToNumber (input : string) : number :=
  let s := trimStart input in
  match s with
  | EmptyString => zero
  | _ =>
      match scanNonDecimal s with
      | Some (v, rest) => if allWhiteSpace rest then v else NaN
      | None =>
          match scanStrDecimalLiteral s with
          | Some (v, rest) => if allWhiteSpace rest then v else NaN
          | None => NaN
          end
      end
  end.

(** [String.prototype.padStart(targetLength, fillString)] *)
Fixpoint repeatTo (n : nat) (fill cur : string) : string :=
  match n with
  | O => EmptyString
  | S n' =>
      match cur with
      | String c cur' => String c (repeatTo n' fill cur')
      | EmptyString =>
          match fill with
          | String c fill' => String c (repeatTo n' fill fill')
          | EmptyString => EmptyString
          end
      end
  end.

Definition padStart (targetLength : nat) (fillString : string) (s : string)
  : string :=
  (repeatTo (targetLength - String.length s) fillString fillString ++ s)%string.

(** ** Texts *)

(** A text is a sequence of Unicode characters, each given by its code
    point. *)
Definition text : Type := list N.

(** WhiteSpace and LineTerminator: TAB, LF, VT, FF, CR, SP, NBSP, the other
    space separators (U+1680, U+2000 to U+200A, U+202F, U+205F, U+3000),
    LS, PS and ZWNBSP *)
Definition isStrWhiteSpaceChar (c : N) : bool :=
  existsb (N.eqb c)
    [9; 10; 11; 12; 13; 32; 160; 5760; 8232; 8233; 8239; 8287; 12288;
     65279]%N
  || (8192 <=? c)%N && (c <=? 8202)%N.

Fixpoint trimTextStart (s : text) : text :=
  match s with
  | c :: s' => if isStrWhiteSpaceChar c then trimTextStart s' else s
  | [] => []
  end.

Definition trimText (s : text) : text :=
  rev (trimTextStart (rev (trimTextStart s))).

(** the string of a text of ASCII characters *)
Fixpoint asciiString (s : text) : option string :=
  match s with
  | [] => Some EmptyString
  | c :: s' =>
      match asciiString s' with
      | Some r => if (c <? 128)%N then Some (String (ascii_of_N c) r) else None
      | None => None
      end
  end.

(** the text that a string of bytes encodes in UTF-8, which is how the
    texts of this file are written *)
Fixpoint utf8_from (pending : nat) (acc : N) (s : string) : text :=
  match s with
  | EmptyString => []
  | String b s' =>
      let n := code b in
      match pending with
      | O =>
          if (n <? 128)%N then n :: utf8_from 0 0 s'
          else if (n <? 224)%N then utf8_from 1 (n - 192)%N s'
          else if (n <? 240)%N then utf8_from 2 (n - 224)%N s'
          else utf8_from 3 (n - 240)%N s'
      | S O => (acc * 64 + (n - 128))%N :: utf8_from 0 0 s'
      | S p => utf8_from p (acc * 64 + (n - 128))%N s'
      end
  end.

Definition utf8 (s : string) : text := utf8_from 0 0 s.

(** the longest prefix of ASCII characters, as a string *)
Fixpoint asciiPrefix (s : text) : string :=
  match s with
  | c :: s' =>
      if (c <? 128)%N then String (ascii_of_N c) (asciiPrefix s')
      else EmptyString
  | [] => EmptyString
  end.

(** [parseFloat(text)]: a StrDecimalLiteral has ASCII characters only, so
    that the prefix read ends before the first other character *)
Definition parseFloat (input : text) : number :=
  StringToFloat (asciiPrefix (trimTextStart input)).

(** [Number(text)], which is what the global [isNaN] applies to its
    argument: a numeric literal has ASCII characters only, so that a text
    which, trimmed, has any other character is [NaN] *)
Definition Number (input : text) : number :=
  match asciiString (trimText input) with
  | Some s => StringToNumber s
  | None => NaN
  end.

End JSString.

Import JSString.

(* ===================================================================== *)
(** * The Date object *)
(* ===================================================================== *)

Module JSDate.

(** A Date holds a time value: milliseconds since 1970-01-01T00:00:00Z, or
    [None] for an Invalid Date (time value [NaN]). *)
Definition Date : Type := option Z.

Definition msPerDay : Z := 86400000.

Definition Day (t : Z) : Z := t / msPerDay.
Definition TimeWithinDay (t : Z) : Z := t mod msPerDay.
Definition MakeDate (day time : Z) : Z := day * msPerDay + time.

Definition TimeClip (t : Z) : Date :=
  if Z.abs t <=? 8640000000000000 then Some t else None.

(** day number of a date of the proleptic Gregorian calendar, month 1..12 *)
Definition daysFromCivil (y m d : Z) : Z :=
  let y := if m <=? 2 then y - 1 else y in
  let era := y / 400 in
  let yoe := y - era * 400 in
  let doy := (153 * (if 2 <? m then m - 3 else m + 9) + 2) / 5 + d - 1 in
  let doe := yoe * 365 + yoe / 4 - yoe / 100 + doy in
  era * 146097 + doe - 719468.

(** year, month (1..12) and day of the month of a day number *)
Definition civilFromDays (z : Z) : Z * Z * Z :=
  let z := z + 719468 in
  let era := z / 146097 in
  let doe := z - era * 146097 in
  let yoe := (doe - doe / 1460 + doe / 36524 - doe / 146096) / 365 in
  let doy := doe - (365 * yoe + yoe / 4 - yoe / 100) in
  let mp := (5 * doy + 2) / 153 in
  let d := doy - (153 * mp + 2) / 5 + 1 in
  let m := if mp <? 10 then mp + 3 else mp - 9 in
  ((yoe + era * 400) + (if m <=? 2 then 1 else 0), m, d).

Definition YearFromTime (t : Z) : Z := fst (fst (civilFromDays (Day t))).
(** months are numbered from 0, as [getMonth] and [setMonth] do *)
Definition MonthFromTime (t : Z) : Z := snd (fst (civilFromDays (Day t))) - 1.
Definition DateFromTime (t : Z) : Z := snd (civilFromDays (Day t)).

(** [MakeDay(year, month, date)]: a month outside 0..11 carries into the
    year, a date past the end of the month carries into the next month *)
Definition MakeDay (year month date : Z) : Z :=
  let ym := year + month / 12 in
  let mn := month mod 12 in
  daysFromCivil ym (mn + 1) 1 + date - 1.

Definition DaysInMonth (y m : Z) : Z :=
  MakeDay y m 1 - MakeDay y (m - 1) 1.

Section LocalTime.

(** [LocalTZA]: the offset of the server's local time zone from UTC, in
    milliseconds, for a zone with a fixed offset *)
Variable LocalTZA : Z.

Definition LocalTime (t : Z) : Z := t + LocalTZA.
Definition UTC (t : Z) : Z := t - LocalTZA.

(** [Date.prototype.getMonth()]; [None] is [NaN] *)
Definition getMonth (d : Date) : option Z :=
  match d with
  | Some t => Some (MonthFromTime (LocalTime t))
  | None => None
  end.

(** [Date.prototype.setMonth(month)]: the month of the LOCAL date is
    replaced, its day of the month and time of day are kept *)
Definition setMonth (d : Date) (month : option Z) : Date :=
  match d, month with
  | Some t, Some m =>
      let t := LocalTime t in
      let newDate :=
        MakeDate (MakeDay (YearFromTime t) m (DateFromTime t))
                 (TimeWithinDay t) in
      TimeClip (UTC newDate)
  | _, _ => None
  end.

End LocalTime.

Definition twoDigits (a b : ascii) : option Z :=
  match digitValue 10 a, digitValue 10 b with
  | Some x, Some y => Some (Z.of_N (10 * x + y))
  | _, _ => None
  end.

(** The date-only form [YYYY-MM-DD] of the date-time string format, which
    is read as midnight UTC. *)
Definition parseISODate (s : string) : Date :=
  match s with
  | String y1 (String y2 (String y3 (String y4 (String "-"
      (String m1 (String m2 (String "-"
        (String d1 (String d2 EmptyString))))))))) =>
      match twoDigits y1 y2, twoDigits y3 y4, twoDigits m1 m2,
            twoDigits d1 d2 with
      | Some yh, Some yl, Some m, Some d =>
          let y := 100 * yh + yl in
          if (1 <=? m) && (m <=? 12) && (1 <=? d)
             && (d <=? DaysInMonth y m)
          then Some (MakeDate (daysFromCivil y m d) 0)
          else None
      | _, _, _, _ => None
      end
  | _ => None
  end.

Section Parse.

(** What [new Date(string)] makes of a string that is not of the form
    above is implementation-defined (the other forms of the format, a
    fallback parser, or an Invalid Date): it is a parameter of the model. *)
Variable legacyDateParse : string -> Date.

(** [new Date(string)] *)
Definition newDate (s : string) : Date :=
  match parseISODate s with
  | Some t => Some t
  | None => legacyDateParse s
  end.

End Parse.

End JSDate.

Import JSDate.

(* ===================================================================== *)
(** * Regular expressions: the part of [$regex] with option [i] that is modelled *)
(* ===================================================================== *)

Module Regex.

(** the characters with a special meaning in a pattern *)
Definition isMeta (c : N) : bool :=
  existsb (N.eqb c)
    (map code
       ["\"; "^"; "$"; "."; "["; "]"; "|"; "("; ")"; "?"; "*"; "+"; "{";
        "}"]%char).

Definition dot : N := code ".".
Definition lineFeed : N := 10.

(** the lower case of a letter A to Z, any other character unchanged *)
Definition toLower (c : N) : N :=
  if (65 <=? c)%N && (c <=? 90)%N then (c + 32)%N else c.

Inductive atom : Type :=
| Lit (c : N)          (* an ordinary character, which stands for itself *)
| Dot.                 (* [.]: any character but a line feed *)

(** A pattern of the fragment is a sequence of ordinary characters and
    dots.  The character NUL is not ordinary: the store refuses a pattern
    that holds one. *)
Fixpoint parseFragment (p : text) : option (list atom) :=
  match p with
  | [] => Some []
  | c :: p' =>
      let a := if (c =? dot)%N then Some Dot
               else if isMeta c || (c =? 0)%N then None
               else Some (Lit c) in
      match a, parseFragment p' with
      | Some a, Some l => Some (a :: l)
      | _, _ => None
      end
  end.

Section Engine.

(** Under option [i] two characters are the same when they fold to the
    same character.  The letters A to Z fold to a to z; how the characters
    outside ASCII fold is in the Unicode tables of the store's engine, a
    parameter (the identity for an engine without such tables). *)
Variable unicodeFold : N -> N.

Definition fold (c : N) : N :=
  toLower (if (c <? 128)%N then c else unicodeFold c).

Definition atomMatches (a : atom) (c : N) : bool :=
  match a with
  | Lit l => (fold l =? fold c)%N
  | Dot => negb (c =? lineFeed)%N
  end.

(** the atoms match at the start of the subject *)
Fixpoint matchHere (atoms : list atom) (s : text) : bool :=
  match atoms, s with
  | [], _ => true
  | a :: atoms', c :: s' => atomMatches a c && matchHere atoms' s'
  | _ :: _, [] => false
  end.

(** the atoms match somewhere in the subject (a pattern is not anchored) *)
Fixpoint searchFrom (atoms : list atom) (s : text) : bool :=
  matchHere atoms s ||
  match s with
  | _ :: s' => searchFrom atoms s'
  | [] => false
  end.

(** What the store's regular-expression engine does with a pattern outside
    the fragment is a parameter: [None] when it rejects the pattern, else
    the test it applies to a subject. *)
Variable pcreOther : text -> option (text -> bool).

(** [{ $regex: pattern, $options: 'i' }]; a pattern that holds the
    character NUL is refused *)
Definition regexI (pattern : text) : option (text -> bool) :=
  if existsb (N.eqb 0) pattern then None
  else
    match parseFragment pattern with
    | Some atoms => Some (searchFrom atoms)
    | None => pcreOther pattern
    end.

End Engine.

End Regex.

Import Regex.

(* ===================================================================== *)
(** * Plain objects used as maps *)
(* ===================================================================== *)

Module JSObject.

(** The values met in the two tallies: a count, [NaN], [undefined], and
    whatever is inherited from [Object.prototype] (functions, and the
    prototype itself under [__proto__]).  Counts stay below 2^53, where
    [++] is exact, so they are kept as natural numbers. *)
Inductive value : Type :=
| Undefined
| Num (n : N)
| NotANumber
| Inherited.

(** the properties every object literal inherits from [Object.prototype] *)
Definition objectPrototypeKeys : list string :=
  ["constructor"; "__defineGetter__"; "__defineSetter__"; "hasOwnProperty";
   "__lookupGetter__"; "__lookupSetter__"; "isPrototypeOf";
   "propertyIsEnumerable"; "toString"; "valueOf"; "__proto__";
   "toLocaleString"].

Definition inherited (k : string) : bool :=
  existsb (String.eqb k) objectPrototypeKeys.

(** [o[k]]: an own property, else what the prototype has *)
Definition get (o : gmap string value) (k : string) : value :=
  match o !! k with
  | Some v => v
  | None => if inherited k then Inherited else Undefined
  end.

(** [o[k] = v] for a primitive [v]: an own property is written, except
    under [__proto__], whose inherited setter ignores a primitive *)
Definition set (o : gmap string value) (k : string) (v : value)
  : gmap string value :=
  if String.eqb k "__proto__" then o else <[k := v]> o.

(** [!v] is [negb (truthy v)] *)
Definition truthy (v : value) : bool :=
  match v with
  | Num n => negb (n =? 0)%N
  | Inherited => true
  | Undefined | NotANumber => false
  end.

(** the value [v++] stores: [ToNumeric(v) + 1] *)
Definition increment (v : value) : value :=
  match v with
  | Num n => Num (n + 1)
  | Undefined | NotANumber | Inherited => NotANumber
  end.

(** [o[k]++] *)
Definition postIncrement (o : gmap string value) (k : string)
  : gmap string value :=
  set o k (increment (get o k)).

End JSObject.

Import JSObject.

(* ===================================================================== *)
(** * The record store *)
(* ===================================================================== *)

(** Modelled from the spec: the schema of the stored transactions,
    [models/Transaction], which is not among the sources.  The fields are
    those of the data model of the specification (section 3); the fields
    that are only carried through are left out. *)
Record Transaction : Type := {
  _id : N;
  title : text;
  description : text;
  price : number;
  category : string;
  sold : bool;
  dateOfSale : Z;           (* a valid Date, as its time value *)
}.

(** What a failed operation throws inside a handler's [try] *)
Inductive thrown : Type :=
| InvalidMonthParameter    (* [new Error('Invalid month parameter')] *)
| StoreFailure             (* the store rejects the operation *)
| RequestFailure.          (* a request of [axios] fails *)

Inductive result (A : Type) : Type :=
| Return (a : A)
| Throw (e : thrown).
Arguments Return {A} a.
Arguments Throw {A} e.

Definition bind {A B : Type} (r : result A) (k : A -> result B) : result B :=
  match r with
  | Return a => k a
  | Throw e => Throw e
  end.

Notation "'let*' x ':=' r 'in' k" := (bind r (fun x => k))
  (at level 10, x pattern, r at level 100, k at level 200).

(** What a handler sends: [res.status(200).json(body)] or
    [res.status(500).json({ message })] *)
Inductive response (A : Type) : Type :=
| Ok200 (body : A)
| Error500 (message : string).
Arguments Ok200 {A} body.
Arguments Error500 {A} message.

(** [try { ... } catch (error) { res.status(500).json({ message }) }] *)
Definition tryCatch {A : Type} (body : result A) (message : string)
  : response A :=
  match body with
  | Return a => Ok200 a
  | Throw _ => Error500 message
  end.

Module Query.

(** the members of [$or] *)
Inductive clause : Type :=
| TitleRegexI (pattern : text)        (* { title: { $regex, $options: 'i' } } *)
| DescriptionRegexI (pattern : text)  (* { description: { $regex, $options: 'i' } } *)
| PriceEq (x : number).                 (* { price: x } *)

(** [{ dateOfSale: { $gte, $lt }, $or: [...] }]; [$or] is absent from the
    queries of the three aggregators *)
Record query : Type := {
  dateOfSale_gte : Date;
  dateOfSale_lt : Date;
  or_ : option (list clause);
}.

(** [query.$or.push(c)] *)
Definition push_or (q : query) (c : clause) : query :=
  {| dateOfSale_gte := dateOfSale_gte q;
     dateOfSale_lt := dateOfSale_lt q;
     or_ := match or_ q with
            | Some cs => Some (cs ++ [c])%list
            | None => None
            end |}.

(** [{ dateOfSale: { $gte: lo, $lt: hi } }] *)
Definition inWindow (lo hi : Z) (t : Transaction) : bool :=
  (lo <=? dateOfSale t) && (dateOfSale t <? hi).

(** What the store does beyond what is modelled here: how its
    regular-expression engine folds the case of the characters outside
    ASCII, what that engine does with a pattern outside the fragment, and
    how many of the documents of a result it puts into the first batch of
    its reply. *)
Record Mongo : Type := {
  caseFolding : N -> N;
  otherPattern : text -> option (text -> bool);
  firstBatch : list Transaction -> nat;
}.

Section Eval.

Variable mongo : Mongo.

(** a clause as a test on documents; [None] when the store rejects it *)
Definition compileClause (c : clause) : option (Transaction -> bool) :=
  match c with
  | TitleRegexI p =>
      match regexI (caseFolding mongo) (otherPattern mongo) p with
      | Some test => Some (fun t => test (title t))
      | None => None
      end
  | DescriptionRegexI p =>
      match regexI (caseFolding mongo) (otherPattern mongo) p with
      | Some test => Some (fun t => test (description t))
      | None => None
      end
  | PriceEq x => Some (fun t => eqb (price t) x)
  end.

Fixpoint compileOr (cs : list clause) : option (Transaction -> bool) :=
  match cs with
  | [] => Some (fun _ => false)
  | c :: cs' =>
      match compileClause c, compileOr cs' with
      | Some f, Some g => Some (fun t => f t || g t)
      | _, _ => None
      end
  end.

(** The query as a test on documents.  An Invalid Date cannot be cast to
    the type of [dateOfSale], a pattern may be rejected: the query then
    fails as a whole. *)
Definition compile (q : query) : result (Transaction -> bool) :=
  match dateOfSale_gte q, dateOfSale_lt q with
  | Some lo, Some hi =>
      match or_ q with
      | None => Return (inWindow lo hi)
      | Some cs =>
          match compileOr cs with
          | Some f => Return (fun t => inWindow lo hi t && f t)
          | None => Throw StoreFailure
          end
      end
  | _, _ => Throw StoreFailure
  end.

(** [Transaction.find(query)]: the matching documents, in natural order *)
Definition find (q : query) (store : list Transaction)
  : result (list Transaction) :=
  let* accepts := compile q in
  Return (List.filter accepts store).

(** [Transaction.countDocuments(query)] *)
Definition countDocuments (q : query) (store : list Transaction) : result Z :=
  let* accepts := compile q in
  Return (Z.of_nat (length (List.filter accepts store))).

(** [.skip(n)]: a negative [n] is rejected *)
Definition skip (n : Z) (docs : list Transaction)
  : result (list Transaction) :=
  if n <? 0 then Throw StoreFailure else Return (drop (Z.to_nat n) docs).

(** [.limit(n)]: 0 is no limit; a negative [n] limits like [-n] and asks
    for a single batch, so that no document beyond the first batch is
    returned *)
Definition limit (n : Z) (docs : list Transaction) : list Transaction :=
  if n =? 0 then docs
  else if n <? 0
       then take (Nat.min (Z.to_nat (- n)) (firstBatch mongo docs)) docs
       else take (Z.to_nat n) docs.

End Eval.

End Query.

Import Query.

(* ===================================================================== *)
(** * The controller *)
(* ===================================================================== *)

(** ** Seed loader *)

(** the [price] of a record of the fetched JSON array, which may be of any
    JSON type or missing *)
#[warnings="-register-all"]
Inductive rawValue : Type :=
| RawMissing               (* no such field: [undefined] *)
| RawNull
| RawBool (b : bool)
| RawNumber (x : number)
| RawString (s : text)
| RawArray (elements : list rawValue)
| RawObject.

Record RawTransaction : Type := {
  raw_id : N;
  raw_title : text;
  raw_description : text;
  raw_price : rawValue;
  raw_category : string;
  raw_sold : bool;
  raw_dateOfSale : Z;
}.

(** [parseFloat(v)] reads [ToString(v)].
    - For a number the string is the shortest decimal that reads back as
      that number, so that [parseFloat] returns it unchanged, but for [-0],
      written [0].
    - For an array the string is that of its elements, [null] and
      [undefined] written as nothing, with a comma after each but the
      last; no literal has a comma, so that what is read is the first
      element, or nothing when there is none.
    - For any other object the string is [[object Object]]. *)
Fixpoint parseFloatOf (v : rawValue) : number :=
  match v with
  | RawMissing => StringToFloat "undefined"
  | RawNull => StringToFloat "null"
  | RawBool b => StringToFloat (if b then "true" else "false")
  | RawNumber x =>
      match x with
      | S754_nan => StringToFloat "NaN"
      | S754_zero _ => StringToFloat "0"
      | _ => x
      end
  | RawString s => parseFloat s
  | RawArray [] => StringToFloat ""
  | RawArray (e :: _) =>
      match e with
      | RawMissing | RawNull => StringToFloat ""
      | _ => parseFloatOf e
      end
  | RawObject => StringToFloat "[object Object]"
  end.

(** the function mapped over [response.data] (lines 10-17) *)
Definition seedTransform (transaction : RawTransaction) : Transaction :=
  let price := parseFloatOf (raw_price transaction) in
  {| _id := raw_id transaction;
     title := raw_title transaction;
     description := raw_description transaction;
     category := raw_category transaction;
     sold := raw_sold transaction;
     dateOfSale := raw_dateOfSale transaction;
     price := if isNaN price then zero else price |}.

(** [response.data]: a JSON array of records, or something [map] cannot be
    applied to (a value that is not an array, or an array that holds
    [null]) *)
Inductive fetchedData : Type :=
| Records (data : list RawTransaction)
| NotRecords.

(** [initializeDatabase], as a transition of the store.  The outcomes of
    the three external calls are given: what [axios.get] resolves to,
    whether [deleteMany] fails, and whether [insertMany] stops with an
    error after some of the documents ([None]: it inserts them all).
    [deleteMany] runs before the fetched data is looked at (line 9). *)
Definition initializeDatabase
    (fetched : result fetchedData)
    (deleteFails : bool) (insertStops : option nat)
    (store : list Transaction) : list Transaction * response string :=
  let failure := Error500 "Error initializing database" in
  match fetched with
  | Throw _ => (store, failure)
  | Return data =>
      if deleteFails then (store, failure)
      else
        let store := [] in
        match data with
        | NotRecords => (store, failure)
        | Records data =>
            let transactions := map seedTransform data in
            match insertStops with
            | Some n => ((store ++ take n transactions)%list, failure)
            | None => ((store ++ transactions)%list,
                       Ok200 "Database initialized with seed data")
            end
        end
  end.

(** ** Month validation *)

(** [!month || isNaN(parseInt(month)) || parseInt(month) < 1 ||
    parseInt(month) > 12]; an absent parameter is [undefined] *)
Definition invalidMonth (month : option string) : bool :=
  match month with
  | None => true
  | Some m =>
      String.eqb m ""
      || match parseInt m with
         | None => true
         | Some n => (n <? 1) || (12 <? n)
         end
  end.

(** [if (...) { throw new Error('Invalid month parameter'); }] *)
Definition checkMonth (month : option string) : result string :=
  match month with
  | Some m =>
      if invalidMonth month then Throw InvalidMonthParameter else Return m
  | None => Throw InvalidMonthParameter
  end.

(** ** Response bodies *)

Record TransactionsBody : Type := {
  transactions : list Transaction;
  total : Z;
  page : Z;
  perPage : Z;
  totalPages : option Z;    (* [None]: not a finite number, sent as [null] *)
}.

Record StatisticsBody : Type := {
  totalSaleAmount : number;
  totalSoldItems : nat;
  totalNotSoldItems : nat;
}.

Record CombinedBody : Type := {
  c_transactions : TransactionsBody;
  c_statistics : StatisticsBody;
  c_barChart : gmap string value;
  c_pieChart : gmap string value;
}.

(** [req.query] of the list and combined requests; [page] and [perPage]
    are taken as the integers they denote *)
Record ListParams : Type := {
  q_month : option string;
  q_page : option Z;
  q_perPage : option Z;
  q_search : option text;
}.

(** [Math.ceil(total / perPage)] for integers below 2^53, where the
    quotient is rounded too little to change its ceiling; division by zero
    gives an infinity or [NaN] *)
Definition ceilDiv (total perPage : Z) : option Z :=
  if perPage =? 0 then None else Some (- ((- total) / perPage)).

Section Controller.

(** the environment of the server: its time zone, and what its JavaScript
    engine and its store do outside the modelled fragments *)
Variable LocalTZA : Z.
Variable legacyDateParse : string -> Date.
Variable mongo : Mongo.

(** ** Month window (lines 40-42, repeated in the four read handlers) *)
Definition monthWindow (month : string) : Date * Date :=
  let startDate := newDate legacyDateParse ("2021-" ++ month ++ "-01") in
  let endDate := startDate in
  let endDate :=
    setMonth LocalTZA endDate
      (match getMonth LocalTZA endDate with
       | Some m => Some (m + 1)
       | None => None
       end) in
  (startDate, endDate).

(** the query of the three aggregators: the window only *)
Definition windowQuery (month : string) : query :=
  let '(startDate, endDate) := monthWindow month in
  {| dateOfSale_gte := startDate; dateOfSale_lt := endDate; or_ := None |}.

(** ** Transaction lister *)

(** the query of [getTransactions] (lines 44-54) *)
Definition buildQuery (month : string) (search : text) : query :=
  let '(startDate, endDate) := monthWindow month in
  let query :=
    {| dateOfSale_gte := startDate; dateOfSale_lt := endDate;
       or_ := Some [TitleRegexI search; DescriptionRegexI search] |} in
  if negb (isNaN (Number search))
  then push_or query (PriceEq (Number search))
  else query.

Definition getTransactions_try (store : list Transaction) (q : ListParams)
  : result TransactionsBody :=
  let page := default 1 (q_page q) in
  let perPage := default 10 (q_perPage q) in
  let search := default [] (q_search q) in
  let* month := checkMonth (q_month q) in
  let month := padStart 2 "0" month in
  let query := buildQuery month search in
  let* found := find mongo query store in
  let* skipped := skip ((page - 1) * perPage) found in
  let transactions := limit mongo perPage skipped in
  let* total := countDocuments mongo query store in
  Return {| transactions := transactions;
            total := total;
            page := page;
            perPage := perPage;
            totalPages := ceilDiv total perPage |}.

Definition getTransactions (store : list Transaction) (q : ListParams)
  : response TransactionsBody :=
  tryCatch (getTransactions_try store q) "Error fetching transactions".

(** ** Statistics aggregator *)

Definition getStatistics_try (store : list Transaction)
    (month : option string) : result StatisticsBody :=
  let* month := checkMonth month in
  let month := padStart 2 "0" month in
  let* transactions := find mongo (windowQuery month) store in
  let totalSaleAmount :=
    fold_left (fun acc t => add acc (price t)) transactions zero in
  let totalSoldItems := length (List.filter (fun t => sold t) transactions) in
  let totalNotSoldItems :=
    length (List.filter (fun t => negb (sold t)) transactions) in
  Return {| totalSaleAmount := totalSaleAmount;
            totalSoldItems := totalSoldItems;
            totalNotSoldItems := totalNotSoldItems |}.

Definition getStatistics (store : list Transaction) (month : option string)
  : response StatisticsBody :=
  tryCatch (getStatistics_try store month) "Error fetching statistics".

(** ** Histogram aggregator *)

Definition priceRangeKeys : list string :=
  ["0-100"; "101-200"; "201-300"; "301-400"; "401-500"; "501-600";
   "601-700"; "701-800"; "801-900"; "901-above"].

(** the object literal of lines 136-147 *)
Definition priceRangesInit : gmap string value :=
  list_to_map (map (fun k => (k, Num 0)) priceRangeKeys).

(** the body of the [forEach] of lines 149-160 *)
Definition countPrice (priceRanges : gmap string value)
    (transaction : Transaction) : gmap string value :=
  let p := price transaction in
  if leb p (ofZ 100) then postIncrement priceRanges "0-100"
  else if leb p (ofZ 200) then postIncrement priceRanges "101-200"
  else if leb p (ofZ 300) then postIncrement priceRanges "201-300"
  else if leb p (ofZ 400) then postIncrement priceRanges "301-400"
  else if leb p (ofZ 500) then postIncrement priceRanges "401-500"
  else if leb p (ofZ 600) then postIncrement priceRanges "501-600"
  else if leb p (ofZ 700) then postIncrement priceRanges "601-700"
  else if leb p (ofZ 800) then postIncrement priceRanges "701-800"
  else if leb p (ofZ 900) then postIncrement priceRanges "801-900"
  else postIncrement priceRanges "901-above".

Definition getBarChartData_try (store : list Transaction)
    (month : option string) : result (gmap string value) :=
  let* month := checkMonth month in
  let month := padStart 2 "0" month in
  let* transactions := find mongo (windowQuery month) store in
  Return (fold_left countPrice transactions priceRangesInit).

Definition getBarChartData (store : list Transaction) (month : option string)
  : response (gmap string value) :=
  tryCatch (getBarChartData_try store month) "Error fetching bar chart data".

(** ** Category aggregator *)

(** the body of the [forEach] of lines 193-198 *)
Definition countCategory (categories : gmap string value)
    (transaction : Transaction) : gmap string value :=
  let categories :=
    if negb (truthy (get categories (category transaction)))
    then set categories (category transaction) (Num 0)
    else categories in
  postIncrement categories (category transaction).

Definition getPieChartData_try (store : list Transaction)
    (month : option string) : result (gmap string value) :=
  let* month := checkMonth month in
  let month := padStart 2 "0" month in
  let* transactions := find mongo (windowQuery month) store in
  Return (fold_left countCategory transactions ∅).

Definition getPieChartData (store : list Transaction) (month : option string)
  : response (gmap string value) :=
  tryCatch (getPieChartData_try store month) "Error fetching pie chart data".

(** ** Combined view *)

(** [await axios.get(url, { params })] against this same server: the body
    of a 200 response, a rejection for a 500 response *)
Definition axiosGet {A : Type} (r : response A) : result A :=
  match r with
  | Ok200 body => Return body
  | Error500 _ => Throw RequestFailure
  end.

Definition getCombinedData_try (store : list Transaction) (q : ListParams)
  : result CombinedBody :=
  let search := default [] (q_search q) in
  let page := default 1 (q_page q) in
  let perPage := default 10 (q_perPage q) in
  let* month := checkMonth (q_month q) in
  let month := padStart 2 "0" month in
  let* transactionsResponse :=
    axiosGet (getTransactions store
                {| q_month := Some month; q_search := Some search;
                   q_page := Some page; q_perPage := Some perPage |}) in
  let* statisticsResponse := axiosGet (getStatistics store (Some month)) in
  let* barChartResponse := axiosGet (getBarChartData store (Some month)) in
  let* pieChartResponse := axiosGet (getPieChartData store (Some month)) in
  Return {| c_transactions := transactionsResponse;
            c_statistics := statisticsResponse;
            c_barChart := barChartResponse;
            c_pieChart := pieChartResponse |}.

Definition getCombinedData (store : list Transaction) (q : ListParams)
  : response CombinedBody :=
  tryCatch (getCombinedData_try store q) "Error fetching combined data".

End Controller.

(* ===================================================================== *)
(** * Vocabulary of the specification *)
(* ===================================================================== *)

(** the number of elements that pass a test *)
Definition countWhere {A : Type} (f : A -> bool) (l : list A) : nat :=
  length (List.filter f l).

(** [accumulates xs s]: [s] is the running total of [xs], taken from 0 and
    from left to right *)
Inductive accumulates : list number -> number -> Prop :=
| accumulates_nil : accumulates [] zero
| accumulates_snoc xs s x :
    accumulates xs s -> accumulates (xs ++ [x])%list (add s x).

(** the ten price ranges: the bound a price has to exceed, and the bound it
    may reach *)
Definition priceRangeBounds : list (string * (option Z * option Z)) :=
  [("0-100", (None, Some 100)); ("101-200", (Some 100, Some 200));
   ("201-300", (Some 200, Some 300)); ("301-400", (Some 300, Some 400));
   ("401-500", (Some 400, Some 500)); ("501-600", (Some 500, Some 600));
   ("601-700", (Some 600, Some 700)); ("701-800", (Some 700, Some 800));
   ("801-900", (Some 800, Some 900)); ("901-above", (Some 900, None))].

Fixpoint boundsOf (k : string) (table : list (string * (option Z * option Z)))
  : option (option Z * option Z) :=
  match table with
  | [] => None
  | (k', b) :: table' => if String.eqb k k' then Some b else boundsOf k table'
  end.

(** a price lies in the range named [k]: it is not at or below the lower
    bound, and it is at or below the upper bound *)
Definition inPriceRange (k : string) (p : number) : bool :=
  match boundsOf k priceRangeBounds with
  | Some (lo, hi) =>
      match lo with Some l => negb (leb p (ofZ l)) | None => true end
      && match hi with Some h => leb p (ofZ h) | None => true end
  | None => false
  end.

(** the key under which [countPrice] counts a price *)
Definition bucketOf (p : number) : string :=
  if leb p (ofZ 100) then "0-100"
  else if leb p (ofZ 200) then "101-200"
  else if leb p (ofZ 300) then "201-300"
  else if leb p (ofZ 400) then "301-400"
  else if leb p (ofZ 500) then "401-500"
  else if leb p (ofZ 600) then "501-600"
  else if leb p (ofZ 700) then "601-700"
  else if leb p (ofZ 800) then "701-800"
  else if leb p (ofZ 900) then "801-900"
  else "901-above".

Definition isPriceRangeKey (k : string) : bool :=
  existsb (String.eqb k) priceRangeKeys.

(** the count an object holds under a key, 0 when it holds none *)
Definition countOf (o : gmap string value) (k : string) : N :=
  match o !! k with
  | Some (Num n) => n
  | _ => 0%N
  end.

(** the characters of a text, the letters A to Z in lower case *)
Definition lower (s : text) : text := map toLower s.

(** the characters of a text, each folded as the store folds it under
    option [i]: A to Z to lower case, the characters outside ASCII by the
    tables of the store *)
Definition folded (unicodeFold : N -> N) (s : text) : text :=
  map (fold unicodeFold) s.

(** [needle] occurs in [hay], case apart *)
Definition ci_contains (unicodeFold : N -> N) (needle hay : text) : Prop :=
  exists pre post : text,
    folded unicodeFold hay
    = (pre ++ folded unicodeFold needle ++ post)%list.

(** a character [p] of a search string against a character [c] of a text:
    a dot stands for any character but a line feed, any other character
    for itself, case apart *)
Definition matchesChar (unicodeFold : N -> N) (p c : N) : Prop :=
  if (p =? dot)%N then c <> lineFeed
  else fold unicodeFold p = fold unicodeFold c.

(** [hay] has a run of characters that the characters of [needle] match
    one by one *)
Definition dot_contains (unicodeFold : N -> N) (needle hay : text) : Prop :=
  exists pre mid post : text,
    hay = (pre ++ mid ++ post)%list
    /\ Forall2 (matchesChar unicodeFold) needle mid.

(** a character that stands for itself in a pattern *)
Definition isOrdinary (c : N) : bool := negb (isMeta c) && negb (c =? 0)%N.

(** a search string in which the dot is the only character that is
    special in a pattern, and which has no NUL *)
Fixpoint dottedSearch (s : text) : bool :=
  match s with
  | [] => true
  | c :: s' => ((c =? dot)%N || isOrdinary c) && dottedSearch s'
  end.

(** the atom a character of such a search string is read as *)
Definition atomOf (c : N) : atom :=
  if (c =? dot)%N then Dot else Lit c.

(** a search string without any character that is special in a pattern *)
Fixpoint literalSearch (s : text) : bool :=
  match s with
  | [] => true
  | c :: s' => isOrdinary c && literalSearch s'
  end.

(** ** Decimal numerals *)

(** the characters of a sequence of decimal digits *)
Definition digitsText (ds : list N) : text := map (fun d => (48 + d)%N) ds.

(** a sequence of decimal digits: each is below 10 *)
Definition areDigits (ds : list N) : bool :=
  forallb (fun d => (d <? 10)%N) ds.

(** the natural number that a sequence of digits writes *)
Definition digitsValue (ds : list N) : N :=
  fold_left (fun a d => (a * 10 + d)%N) ds 0%N.

Inductive sign : Type := NoSign | Plus | Minus.

Definition signText (s : sign) : text :=
  match s with NoSign => [] | Plus => [43%N] | Minus => [45%N] end.

Definition isMinus (s : sign) : bool :=
  match s with Minus => true | _ => false end.

(** a text consists of white space *)
Definition isBlank (s : text) : bool := forallb isStrWhiteSpaceChar s.

(** what follows a numeral ends it: it does not start with a digit nor
    with the letter of an exponent *)
Definition endsNumeral (rest : text) : bool :=
  match rest with
  | [] => true
  | c :: _ =>
      negb ((48 <=? c)%N && (c <=? 57)%N || (c =? 101)%N || (c =? 69)%N)
  end.

(** what follows a numeral without a dot ends it: nor does it start with
    a dot *)
Definition endsInteger (rest : text) : bool :=
  endsNumeral rest
  && match rest with [] => true | c :: _ => negb (c =? 46)%N end.

(** a text starts, after white space, like a number: with a digit, a
    sign, a dot or the I of Infinity *)
Definition startsNumber (s : text) : bool :=
  match trimTextStart s with
  | [] => false
  | c :: _ =>
      (48 <=? c)%N && (c <=? 57)%N || existsb (N.eqb c) [43; 45; 46; 73]%N
  end.

(** the string of a sequence of decimal digits *)
Fixpoint digitsString (ds : list N) : string :=
  match ds with
  | [] => EmptyString
  | d :: ds' => String (ascii_of_N (48 + d)) (digitsString ds')
  end.

(** ** Sample environment and records *)

(** a server on UTC whose engine and store reject what is not modelled *)
Definition utc : Z := 0.
Definition noLegacyParse : string -> Date := fun _ => None.
(** a store that folds no case outside ASCII, whose engine rejects a
    pattern outside the fragment, and whose batches hold any result *)
Definition plainMongo : Mongo :=
  {| caseFolding := fun c => c;
     otherPattern := fun _ => None;
     firstBatch := fun docs => length docs |}.

(** the same store with batches of two documents *)
Definition smallBatches : Mongo :=
  {| caseFolding := fun c => c;
     otherPattern := fun _ => None;
     firstBatch := fun _ => 2%nat |}.

(** a server five hours west of UTC *)
Definition utcMinus5 : Z := -18000000.

Definition sale (n : N) (title description price category : string)
    (sold : bool) (dateOfSale : string) : Transaction :=
  {| _id := n; title := utf8 title; description := utf8 description;
     price := StringToNumber price; category := category; sold := sold;
     dateOfSale := default 0 (parseISODate dateOfSale) |}.

Definition threePrices : list Transaction :=
  [sale 1 "pen" "blue" "0.1" "office" true "2021-03-05";
   sale 2 "ink" "black" "0.2" "office" true "2021-03-06";
   sale 3 "pad" "ruled" "0.3" "office" false "2021-03-07"].

Definition onlyMonth (month : string) : ListParams :=
  {| q_month := Some month; q_page := None; q_perPage := None;
     q_search := None |}.

Definition searching (month search : string) : ListParams :=
  {| q_month := Some month; q_page := None; q_perPage := None;
     q_search := Some (utf8 search) |}.

Definition item125 : Transaction :=
  sale 7 "Item 125" "spare part" "150" "tools" false "2021-03-01".

(** a record whose title has a character outside ASCII (U+2019) *)
Definition usersGuide : Transaction :=
  sale 8 "User’s guide" "printed" "12" "books" true "2021-03-02".

(** the month parameter as a client writes it, for the months 1 to 12 *)
Definition monthParams : list (Z * string) :=
  [(1, "1"); (2, "2"); (3, "3"); (4, "4"); (5, "5"); (6, "6");
   (7, "7"); (8, "8"); (9, "9"); (10, "10"); (11, "11"); (12, "12")].

(** the first instant (UTC) of day 1 of month [n] of 2021; month 13 is
    January 2022 *)
Definition firstOfMonth (n : Z) : Z := MakeDate (MakeDay 2021 (n - 1) 1) 0.

Definition builderKit : Transaction :=
  sale 9 "kit" "builder kit" "10" "constructor" true "2021-03-05".

(** a raw record with a given [price] field *)
Definition rawWithPrice (v : rawValue) : RawTransaction :=
  {| raw_id := 1; raw_title := utf8 "mug"; raw_description := utf8 "blue mug";
     raw_price := v; raw_category := "home"; raw_sold := false;
     raw_dateOfSale := 1614556800000 |}.

Definition paging (month : string) (page perPage : Z) : ListParams :=
  {| q_month := Some month; q_page := Some page; q_perPage := Some perPage;
     q_search := None |}.

Definition twentyFiveSales : list Transaction :=
  map (fun i => sale (N.of_nat i) "lamp" "desk lamp" "20" "home" true
                  "2021-03-10")
      (seq 1 25).

(** what [getCombinedData] asks of [/api/transactions] *)
Definition forwarded (month : string) (q : ListParams) : ListParams :=
  {| q_month := Some month;
     q_search := Some (default [] (q_search q));
     q_page := Some (default 1 (q_page q));
     q_perPage := Some (default 10 (q_perPage q)) |}.

(** the same request for another page *)
Definition withPage (q : ListParams) (p : Z) : ListParams :=
  {| q_month := q_month q; q_page := Some p; q_perPage := q_perPage q;
     q_search := q_search q |}.

(** the same request with the month written another way *)
Definition withMonth (q : ListParams) (month : string) : ListParams :=
  {| q_month := Some month; q_page := q_page q; q_perPage := q_perPage q;
     q_search := q_search q |}.

(** the same request with another search string *)
Definition withSearch (q : ListParams) (search : text) : ListParams :=
  {| q_month := q_month q; q_page := q_page q; q_perPage := q_perPage q;
     q_search := Some search |}.

(** the records on page [p] of a listing, none when the request fails *)
Definition listedPage (LocalTZA : Z) (legacyDateParse : string -> Date)
    (mongo : Mongo)
    (store : list Transaction) (q : ListParams) (p : Z) : list Transaction :=
  match getTransactions LocalTZA legacyDateParse mongo store
          (withPage q p) with
  | Ok200 body => transactions body
  | Error500 _ => []
  end.

(** a fetched record is dated within a range *)
Definition rawInWindow (lo hi : Z) (raw : RawTransaction) : bool :=
  (lo <=? raw_dateOfSale raw) && (raw_dateOfSale raw <? hi).

(** the page numbers 1 to [pages] *)
Definition pageNumbers (pages : Z) : list Z :=
  map (fun i => Z.of_nat i + 1) (seq 0 (Z.to_nat pages)).

(** the string starts with a decimal digit *)
Definition startsWithDigit (s : string) : bool :=
  match s with
  | String c _ =>
      match digitValue 10 c with Some _ => true | None => false end
  | EmptyString => false
  end.

(** the sum of the counts an object holds under the keys of a list *)
Definition sumCounts (o : gmap string value) (keys : list string) : N :=
  fold_right N.add 0%N (map (countOf o) keys).

(* ===================================================================== *)
(** * Properties *)
(* ===================================================================== *)

(** ** The model of JavaScript on known values *)

Example Number_of_strings :
  Number (utf8 "150") = ofZ 150
  /\ Number (utf8 "") = zero
  /\ Number (utf8 "  ") = zero
  /\ Number (utf8 " 42.5 ") = ofDecimal false 425 (-1)
  /\ Number (utf8 "1e3") = ofZ 1000
  /\ Number (utf8 "0x10") = ofZ 16
  /\ Number (utf8 "-0") = S754_zero true
  /\ Number (utf8 "Infinity") = Infinity
  /\ Number (utf8 "abc") = NaN
  /\ Number (utf8 "12abc") = NaN
  /\ Number (utf8 "1.5.2") = NaN
  /\ Number (utf8 ".") = NaN.
Proof. repeat split; vm_compute; reflexivity. Qed.

(** white space is that of Unicode (U+3000, U+2028, U+00A0); digits are
    the ASCII ones only; [parseFloat] stops at the first character that
    does not go on with the literal *)
Example numbers_in_texts :
  Number [12288; 49; 50; 8232]%N = ofZ 12
  /\ Number (utf8 "１２") = NaN
  /\ Number (utf8 "12€") = NaN
  /\ parseFloat (utf8 "42.5€") = ofDecimal false 425 (-1)
  /\ parseFloat [160; 55]%N = ofZ 7
  /\ parseFloat (utf8 "€42.5") = NaN
  /\ utf8 "€" = [8364]%N.
Proof. repeat split; vm_compute; reflexivity. Qed.

(** 0.1 is the double [0x3FB999999999999A]; 1e23 rounds down; the decimals
    next to the smallest normal number fall on either side of it; 2^53 + 1
    rounds to 2^53; the largest double is read back from its shortest
    decimal; less than half the smallest subnormal rounds to 0 *)
Example Number_rounds_to_nearest_even :
  Number (utf8 "0.1") = S754_finite false 7205759403792794 (-56)
  /\ Number (utf8 "329.85") = S754_finite false 5802782566750618 (-44)
  /\ Number (utf8 "1e23") = S754_finite false 5960464477539062 24
  /\ Number (utf8 "2.2250738585072012e-308")
     = S754_finite false 4503599627370496 (-1074)
  /\ Number (utf8 "2.2250738585072011e-308")
     = S754_finite false 4503599627370495 (-1074)
  /\ Number (utf8 "9007199254740993") = ofZ 9007199254740992
  /\ Number (utf8 "1.7976931348623157e308")
     = S754_finite false 9007199254740991 971
  /\ Number (utf8 "1.8e308") = Infinity
  /\ Number (utf8 "5e-324") = S754_finite false 1 (-1074)
  /\ Number (utf8 "2e-324") = zero
  /\ valid_binary prec emax (Number (utf8 "0.1")) = true
  /\ valid_binary prec emax (Number (utf8 "5e-324")) = true.
Proof. repeat split; vm_compute; reflexivity. Qed.

Example parseFloat_of_strings :
  parseFloat (utf8 "42.5") = ofDecimal false 425 (-1)
  /\ parseFloat (utf8 "  42.5abc") = ofDecimal false 425 (-1)
  /\ parseFloat (utf8 "-.5e1x") = Number (utf8 "-5")
  /\ parseFloat (utf8 "1e") = ofZ 1
  /\ parseFloat (utf8 "Infinityx") = Infinity
  /\ parseFloat (utf8 "abc") = NaN
  /\ parseFloat (utf8 "") = NaN
  /\ parseFloat (utf8 ".") = NaN
  /\ parseFloat (utf8 "undefined") = NaN
  /\ parseFloat (utf8 "null") = NaN.
Proof. repeat split; vm_compute; reflexivity. Qed.

Example parseInt_of_strings :
  parseInt "3" = Some 3
  /\ parseInt "03" = Some 3
  /\ parseInt " 12" = Some 12
  /\ parseInt "12abc" = Some 12
  /\ parseInt "1.5" = Some 1
  /\ parseInt "0xC" = Some 12
  /\ parseInt "-3" = Some (-3)
  /\ parseInt "13" = Some 13
  /\ parseInt "" = None
  /\ parseInt "abc" = None
  /\ parseInt "0x" = None.
Proof. repeat split; vm_compute; reflexivity. Qed.

Example padStart_of_months :
  padStart 2 "0" "3" = "03"
  /\ padStart 2 "0" "12" = "12"
  /\ padStart 2 "0" "3abc" = "3abc"
  /\ padStart 5 "ab" "x" = "ababx".
Proof. repeat split; vm_compute; reflexivity. Qed.

(** day 0 is 1 January 1970; the two calendar functions are inverse of
    each other on the days from 2019 to 2023; the months of 2021 have their
    lengths *)
Example calendar_of_2021 :
  daysFromCivil 1970 1 1 = 0
  /\ civilFromDays 0 = (1970, 1, 1)
  /\ forallb
       (fun d => let '(y, m, dd) := civilFromDays d in
                 (daysFromCivil y m dd =? d)
                 && (1 <=? m) && (m <=? 12) && (1 <=? dd) && (dd <=? 31))
       (map (fun i => daysFromCivil 2019 1 1 + Z.of_nat i) (seq 0 1826))
     = true
  /\ map (DaysInMonth 2021) [1; 2; 3; 4; 5; 6; 7; 8; 9; 10; 11; 12]
     = [31; 28; 31; 30; 31; 30; 31; 31; 30; 31; 30; 31]
  /\ parseISODate "2021-03-01" = Some 1614556800000
  /\ parseISODate "2021-3-01" = None
  /\ firstOfMonth 13 = default 0 (parseISODate "2022-01-01").
Proof. repeat split; vm_compute; reflexivity. Qed.

(** [setMonth] on the server's clock: on UTC 1 March becomes 1 April; five
    hours behind UTC the same instant is 28 February, 19:00, and becomes
    28 March, 19:00; a day of the month that the new month does not have
    carries over *)
Example setMonth_on_local_dates :
  setMonth utc (parseISODate "2021-03-01") (Some 3)
  = parseISODate "2021-04-01"
  /\ getMonth utcMinus5 (parseISODate "2021-03-01") = Some 1
  /\ setMonth utcMinus5 (parseISODate "2021-03-01") (Some 2)
     = parseISODate "2021-03-29"
  /\ setMonth utc (parseISODate "2021-01-31") (Some 1)
     = parseISODate "2021-03-03"
  /\ setMonth utc (parseISODate "2021-12-01") (Some 12)
     = parseISODate "2022-01-01".
Proof. repeat split; vm_compute; reflexivity. Qed.

(** an object literal used as a map: a fresh key counts from 1, an inherited
    one does not *)
Example tally_on_object_literal :
  countCategory ∅ builderKit !! "constructor" = Some NotANumber
  /\ countCategory ∅ item125 !! "tools" = Some (Num 1)
  /\ countCategory (countCategory ∅ item125) item125 !! "tools"
     = Some (Num 2)
  /\ get ∅ "toString" = Inherited
  /\ get ∅ "tools" = Undefined.
Proof. repeat split; vm_compute; reflexivity. Qed.

(** the outcomes of the seed loader: the store is emptied before the
    fetched data is looked at, and is left as it was when the fetch or the
    deletion fails *)
Example loader_outcomes :
  initializeDatabase (Return NotRecords) false None threePrices
  = ([], Error500 "Error initializing database")
  /\ initializeDatabase (Throw RequestFailure) false None threePrices
     = (threePrices, Error500 "Error initializing database")
  /\ initializeDatabase (Return (Records [])) true None threePrices
     = (threePrices, Error500 "Error initializing database")
  /\ fst (initializeDatabase
            (Return (Records [rawWithPrice RawNull; rawWithPrice RawObject]))
            false (Some 1%nat) threePrices)
     = [seedTransform (rawWithPrice RawNull)]
  /\ parseFloatOf (RawArray [RawNumber (ofZ 5); RawNumber (ofZ 6)]) = ofZ 5
  /\ parseFloatOf (RawArray [RawNull; RawNumber (ofZ 6)]) = NaN
  /\ parseFloatOf (RawArray [RawString (utf8 "12abc")]) = ofZ 12.
Proof. repeat split; vm_compute; reflexivity. Qed.

(** patterns of the fragment, and outside of it; a dot stands for one
    character, of whatever length in its encoding (the apostrophe U+2019
    takes three bytes in UTF-8); a pattern with the character NUL is
    refused whatever the engine does with other patterns *)
Example patterns_of_the_fragment :
  parseFragment (utf8 "abc") = Some [Lit 97; Lit 98; Lit 99]
  /\ parseFragment (utf8 "1.5") = Some [Lit 49; Dot; Lit 53]
  /\ parseFragment (utf8 "a*") = None
  /\ parseFragment (utf8 "(") = None
  /\ searchFrom (fun c => c) [Lit 97; Lit 98; Lit 99] (utf8 "ABCdef") = true
  /\ searchFrom (fun c => c) [Lit 49; Dot; Lit 53] (utf8 "Item 125") = true
  /\ searchFrom (fun c => c) [Lit 49; Lit 53; Lit 48] (utf8 "Item 125")
     = false
  /\ utf8 "user’s" = [117; 115; 101; 114; 8217; 115]%N
  /\ searchFrom (fun c => c) [Lit 114; Dot; Lit 115] (utf8 "user’s") = true
  /\ searchFrom (fun c => c) [Lit 114; Dot; Dot; Dot; Lit 115]
       (utf8 "user’s") = false
  /\ (forall fold other, regexI fold other [97; 0; 98]%N = None).
Proof. repeat split; vm_compute; reflexivity. Qed.

(** ** Comparison of numbers *)

Lemma compare_cont_Eq m n : Pos.compare_cont Eq m n = Pos.compare m n.
Proof. reflexivity. Qed.

Ltac compare_cases :=
  repeat match goal with
  | H : context [Z.compare ?a ?b] |- _ => destruct (Z.compare_spec a b)
  | |- context [Z.compare ?a ?b] => destruct (Z.compare_spec a b)
  | H : context [Pos.compare ?a ?b] |- _ => destruct (Pos.compare_spec a b)
  | |- context [Pos.compare ?a ?b] => destruct (Pos.compare_spec a b)
  end.

Ltac by_comparison :=
  unfold leb, ltb, eqb, SFleb, SFltb, SFeqb, SFcompare;
  repeat match goal with
  | x : number |- _ => destruct x as [[]|[]| |[] ? ?]
  | x : spec_float |- _ => destruct x as [[]|[]| |[] ? ?]
  end;
  simpl; try congruence; try reflexivity; intros;
  rewrite ?compare_cont_Eq in *; compare_cases; simpl in *;
  try congruence; try lia.

Lemma leb_trans (x y z : number) :
  leb x y = true -> leb y z = true -> leb x z = true.
Proof. by_comparison. Qed.

Lemma ltb_not_leb (x y : number) : ltb y x = true -> leb x y = false.
Proof. by_comparison. Qed.

Lemma not_leb_ltb (x y : number) :
  isNaN x = false -> isNaN y = false -> leb x y = false -> ltb y x = true.
Proof. by_comparison. Qed.

(** ** Running the handlers *)

Section Running.

Variable LocalTZA : Z.
Variable legacyDateParse : string -> Date.
Variable mongo : Mongo.

Lemma find_windowQuery (m : string) (lo hi : Z) (store : list Transaction) :
  monthWindow LocalTZA legacyDateParse m = (Some lo, Some hi) ->
  find mongo (windowQuery LocalTZA legacyDateParse m) store
  = Return (List.filter (inWindow lo hi) store).
Proof.
  intros Hw. unfold find, windowQuery, compile. rewrite Hw. reflexivity.
Qed.

Lemma getStatistics_run store month m lo hi :
  checkMonth month = Return m ->
  monthWindow LocalTZA legacyDateParse (padStart 2 "0" m) = (Some lo, Some hi) ->
  getStatistics LocalTZA legacyDateParse mongo store month
  = Ok200
      (let matching := List.filter (inWindow lo hi) store in
       {| totalSaleAmount :=
            fold_left (fun acc t => add acc (price t)) matching zero;
          totalSoldItems := countWhere (fun t => sold t) matching;
          totalNotSoldItems := countWhere (fun t => negb (sold t)) matching |}).
Proof.
  intros Hm Hw. unfold getStatistics, getStatistics_try.
  rewrite Hm. cbn [bind]. rewrite (find_windowQuery _ _ _ _ Hw). reflexivity.
Qed.

Lemma getBarChartData_run store month m lo hi :
  checkMonth month = Return m ->
  monthWindow LocalTZA legacyDateParse (padStart 2 "0" m) = (Some lo, Some hi) ->
  getBarChartData LocalTZA legacyDateParse mongo store month
  = Ok200 (fold_left countPrice (List.filter (inWindow lo hi) store)
             priceRangesInit).
Proof.
  intros Hm Hw. unfold getBarChartData, getBarChartData_try.
  rewrite Hm. cbn [bind]. rewrite (find_windowQuery _ _ _ _ Hw). reflexivity.
Qed.

Lemma getPieChartData_run store month m lo hi :
  checkMonth month = Return m ->
  monthWindow LocalTZA legacyDateParse (padStart 2 "0" m) = (Some lo, Some hi) ->
  getPieChartData LocalTZA legacyDateParse mongo store month
  = Ok200 (fold_left countCategory (List.filter (inWindow lo hi) store) ∅).
Proof.
  intros Hm Hw. unfold getPieChartData, getPieChartData_try.
  rewrite Hm. cbn [bind]. rewrite (find_windowQuery _ _ _ _ Hw). reflexivity.
Qed.

End Running.

(** ** Statistics *)

Lemma accumulates_fold_left (xs : list number) :
  accumulates xs (fold_left add xs zero).
Proof.
  induction xs as [|x xs IH] using rev_ind.
  - constructor.
  - rewrite fold_left_app. cbn [fold_left]. now constructor.
Qed.

Lemma fold_left_price (l : list Transaction) (a : number) :
  fold_left (fun acc t => add acc (price t)) l a
  = fold_left add (map price l) a.
Proof. revert a. induction l as [|t l IH]; intros a; cbn; auto. Qed.

Lemma countWhere_split {A : Type} (f : A -> bool) (l : list A) :
  (countWhere f l + countWhere (fun x => negb (f x)) l = length l)%nat.
Proof.
  unfold countWhere. induction l as [|x l IH]; cbn; [reflexivity|].
  destruct (f x); cbn; lia.
Qed.

Lemma countWhere_filter {A : Type} (f g : A -> bool) (l : list A) :
  countWhere f (List.filter g l) = countWhere (fun x => g x && f x) l.
Proof.
  unfold countWhere. induction l as [|x l IH]; cbn; [reflexivity|].
  destruct (g x); cbn; [destruct (f x); cbn; congruence | exact IH].
Qed.

Lemma countWhere_Permutation {A : Type} (f : A -> bool) (l l' : list A) :
  Permutation l l' -> countWhere f l = countWhere f l'.
Proof.
  unfold countWhere. induction 1 as [|x l l' _ IH|x y l|l l' l'' _ IH1 _ IH2];
    cbn; try reflexivity.
  - destruct (f x); cbn; congruence.
  - destruct (f x), (f y); reflexivity.
  - congruence.
Qed.

(** C10: the sold and unsold tallies of the statistics add up to the number
    of records whose [dateOfSale] lies in the month window: every such
    record is counted in exactly one of the two. *)
Theorem statistics_sold_partition
    (LocalTZA : Z) (legacyDateParse : string -> Date)
    (mongo : Mongo)
    (store : list Transaction) (month : option string) (m : string)
    (lo hi : Z) :
  checkMonth month = Return m ->
  monthWindow LocalTZA legacyDateParse (padStart 2 "0" m) = (Some lo, Some hi) ->
  exists body,
    getStatistics LocalTZA legacyDateParse mongo store month = Ok200 body
    /\ (totalSoldItems body + totalNotSoldItems body)%nat
       = countWhere (inWindow lo hi) store.
Proof.
  intros Hm Hw. eexists. split.
  - exact (getStatistics_run _ _ _ store month m lo hi Hm Hw).
  - cbn [totalSoldItems totalNotSoldItems].
    exact (countWhere_split (fun t => sold t) _).
Qed.

Lemma statistics_sold_partition_witness :
  checkMonth (Some "3") = Return "3"
  /\ monthWindow utc noLegacyParse (padStart 2 "0" "3")
     = (Some 1614556800000, Some 1617235200000)
  /\ exists body,
       getStatistics utc noLegacyParse plainMongo threePrices (Some "3")
       = Ok200 body
       /\ (totalSoldItems body + totalNotSoldItems body)%nat
          = countWhere (inWindow 1614556800000 1617235200000) threePrices.
Proof.
  split; [(vm_compute; reflexivity)|]. split; [(vm_compute; reflexivity)|].
  apply (statistics_sold_partition utc noLegacyParse plainMongo
           threePrices (Some "3") "3"); (vm_compute; reflexivity).
Defined.

(** C6, as amended: the statistics are taken over the records of the month
    window, whatever the search; [totalSaleAmount] is the running total of
    their prices, accumulated in binary64 from 0 in the order of the store;
    [totalSoldItems] and [totalNotSoldItems] count the records of the window
    with [sold] true and false, and these two do not depend on the order of
    the store. *)
Theorem statistics_totals
    (LocalTZA : Z) (legacyDateParse : string -> Date)
    (mongo : Mongo)
    (store : list Transaction) (month : option string) (m : string)
    (lo hi : Z) :
  checkMonth month = Return m ->
  monthWindow LocalTZA legacyDateParse (padStart 2 "0" m) = (Some lo, Some hi) ->
  exists body,
    getStatistics LocalTZA legacyDateParse mongo store month = Ok200 body
    /\ accumulates (map price (List.filter (inWindow lo hi) store))
         (totalSaleAmount body)
    /\ totalSoldItems body
       = countWhere (fun t => inWindow lo hi t && sold t) store
    /\ totalNotSoldItems body
       = countWhere (fun t => inWindow lo hi t && negb (sold t)) store
    /\ forall store', Permutation store store' ->
       exists body',
         getStatistics LocalTZA legacyDateParse mongo store' month
         = Ok200 body'
         /\ totalSoldItems body' = totalSoldItems body
         /\ totalNotSoldItems body' = totalNotSoldItems body.
Proof.
  intros Hm Hw. eexists. split.
  { exact (getStatistics_run _ _ _ store month m lo hi Hm Hw). }
  cbn [totalSaleAmount totalSoldItems totalNotSoldItems].
  split; [|split; [|split]].
  - rewrite fold_left_price. apply accumulates_fold_left.
  - apply countWhere_filter.
  - apply countWhere_filter.
  - intros store' Hp. eexists. split.
    { exact (getStatistics_run _ _ _ store' month m lo hi Hm Hw). }
    cbn [totalSoldItems totalNotSoldItems].
    rewrite !countWhere_filter.
    split; symmetry; apply countWhere_Permutation; exact Hp.
Qed.

Lemma statistics_totals_witness :
  checkMonth (Some "3") = Return "3"
  /\ monthWindow utc noLegacyParse (padStart 2 "0" "3")
     = (Some 1614556800000, Some 1617235200000)
  /\ exists body,
       getStatistics utc noLegacyParse plainMongo threePrices (Some "3")
       = Ok200 body
       /\ accumulates
            (map price
               (List.filter (inWindow 1614556800000 1617235200000)
                  threePrices))
            (totalSaleAmount body)
       /\ totalSoldItems body
          = countWhere
              (fun t => inWindow 1614556800000 1617235200000 t && sold t)
              threePrices
       /\ totalNotSoldItems body
          = countWhere
              (fun t => inWindow 1614556800000 1617235200000 t
                        && negb (sold t))
              threePrices
       /\ forall store', Permutation threePrices store' ->
          exists body',
            getStatistics utc noLegacyParse plainMongo store' (Some "3")
            = Ok200 body'
            /\ totalSoldItems body' = totalSoldItems body
            /\ totalNotSoldItems body' = totalNotSoldItems body.
Proof.
  split; [(vm_compute; reflexivity)|]. split; [(vm_compute; reflexivity)|].
  apply (statistics_totals utc noLegacyParse plainMongo
           threePrices (Some "3") "3"); (vm_compute; reflexivity).
Defined.

(** C6, as stated, fails: the same three records of March, with prices 0.1,
    0.2 and 0.3, give the total 0.6000000000000001 in one order of the
    store and 0.6 in the reverse order. *)
Lemma statistics_total_depends_on_order :
  Permutation threePrices (rev threePrices)
  /\ exists body body',
       getStatistics utc noLegacyParse plainMongo threePrices (Some "3")
       = Ok200 body
       /\ getStatistics utc noLegacyParse plainMongo (rev threePrices)
            (Some "3")
          = Ok200 body'
       /\ totalSaleAmount body = Number (utf8 "0.6000000000000001")
       /\ totalSaleAmount body' = Number (utf8 "0.6")
       /\ totalSaleAmount body <> totalSaleAmount body'.
Proof.
  split; [apply Permutation_rev|].
  do 2 eexists. split; [(vm_compute; reflexivity)|]. split; [(vm_compute; reflexivity)|].
  split; [(vm_compute; reflexivity)|]. split; [(vm_compute; reflexivity)|]. discriminate.
Qed.

(** ** Histogram *)

Lemma thresholds_ascend (p : number) (a b : Z) :
  leb (ofZ a) (ofZ b) = true -> leb p (ofZ a) = true -> leb p (ofZ b) = true.
Proof. intros Hab Hp. exact (leb_trans _ _ _ Hp Hab). Qed.

Ltac ascend H a b :=
  let H' := fresh "A" in
  pose proof (thresholds_ascend _ a b eq_refl H) as H'.

Ltac rewrite_thresholds :=
  repeat match goal with
  | H : leb _ (ofZ _) = _ |- _ => rewrite H
  end.

Ltac key_cases :=
  repeat match goal with
  | |- context [String.eqb ?k ?c] =>
      is_var k; destruct (String.eqb_spec k c) as [->|?];
      [rewrite_thresholds; reflexivity|]
  end;
  symmetry; apply String.eqb_neq; congruence.

(** the range a price lies in is the one [countPrice] counts it under *)
Lemma inPriceRange_bucketOf (k : string) (p : number) :
  inPriceRange k p = String.eqb (bucketOf p) k.
Proof.
  unfold bucketOf, inPriceRange, priceRangeBounds. cbn [boundsOf].
  destruct (leb p (ofZ 100)) eqn:E1.
  { ascend E1 100 200. ascend A 200 300. ascend A0 300 400. ascend A1 400 500.
    ascend A2 500 600. ascend A3 600 700. ascend A4 700 800. ascend A5 800 900.
    key_cases. }
  destruct (leb p (ofZ 200)) eqn:E2.
  { ascend E2 200 300. ascend A 300 400. ascend A0 400 500.
    ascend A1 500 600. ascend A2 600 700. ascend A3 700 800. ascend A4 800 900.
    key_cases. }
  destruct (leb p (ofZ 300)) eqn:E3.
  { ascend E3 300 400. ascend A 400 500.
    ascend A0 500 600. ascend A1 600 700. ascend A2 700 800. ascend A3 800 900.
    key_cases. }
  destruct (leb p (ofZ 400)) eqn:E4.
  { ascend E4 400 500.
    ascend A 500 600. ascend A0 600 700. ascend A1 700 800. ascend A2 800 900.
    key_cases. }
  destruct (leb p (ofZ 500)) eqn:E5.
  { ascend E5 500 600. ascend A 600 700. ascend A0 700 800. ascend A1 800 900.
    key_cases. }
  destruct (leb p (ofZ 600)) eqn:E6.
  { ascend E6 600 700. ascend A 700 800. ascend A0 800 900.
    key_cases. }
  destruct (leb p (ofZ 700)) eqn:E7.
  { ascend E7 700 800. ascend A 800 900.
    key_cases. }
  destruct (leb p (ofZ 800)) eqn:E8.
  { ascend E8 800 900.
    key_cases. }
  destruct (leb p (ofZ 900)) eqn:E9.
  { key_cases. }
  key_cases.
Qed.

Lemma bucketOf_cases (p : number) : In (bucketOf p) priceRangeKeys.
Proof.
  unfold bucketOf, priceRangeKeys.
  repeat match goal with
  | |- context [leb p ?c] => destruct (leb p c)
  end; cbn; tauto.
Qed.

Lemma countPrice_bucketOf (o : gmap string value) (t : Transaction) :
  countPrice o t = postIncrement o (bucketOf (price t)).
Proof.
  unfold countPrice, bucketOf.
  repeat match goal with
  | |- context [leb (price t) ?c] => destruct (leb (price t) c)
  end; reflexivity.
Qed.

Lemma postIncrement_count (o : gmap string value) (k : string) (n : N) :
  o !! k = Some (Num n) -> k <> "__proto__" ->
  postIncrement o k = <[k := Num (n + 1)]> o.
Proof.
  intros Hk Hp. unfold postIncrement, set, get. rewrite Hk.
  apply String.eqb_neq in Hp. rewrite Hp. reflexivity.
Qed.

Lemma isPriceRangeKey_In (k : string) :
  isPriceRangeKey k = true <-> In k priceRangeKeys.
Proof.
  unfold isPriceRangeKey. rewrite existsb_exists. split.
  - intros (x & Hx & He). apply String.eqb_eq in He. congruence.
  - intros H. exists k. split; [exact H | apply String.eqb_refl].
Qed.

Lemma priceRangesInit_lookup (k : string) :
  priceRangesInit !! k = if isPriceRangeKey k then Some (Num 0) else None.
Proof.
  unfold priceRangesInit, isPriceRangeKey.
  induction priceRangeKeys as [|k0 ks IH]; cbn [map list_to_map existsb].
  - apply lookup_empty.
  - cbn. rewrite lookup_insert. destruct (decide (k0 = k)) as [->|Hne].
    + rewrite String.eqb_refl. reflexivity.
    + assert (String.eqb k k0 = false) as -> by (apply String.eqb_neq; congruence).
      exact IH.
Qed.

Lemma countWhere_cons {A : Type} (f : A -> bool) (x : A) (l : list A) :
  countWhere f (x :: l) = ((if f x then 1 else 0) + countWhere f l)%nat.
Proof. unfold countWhere. cbn. destruct (f x); reflexivity. Qed.

Lemma countWhere_ext {A : Type} (f g : A -> bool) (l : list A) :
  (forall x, f x = g x) -> countWhere f l = countWhere g l.
Proof.
  intros H. induction l as [|x l IH]; [reflexivity|].
  rewrite !countWhere_cons, H, IH. reflexivity.
Qed.

(** the tallies after the [forEach], from any tallies before it *)
Lemma fold_countPrice (l : list Transaction) :
  forall (o : gmap string value) (c : string -> N),
    (forall k, o !! k = if isPriceRangeKey k then Some (Num (c k)) else None) ->
    forall k,
      fold_left countPrice l o !! k
      = if isPriceRangeKey k
        then Some (Num (c k + N.of_nat
                     (countWhere
                        (fun t => String.eqb (bucketOf (price t)) k) l)))
        else None.
Proof.
  induction l as [|t l IH]; intros o c Ho k.
  - cbn [fold_left]. rewrite Ho. destruct (isPriceRangeKey k); [|reflexivity].
    do 2 f_equal. unfold countWhere. cbn [List.filter length]. lia.
  - cbn [fold_left].
    set (b := bucketOf (price t)).
    assert (Hb : isPriceRangeKey b = true)
      by (apply isPriceRangeKey_In, bucketOf_cases).
    rewrite (IH _ (fun k => c k + if String.eqb b k then 1 else 0)%N).
    + destruct (isPriceRangeKey k); [|reflexivity].
      do 2 f_equal. rewrite countWhere_cons. fold b.
      destruct (String.eqb b k); lia.
    + intros k'. rewrite countPrice_bucketOf. fold b.
      rewrite (postIncrement_count o b (c b)).
      * rewrite lookup_insert. destruct (decide (b = k')) as [<-|Hne].
        -- rewrite Hb, String.eqb_refl. reflexivity.
        -- apply String.eqb_neq in Hne. rewrite Hne, Ho.
           destruct (isPriceRangeKey k'); [|reflexivity].
           do 2 f_equal. lia.
      * rewrite Ho, Hb. reflexivity.
      * intros ->. discriminate Hb.
Qed.

Lemma bucket_counts_total (l : list Transaction) :
  list_sum
    (map (fun k => countWhere (fun t => String.eqb (bucketOf (price t)) k) l)
       priceRangeKeys)
  = length l.
Proof.
  induction l as [|t l IH]; [reflexivity|].
  unfold priceRangeKeys in *. cbn [map list_sum] in *.
  rewrite !countWhere_cons.
  repeat match goal with
  | |- context [countWhere ?f l] =>
      let n := fresh "n" in set (n := countWhere f l) in *; clearbody n
  end.
  pose proof (bucketOf_cases (price t)) as Hb. unfold priceRangeKeys in Hb.
  cbn [In] in Hb. cbn [length].
  cbn in IH.
  repeat (destruct Hb as [Hb|Hb]; [rewrite <- Hb; cbn; lia|]).
  contradiction.
Qed.

Lemma histogram_lookup (l : list Transaction) (k : string) :
  fold_left countPrice l priceRangesInit !! k
  = if isPriceRangeKey k
    then Some (Num (N.of_nat
                 (countWhere (fun t => String.eqb (bucketOf (price t)) k) l)))
    else None.
Proof.
  rewrite (fold_countPrice l priceRangesInit (fun _ => 0%N)).
  - destruct (isPriceRangeKey k); [|reflexivity]. do 2 f_equal.
  - exact priceRangesInit_lookup.
Qed.

Lemma histogram_keys (l : list Transaction) :
  dom (fold_left countPrice l priceRangesInit) = list_to_set priceRangeKeys.
Proof.
  apply set_eq. intros k.
  rewrite elem_of_dom, elem_of_list_to_set, list_elem_of_In,
    <- isPriceRangeKey_In, histogram_lookup.
  destruct (isPriceRangeKey k); split; intros H;
    try reflexivity; try discriminate; eauto.
  destruct H as [? H]. discriminate H.
Qed.

Lemma histogram_total (l : list Transaction) :
  fold_right N.add 0%N
    (map (countOf (fold_left countPrice l priceRangesInit)) priceRangeKeys)
  = N.of_nat (length l).
Proof.
  rewrite <- (bucket_counts_total l).
  unfold countOf, priceRangeKeys. cbn [map fold_right list_sum].
  rewrite !histogram_lookup.
  repeat match goal with
  | |- context [countWhere ?f l] =>
      let n := fresh "n" in set (n := countWhere f l) in *; clearbody n
  end.
  repeat match goal with
  | |- context [isPriceRangeKey ?k] =>
      change (isPriceRangeKey k) with true
  end.
  cbv beta iota. lia.
Qed.

Lemma priceRange_includes_upper (k : string) (l : option Z) (h : Z) :
  In (k, (l, Some h)) priceRangeBounds -> inPriceRange k (ofZ h) = true.
Proof.
  intros Hin. unfold priceRangeBounds in Hin. cbn [In] in Hin.
  repeat (destruct Hin as [Hin|Hin];
          [inversion Hin; subst; vm_compute; reflexivity|]).
  contradiction.
Qed.

Lemma priceRange_excludes_lower (k : string) (l : Z) (h : option Z) :
  In (k, (Some l, h)) priceRangeBounds -> inPriceRange k (ofZ l) = false.
Proof.
  intros Hin. unfold priceRangeBounds in Hin. cbn [In] in Hin.
  repeat (destruct Hin as [Hin|Hin];
          [inversion Hin; subst; vm_compute; reflexivity|]).
  contradiction.
Qed.

Lemma priceRange_above_900 (p : number) :
  ltb (ofZ 900) p = true -> inPriceRange "901-above" p = true.
Proof.
  intros Hp. apply ltb_not_leb in Hp.
  rewrite inPriceRange_bucketOf. unfold bucketOf.
  repeat match goal with
  | |- context [leb p (ofZ ?c)] =>
      destruct (leb p (ofZ c)) eqn:?;
      [ repeat match goal with
        | H : leb p (ofZ ?a) = true |- _ =>
            lazymatch a with
            | 900 => fail
            | _ => apply (thresholds_ascend p a 900 eq_refl) in H
            end
        end; congruence | ]
  end.
  reflexivity.
Qed.

Lemma leb_not_NaN (p x : number) : leb p x = true -> isNaN p = false.
Proof. destruct p; [reflexivity | reflexivity | discriminate | reflexivity]. Qed.

Lemma not_leb_is_ltb (p x : number) :
  isNaN p = false -> isNaN x = false -> negb (leb p x) = ltb x p.
Proof.
  intros Hp Hx. destruct (leb p x) eqn:Hle; cbn [negb].
  - destruct (ltb x p) eqn:Hlt; [|reflexivity].
    apply ltb_not_leb in Hlt. congruence.
  - symmetry. apply not_leb_ltb; assumption.
Qed.

(** a range with two bounds holds the prices above the lower bound, up to
    and including the upper one *)
Lemma inPriceRange_between (k : string) (l h : Z) (p : number) :
  In (k, (Some l, Some h)) priceRangeBounds ->
  inPriceRange k p = ltb (ofZ l) p && leb p (ofZ h).
Proof.
  intros Hin. unfold priceRangeBounds in Hin. cbn [In] in Hin.
  assert (Hgoal : forall l h : Z,
             isNaN (ofZ l) = false ->
             negb (leb p (ofZ l)) && leb p (ofZ h)
             = ltb (ofZ l) p && leb p (ofZ h)).
  { intros l' h' Hl. destruct (leb p (ofZ h')) eqn:Hh.
    - rewrite (not_leb_is_ltb p (ofZ l') (leb_not_NaN _ _ Hh) Hl).
      reflexivity.
    - rewrite !andb_false_r. reflexivity. }
  repeat (destruct Hin as [Hin|Hin];
          [first [discriminate Hin
                 | injection Hin as <- <- <-;
                   match goal with
                   | |- _ = ltb (ofZ ?l) p && leb p (ofZ ?h) =>
                       exact (Hgoal l h eq_refl)
                   end]|]).
  contradiction.
Qed.

Lemma inPriceRange_first (p : number) :
  inPriceRange "0-100" p = leb p (ofZ 100).
Proof.
  unfold inPriceRange.
  change (boundsOf "0-100" priceRangeBounds) with (Some (@None Z, Some 100)).
  reflexivity.
Qed.

Lemma inPriceRange_last (p : number) :
  isNaN p = false -> inPriceRange "901-above" p = ltb (ofZ 900) p.
Proof.
  intros Hp. unfold inPriceRange.
  change (boundsOf "901-above" priceRangeBounds)
    with (Some (Some 900, @None Z)).
  cbv beta iota. rewrite andb_true_r.
  apply not_leb_is_ltb; [exact Hp | reflexivity].
Qed.

(** C2: the histogram holds exactly the ten fixed keys; under each key it
    holds the number of records of the window whose price lies in the range
    of that name: at most 100 for 0-100, above the lower bound and at most
    the upper bound for the eight ranges with two bounds, so that each
    range includes its upper bound and excludes its lower one (100 lies in
    0-100, 101 in 101-200), and every price above 900 in 901-above; every
    price lies in exactly one range, and the ten counts add up to the
    number of records of the window. *)
Theorem histogram_buckets
    (LocalTZA : Z) (legacyDateParse : string -> Date)
    (mongo : Mongo)
    (store : list Transaction) (month : option string) (m : string)
    (lo hi : Z) :
  checkMonth month = Return m ->
  monthWindow LocalTZA legacyDateParse (padStart 2 "0" m) = (Some lo, Some hi) ->
  exists body,
    getBarChartData LocalTZA legacyDateParse mongo store month = Ok200 body
    /\ dom body = list_to_set priceRangeKeys
    /\ (forall k, In k priceRangeKeys ->
          body !! k
          = Some (Num (N.of_nat
                    (countWhere
                       (fun t => inWindow lo hi t && inPriceRange k (price t))
                       store))))
    /\ (forall k l h, In (k, (l, Some h)) priceRangeBounds ->
          inPriceRange k (ofZ h) = true)
    /\ (forall k l h, In (k, (Some l, h)) priceRangeBounds ->
          inPriceRange k (ofZ l) = false)
    /\ (forall p, inPriceRange "0-100" p = leb p (ofZ 100))
    /\ (forall k l h p, In (k, (Some l, Some h)) priceRangeBounds ->
          inPriceRange k p = ltb (ofZ l) p && leb p (ofZ h))
    /\ inPriceRange "0-100" (ofZ 100) = true
    /\ inPriceRange "101-200" (ofZ 101) = true
    /\ (forall p, ltb (ofZ 900) p = true -> inPriceRange "901-above" p = true)
    /\ (forall p, exists k,
          In k priceRangeKeys /\ inPriceRange k p = true
          /\ forall k', inPriceRange k' p = true -> k' = k)
    /\ fold_right N.add 0%N (map (countOf body) priceRangeKeys)
       = N.of_nat (countWhere (inWindow lo hi) store).
Proof.
  intros Hm Hw. eexists. split.
  { exact (getBarChartData_run _ _ _ store month m lo hi Hm Hw). }
  split; [apply histogram_keys|].
  split.
  { intros k Hk. apply isPriceRangeKey_In in Hk.
    rewrite histogram_lookup, Hk. do 3 f_equal.
    rewrite countWhere_filter. apply countWhere_ext. intros t.
    rewrite inPriceRange_bucketOf. reflexivity. }
  split; [exact priceRange_includes_upper|].
  split; [exact priceRange_excludes_lower|].
  split; [exact inPriceRange_first|].
  split; [exact inPriceRange_between|].
  split; [vm_compute; reflexivity|].
  split; [vm_compute; reflexivity|].
  split; [exact priceRange_above_900|].
  split; [|apply histogram_total].
  intros p. exists (bucketOf p). split; [apply bucketOf_cases|]. split.
  - rewrite inPriceRange_bucketOf. apply String.eqb_refl.
  - intros k' Hk'. rewrite inPriceRange_bucketOf in Hk'.
    apply String.eqb_eq in Hk'. congruence.
Qed.

Lemma histogram_buckets_witness :
  checkMonth (Some "3") = Return "3"
  /\ monthWindow utc noLegacyParse (padStart 2 "0" "3")
     = (Some 1614556800000, Some 1617235200000)
  /\ exists body,
       getBarChartData utc noLegacyParse plainMongo threePrices (Some "3")
       = Ok200 body
       /\ body !! "0-100" = Some (Num 3)
       /\ body !! "101-200" = Some (Num 0).
Proof.
  split; [vm_compute; reflexivity|]. split; [vm_compute; reflexivity|].
  destruct (histogram_buckets utc noLegacyParse plainMongo
              threePrices (Some "3") "3" 1614556800000 1617235200000)
    as (body & Hrun & _ & Hcount & _);
    [vm_compute; reflexivity | vm_compute; reflexivity |].
  exists body. split; [exact Hrun|]. split.
  - rewrite (Hcount "0-100"); [vm_compute; reflexivity | cbn; tauto].
  - rewrite (Hcount "101-200"); [vm_compute; reflexivity | cbn; tauto].
Defined.

(** ** The query of the lister *)

Lemma isMeta_dot : isMeta dot = true.
Proof. reflexivity. Qed.

(** a pattern of the fragment has no NUL *)
Lemma parseFragment_no_NUL (p : text) (atoms : list atom) :
  parseFragment p = Some atoms -> existsb (N.eqb 0) p = false.
Proof.
  revert atoms. induction p as [|c p IH]; intros atoms; [reflexivity|].
  cbn [parseFragment existsb].
  destruct (parseFragment p) as [l|] eqn:Hp.
  - rewrite (IH l eq_refl), orb_false_r.
    destruct (N.eqb_spec c dot) as [->|Hdot]; [reflexivity|].
    destruct (N.eqb_spec c 0) as [->|H0]; [|rewrite N.eqb_sym; intros _;
                                            apply N.eqb_neq; exact H0].
    rewrite orb_true_r. discriminate.
  - destruct (if (c =? dot)%N then Some Dot
              else if isMeta c || (c =? 0)%N then None else Some (Lit c));
      discriminate.
Qed.

Lemma regexI_fragment (unicodeFold : N -> N)
    (pcreOther : text -> option (text -> bool)) (p : text)
    (atoms : list atom) :
  parseFragment p = Some atoms ->
  regexI unicodeFold pcreOther p = Some (searchFrom unicodeFold atoms).
Proof.
  intros Hp. unfold regexI.
  rewrite (parseFragment_no_NUL p atoms Hp), Hp. reflexivity.
Qed.

Section Search.

Variable unicodeFold : N -> N.

Lemma matchHere_literal (cs : text) :
  forall s : text,
    matchHere unicodeFold (map Lit cs) s = true
    <-> exists post,
          folded unicodeFold s = (folded unicodeFold cs ++ post)%list.
Proof.
  unfold folded. induction cs as [|c cs IH]; intros s.
  - cbn. split; [intros _; eexists; reflexivity | reflexivity].
  - destruct s as [|a s]; cbn [map matchHere].
    + split; [discriminate | intros [post H]; discriminate H].
    + cbn [atomMatches app].
      rewrite andb_true_iff, IH, N.eqb_eq. split.
      * intros [Hc [post Hp]]. exists post. congruence.
      * intros [post Hp]. injection Hp as Hc Hp. split; [congruence|eauto].
Qed.

Lemma searchFrom_literal (cs : text) :
  forall s : text,
    searchFrom unicodeFold (map Lit cs) s = true
    <-> exists pre post,
          folded unicodeFold s
          = (pre ++ folded unicodeFold cs ++ post)%list.
Proof.
  induction s as [|a s IH]; cbn [searchFrom]; rewrite orb_true_iff.
  - rewrite matchHere_literal. split.
    + intros [[post H]|H]; [exists [], post; exact H | discriminate H].
    + intros (pre & post & H). left. exists post.
      destruct pre; [exact H | discriminate H].
  - rewrite matchHere_literal, IH. split.
    + intros [[post H]|(pre & post & H)].
      * exists [], post. exact H.
      * exists (fold unicodeFold a :: pre), post.
        unfold folded in *. cbn [map app]. rewrite H. reflexivity.
    + intros ([|x pre] & post & H).
      * left. exists post. exact H.
      * right. exists pre, post. unfold folded in *. cbn [map app] in H.
        injection H as _ H. exact H.
Qed.

(** a search string of the fragment is a case-blind substring test *)
Lemma ci_contains_searchFrom (needle hay : text) :
  ci_contains unicodeFold needle hay
  <-> searchFrom unicodeFold (map Lit needle) hay = true.
Proof. unfold ci_contains. rewrite searchFrom_literal. reflexivity. Qed.

End Search.

Lemma parseFragment_literal (s : text) :
  literalSearch s = true ->
  parseFragment s = Some (map Lit s).
Proof.
  induction s as [|c s IH]; cbn [literalSearch parseFragment map];
    [reflexivity|].
  unfold isOrdinary.
  rewrite !andb_true_iff, !negb_true_iff. intros [[Hmeta Hnul] Hs].
  rewrite (IH Hs).
  assert ((c =? dot)%N = false) as ->.
  { destruct (N.eqb_spec c dot); [subst; discriminate Hmeta | reflexivity]. }
  rewrite Hmeta, Hnul. reflexivity.
Qed.

Section ListerQuery.

Variable LocalTZA : Z.
Variable legacyDateParse : string -> Date.
Variable mongo : Mongo.

(** the test the lister's query applies, for a pattern of the fragment *)
Lemma compile_buildQuery (month : string) (search : text) (lo hi : Z)
    (atoms : list atom) :
  monthWindow LocalTZA legacyDateParse month = (Some lo, Some hi) ->
  parseFragment search = Some atoms ->
  exists accepts,
    compile mongo (buildQuery LocalTZA legacyDateParse month search)
    = Return accepts
    /\ forall t,
         accepts t
         = inWindow lo hi t
           && (searchFrom (caseFolding mongo) atoms (title t)
               || searchFrom (caseFolding mongo) atoms (description t)
               || negb (isNaN (Number search))
                  && eqb (price t) (Number search)).
Proof.
  intros Hw Hp. unfold buildQuery. rewrite Hw.
  destruct (isNaN (Number search)) eqn:Hnan; cbn [negb];
    unfold compile, push_or; cbn [dateOfSale_gte dateOfSale_lt or_ app];
    cbn [compileOr compileClause];
    rewrite (regexI_fragment _ _ _ _ Hp);
    eexists; (split; [reflexivity|]); intros t; cbv beta.
  - rewrite andb_false_l, !orb_false_r. reflexivity.
  - rewrite andb_true_l, !orb_false_r, orb_assoc. reflexivity.
Qed.

End ListerQuery.

(** ** Pagination *)

Lemma limit_positive (mongo : Mongo) (n : Z) (l : list Transaction) :
  0 < n -> limit mongo n l = take (Z.to_nat n) l.
Proof.
  intros Hn. unfold limit.
  destruct (Z.eqb_spec n 0); [lia|]. destruct (Z.ltb_spec n 0); [lia|].
  reflexivity.
Qed.

Section Lister.

Variable LocalTZA : Z.
Variable legacyDateParse : string -> Date.
Variable mongo : Mongo.

Lemma getTransactions_run store q m accepts :
  checkMonth (q_month q) = Return m ->
  compile mongo
    (buildQuery LocalTZA legacyDateParse (padStart 2 "0" m)
       (default [] (q_search q)))
  = Return accepts ->
  0 <= (default 1 (q_page q) - 1) * default 10 (q_perPage q) ->
  getTransactions LocalTZA legacyDateParse mongo store q
  = Ok200
      (let matching := List.filter accepts store in
       let page := default 1 (q_page q) in
       let perPage := default 10 (q_perPage q) in
       {| transactions :=
            limit mongo perPage (drop (Z.to_nat ((page - 1) * perPage)) matching);
          total := Z.of_nat (length matching);
          page := page;
          perPage := perPage;
          totalPages := ceilDiv (Z.of_nat (length matching)) perPage |}).
Proof.
  intros Hm Hq Hs. unfold getTransactions, getTransactions_try.
  rewrite Hm. cbn [bind]. unfold find, countDocuments. rewrite Hq. cbn [bind].
  unfold skip. destruct (Z.ltb_spec ((default 1 (q_page q) - 1)
                                     * default 10 (q_perPage q)) 0); [lia|].
  reflexivity.
Qed.

End Lister.

Lemma ceilDiv_least (total perPage : Z) :
  0 < perPage ->
  exists n, ceilDiv total perPage = Some n
            /\ total <= n * perPage /\ (n - 1) * perPage < total.
Proof.
  intros Hp. unfold ceilDiv.
  destruct (Z.eqb_spec perPage 0); [lia|].
  eexists. split; [reflexivity|].
  pose proof (Z.div_mod (- total) perPage ltac:(lia)).
  pose proof (Z.mod_pos_bound (- total) perPage Hp).
  nia.
Qed.

(** C5: the lister returns the matching records in the order of the store,
    cut to the positions [(page-1)*perPage, page*perPage), with the number
    of matching records before the cut and with [totalPages], the ceiling of
    that number over [perPage]; a page past the last one is empty. *)
Theorem lister_pagination
    (LocalTZA : Z) (legacyDateParse : string -> Date)
    (mongo : Mongo)
    (store : list Transaction) (q : ListParams) (m : string)
    (accepts : Transaction -> bool) :
  let page_ := default 1 (q_page q) in
  let perPage_ := default 10 (q_perPage q) in
  let matching := List.filter accepts store in
  checkMonth (q_month q) = Return m ->
  compile mongo
    (buildQuery LocalTZA legacyDateParse (padStart 2 "0" m)
       (default [] (q_search q)))
  = Return accepts ->
  1 <= page_ -> 1 <= perPage_ ->
  exists body pages,
    getTransactions LocalTZA legacyDateParse mongo store q = Ok200 body
    /\ (forall i : nat,
          transactions body !! i
          = if Z.of_nat i <? perPage_
            then matching !! (Z.to_nat ((page_ - 1) * perPage_) + i)%nat
            else None)
    /\ total body = Z.of_nat (length matching)
    /\ page body = page_ /\ perPage body = perPage_
    /\ totalPages body = Some pages
    /\ total body <= pages * perPage_ /\ (pages - 1) * perPage_ < total body
    /\ (pages < page_ -> transactions body = []).
Proof.
  intros page_ perPage_ matching Hm Hq Hpage Hper.
  destruct (ceilDiv_least (Z.of_nat (length matching)) perPage_ ltac:(lia))
    as (pages & Hceil & Hle & Hlt).
  eexists. exists pages. split.
  { apply (getTransactions_run _ _ _ store q m accepts Hm Hq).
    fold page_ perPage_. nia. }
  cbv zeta. fold page_ perPage_ matching.
  cbn [transactions total page perPage totalPages].
  assert (Hlimit : forall l : list Transaction,
             limit mongo perPage_ l = take (Z.to_nat perPage_) l).
  { intros l. apply limit_positive. lia. }
  rewrite Hlimit.
  split; [|split; [reflexivity|split; [reflexivity|split; [reflexivity|
           split; [exact Hceil|split; [exact Hle|split; [exact Hlt|]]]]]]].
  - intros i. rewrite lookup_take, lookup_drop.
    destruct (Z.ltb_spec (Z.of_nat i) perPage_);
      destruct (decide (i < Z.to_nat perPage_)%nat); try reflexivity; lia.
  - intros Hbeyond. rewrite drop_ge; [apply take_nil|]. nia.
Qed.

Lemma lister_pagination_witness :
  checkMonth (q_month (paging "3" 3 10)) = Return "3"
  /\ 1 <= default 1 (q_page (paging "3" 3 10))
  /\ 1 <= default 10 (q_perPage (paging "3" 3 10))
  /\ exists accepts body pages,
       compile plainMongo
         (buildQuery utc noLegacyParse (padStart 2 "0" "3")
            (default [] (q_search (paging "3" 3 10))))
       = Return accepts
       /\ getTransactions utc noLegacyParse plainMongo twentyFiveSales
            (paging "3" 3 10)
          = Ok200 body
       /\ total body = Z.of_nat (length (List.filter accepts twentyFiveSales))
       /\ totalPages body = Some pages.
Proof.
  split; [vm_compute; reflexivity|].
  split; [vm_compute; discriminate|].
  split; [vm_compute; discriminate|].
  assert (Hc : exists accepts,
             compile plainMongo
               (buildQuery utc noLegacyParse (padStart 2 "0" "3")
                  (default [] (q_search (paging "3" 3 10))))
             = Return accepts).
  { destruct (compile_buildQuery utc noLegacyParse plainMongo
                (padStart 2 "0" "3") [] 1614556800000 1617235200000 [])
      as (accepts & Hc & _); [vm_compute; reflexivity | reflexivity |].
    exists accepts. exact Hc. }
  destruct Hc as [accepts Hc]. exists accepts.
  destruct (lister_pagination utc noLegacyParse plainMongo
              twentyFiveSales (paging "3" 3 10) "3" accepts)
    as (body & pages & Hrun & _ & Htotal & _ & _ & Hpages & _);
    [vm_compute; reflexivity | exact Hc
    | vm_compute; discriminate | vm_compute; discriminate |].
  exists body, pages. split; [exact Hc|]. split; [exact Hrun|].
  split; [exact Htotal | exact Hpages].
Defined.

(** outside of C5: a page size of 0 sets no limit at all, so that every
    page holds all the matching records, and the number of pages is not a
    finite number *)
Lemma lister_page_size_zero
    (LocalTZA : Z) (legacyDateParse : string -> Date)
    (mongo : Mongo)
    (store : list Transaction) (q : ListParams) (m : string)
    (accepts : Transaction -> bool) :
  checkMonth (q_month q) = Return m ->
  compile mongo
    (buildQuery LocalTZA legacyDateParse (padStart 2 "0" m)
       (default [] (q_search q)))
  = Return accepts ->
  q_perPage q = Some 0 ->
  exists body,
    getTransactions LocalTZA legacyDateParse mongo store q = Ok200 body
    /\ transactions body = List.filter accepts store
    /\ totalPages body = None.
Proof.
  intros Hm Hq Hzero. eexists. split.
  { apply (getTransactions_run _ _ _ store q m accepts Hm Hq).
    rewrite Hzero. change (default 10 (Some 0)) with 0. lia. }
  cbv zeta. rewrite Hzero. change (default 10 (Some 0)) with 0.
  cbn [transactions totalPages]. rewrite Z.mul_0_r. split; reflexivity.
Qed.

(** the example of the specification: 25 matching records and 10 per page
    give 10 records on page 1, 5 on page 3, none on page 4, and 3 pages *)
Example twenty_five_records_in_pages_of_ten :
  forall page_ : Z,
    In page_ [1; 3; 4] ->
    exists body,
      getTransactions utc noLegacyParse plainMongo twentyFiveSales
        (paging "3" page_ 10)
      = Ok200 body
      /\ total body = 25 /\ totalPages body = Some 3
      /\ length (transactions body)
         = if page_ =? 1 then 10%nat else if page_ =? 3 then 5%nat else 0%nat.
Proof.
  intros page_ [<-|[<-|[<-|[]]]]; eexists;
    (split; [vm_compute; reflexivity|]);
    repeat split.
Qed.

Section Runs.

Variable unicodeFold : N -> N.

Lemma matchHere_atoms (atoms : list atom) :
  forall s : text,
    matchHere unicodeFold atoms s = true
    <-> exists mid post,
          s = (mid ++ post)%list
          /\ Forall2 (fun a c => atomMatches unicodeFold a c = true) atoms mid.
Proof.
  induction atoms as [|a atoms IH]; intros s.
  - cbn. split; [|reflexivity]. intros _. exists [], s.
    split; [reflexivity | constructor].
  - destruct s as [|c s]; cbn [matchHere].
    + split; [discriminate|]. intros (mid & post & Hs & Hm).
      inversion Hm; subst. discriminate Hs.
    + rewrite andb_true_iff, IH. split.
      * intros [Hc (mid & post & Hs & Hm)]. exists (c :: mid), post.
        split; [cbn; congruence | constructor; assumption].
      * intros (mid & post & Hs & Hm). inversion Hm as [|? c' ? mid' Hc Hm'];
          subst. cbn in Hs. injection Hs as <- Hs. split; [exact Hc|].
        exists mid', post. split; assumption.
Qed.

Lemma searchFrom_atoms (atoms : list atom) :
  forall s : text,
    searchFrom unicodeFold atoms s = true
    <-> exists pre mid post,
          s = (pre ++ mid ++ post)%list
          /\ Forall2 (fun a c => atomMatches unicodeFold a c = true) atoms mid.
Proof.
  induction s as [|c s IH]; cbn [searchFrom]; rewrite orb_true_iff.
  - rewrite matchHere_atoms. split.
    + intros [(mid & post & H)|H]; [exists [], mid, post; exact H|discriminate H].
    + intros (pre & mid & post & Hs & Hm). left. exists mid, post.
      destruct pre; [split; assumption | discriminate Hs].
  - rewrite matchHere_atoms, IH. split.
    + intros [(mid & post & H)|(pre & mid & post & Hs & Hm)].
      * exists [], mid, post. exact H.
      * exists (c :: pre), mid, post. split; [cbn; congruence | exact Hm].
    + intros ([|x pre] & mid & post & Hs & Hm).
      * left. exists mid, post. split; assumption.
      * right. exists pre, mid, post. cbn in Hs. injection Hs as _ Hs.
        split; assumption.
Qed.

Lemma atomMatches_atomOf (p c : N) :
  atomMatches unicodeFold (atomOf p) c = true <-> matchesChar unicodeFold p c.
Proof.
  unfold atomOf, matchesChar. destruct (p =? dot)%N; cbn [atomMatches].
  - rewrite negb_true_iff. apply N.eqb_neq.
  - apply N.eqb_eq.
Qed.

Lemma Forall2_atomOf (ps mid : text) :
  Forall2 (fun a c => atomMatches unicodeFold a c = true) (map atomOf ps) mid
  <-> Forall2 (matchesChar unicodeFold) ps mid.
Proof.
  revert mid. induction ps as [|p ps IH]; intros mid; cbn [map].
  - split; intros H; inversion H; constructor.
  - split; intros H; inversion H; subst; constructor;
      try (apply atomMatches_atomOf; assumption); apply IH; assumption.
Qed.

(** a search string of the fragment tests for a run of matching characters *)
Lemma dot_contains_searchFrom (needle hay : text) :
  dot_contains unicodeFold needle hay
  <-> searchFrom unicodeFold (map atomOf needle) hay = true.
Proof.
  unfold dot_contains. rewrite searchFrom_atoms. split;
    intros (pre & mid & post & Hs & Hm); exists pre, mid, post;
    (split; [exact Hs | apply Forall2_atomOf; exact Hm]).
Qed.

End Runs.

Lemma parseFragment_dotted (s : text) :
  dottedSearch s = true ->
  parseFragment s = Some (map atomOf s).
Proof.
  induction s as [|c s IH];
    cbn [dottedSearch parseFragment map]; [reflexivity|].
  rewrite andb_true_iff. intros [Hc Hs]. rewrite (IH Hs). unfold atomOf.
  destruct (c =? dot)%N; [reflexivity|].
  cbn [orb] in Hc. unfold isOrdinary in Hc.
  apply andb_true_iff in Hc. destruct Hc as [Hmeta Hnul].
  apply negb_true_iff in Hmeta. apply negb_true_iff in Hnul.
  rewrite Hmeta, Hnul. reflexivity.
Qed.

Lemma literalSearch_dotted (s : text) :
  literalSearch s = true ->
  dottedSearch s = true /\ map atomOf s = map Lit s.
Proof.
  induction s as [|c s IH];
    cbn [literalSearch dottedSearch map]; [auto|].
  intros H. rewrite andb_true_iff in H. destruct H as [Hc Hs].
  destruct (IH Hs) as [Hd Hmap]. rewrite Hd, Hmap, Hc, orb_true_r.
  unfold atomOf.
  destruct (N.eqb_spec c dot) as [->|_]; [discriminate Hc|].
  split; reflexivity.
Qed.

(** without a dot, that is the search string as a substring, case apart *)
Lemma dot_contains_literal (unicodeFold : N -> N) (needle hay : text) :
  literalSearch needle = true ->
  dot_contains unicodeFold needle hay <-> ci_contains unicodeFold needle hay.
Proof.
  intros Hlit. destruct (literalSearch_dotted needle Hlit) as [_ Hmap].
  rewrite dot_contains_searchFrom, ci_contains_searchFrom, Hmap. reflexivity.
Qed.

(** a pattern that the store refuses makes the query fail *)
Lemma compile_rejected_pattern (LocalTZA : Z)
    (legacyDateParse : string -> Date)
    (mongo : Mongo) (month : string) (search : text) :
  regexI (caseFolding mongo) (otherPattern mongo) search = None ->
  compile mongo (buildQuery LocalTZA legacyDateParse month search)
  = Throw StoreFailure.
Proof.
  intros Hre. unfold buildQuery.
  destruct (monthWindow LocalTZA legacyDateParse month) as [s e].
  unfold compile.
  destruct (negb (isNaN (Number search)));
    cbn [push_or dateOfSale_gte dateOfSale_lt or_ app];
    destruct s, e; try reflexivity;
    cbn [compileOr compileClause]; rewrite Hre; reflexivity.
Qed.

(** the store refuses a pattern that holds the character NUL *)
Lemma regexI_NUL (unicodeFold : N -> N)
    (pcreOther : text -> option (text -> bool)) (p : text) :
  existsb (N.eqb 0) p = true -> regexI unicodeFold pcreOther p = None.
Proof. intros H. unfold regexI. rewrite H. reflexivity. Qed.

(** on ASCII the folding is that of the letters A to Z, whatever the
    store; outside ASCII it is that of the store *)
Lemma fold_cases (unicodeFold : N -> N) (c : N) :
  ((c < 128)%N ->
   fold unicodeFold c
   = if (65 <=? c)%N && (c <=? 90)%N then (c + 32)%N else c)
  /\ ((128 <= c)%N ->
      fold unicodeFold c
      = let d := unicodeFold c in
        if (65 <=? d)%N && (d <=? 90)%N then (d + 32)%N else d).
Proof.
  unfold fold, toLower.
  split; intros Hc; destruct (N.ltb_spec c 128); try lia; reflexivity.
Qed.

(** C1, as amended: the search string is a pattern.  For a search string
    in which the dot is the only character that is special in a pattern
    (and which has no NUL), the lister's query accepts a record if and only
    if its [dateOfSale] lies in the month window and the search string is
    empty, or the title has a run of characters equal to the search string,
    case apart and a dot standing for any one character but a line feed,
    or the description has one, or the search string converts as a whole
    to a number (by [Number]) which the price equals; a search string that
    converts to [NaN] never matches on the price.  For a search string
    without a dot, such a run is an occurrence of the search string as a
    substring, case apart.  Case is that of the letters A to Z among the
    ASCII characters; outside ASCII two characters are the same when the
    store folds them to the same character.  A search string that holds
    the character NUL is refused by the store. *)
Theorem filter_dotted_search
    (LocalTZA : Z) (legacyDateParse : string -> Date) (mongo : Mongo)
    (month : string) (search : text) (lo hi : Z) :
  monthWindow LocalTZA legacyDateParse month = (Some lo, Some hi) ->
  dottedSearch search = true ->
  exists accepts,
    compile mongo (buildQuery LocalTZA legacyDateParse month search)
    = Return accepts
    /\ (forall t,
          accepts t = true
          <-> (lo <= dateOfSale t < hi)
              /\ (search = []
                  \/ dot_contains (caseFolding mongo) search (title t)
                  \/ dot_contains (caseFolding mongo) search (description t)
                  \/ (isNaN (Number search) = false
                      /\ eqb (price t) (Number search) = true)))
    /\ (literalSearch search = true ->
        forall hay,
          dot_contains (caseFolding mongo) search hay
          <-> ci_contains (caseFolding mongo) search hay)
    /\ (forall c,
          ((c < 128)%N ->
           fold (caseFolding mongo) c
           = if (65 <=? c)%N && (c <=? 90)%N then (c + 32)%N else c)
          /\ ((128 <= c)%N ->
              fold (caseFolding mongo) c
              = let d := caseFolding mongo c in
                if (65 <=? d)%N && (d <=? 90)%N then (d + 32)%N else d))
    /\ (forall refused : text,
          existsb (N.eqb 0) refused = true ->
          compile mongo (buildQuery LocalTZA legacyDateParse month refused)
          = Throw StoreFailure).
Proof.
  intros Hw Hdot.
  destruct (compile_buildQuery LocalTZA legacyDateParse mongo month search
              lo hi _ Hw (parseFragment_dotted search Hdot))
    as (accepts & Hc & Hacc).
  exists accepts. split; [exact Hc|]. split; [|split; [|split]].
  - intros t. rewrite Hacc. unfold inWindow.
    rewrite !andb_true_iff, !orb_true_iff, andb_true_iff, negb_true_iff,
      Z.leb_le, Z.ltb_lt, <- !dot_contains_searchFrom.
    split.
    + intros [Hd [[Ht|Hs]|Hp]]; (split; [exact Hd|]); tauto.
    + intros [Hd [He|[Ht|[Hs|Hp]]]]; (split; [exact Hd|]); try tauto.
      subst search. left. left.
      exists [], [], (title t).
      split; [reflexivity | constructor].
  - intros Hlit hay. apply dot_contains_literal. exact Hlit.
  - intros c. apply fold_cases.
  - intros refused Hnul. apply compile_rejected_pattern.
    apply regexI_NUL. exact Hnul.
Qed.

Lemma filter_dotted_search_witness :
  monthWindow utc noLegacyParse "03"
  = (Some 1614556800000, Some 1617235200000)
  /\ dottedSearch (utf8 "r.s") = true
  /\ exists accepts,
       compile plainMongo (buildQuery utc noLegacyParse "03" (utf8 "r.s"))
       = Return accepts
       /\ accepts usersGuide = true.
Proof.
  split; [vm_compute; reflexivity|]. split; [vm_compute; reflexivity|].
  destruct (filter_dotted_search utc noLegacyParse plainMongo
              "03" (utf8 "r.s") 1614556800000 1617235200000)
    as (accepts & Hc & Hacc & _);
    [vm_compute; reflexivity | vm_compute; reflexivity |].
  exists accepts. split; [exact Hc|]. apply Hacc. split.
  - assert (dateOfSale usersGuide = 1614643200000) as ->
      by (vm_compute; reflexivity).
    lia.
  - right. left. apply dot_contains_searchFrom. vm_compute. reflexivity.
Defined.

(** C1, as stated, fails: the search string is a regular expression, in
    which a dot stands for any character.  The record titled "Item 125",
    priced 150, is accepted for the search string "1.5", which is not
    empty, occurs neither in its title nor in its description, and is the
    number 1.5, not its price. *)
Lemma filter_dot_is_a_wildcard :
  exists accepts body,
    compile plainMongo (buildQuery utc noLegacyParse "03" (utf8 "1.5"))
    = Return accepts
    /\ accepts item125 = true
    /\ getTransactions utc noLegacyParse plainMongo [item125]
         (searching "3" "1.5")
       = Ok200 body
    /\ transactions body = [item125]
    /\ ~ ((1614556800000 <= dateOfSale item125 < 1617235200000)
          /\ (utf8 "1.5" = []
              \/ ci_contains (caseFolding plainMongo) (utf8 "1.5")
                   (title item125)
              \/ ci_contains (caseFolding plainMongo) (utf8 "1.5")
                   (description item125)
              \/ (isNaN (Number (utf8 "1.5")) = false
                  /\ eqb (price item125) (Number (utf8 "1.5")) = true))).
Proof.
  destruct (compile_buildQuery utc noLegacyParse plainMongo
              "03" (utf8 "1.5") 1614556800000 1617235200000
              [Lit 49; Dot; Lit 53])
    as (accepts & Hc & Hacc);
    [vm_compute; reflexivity | vm_compute; reflexivity |].
  exists accepts. eexists. split; [exact Hc|]. split.
  { rewrite Hacc. vm_compute. reflexivity. }
  split; [vm_compute; reflexivity|]. split; [vm_compute; reflexivity|].
  intros [_ [H|[H|[H|[_ H]]]]].
  - discriminate H.
  - apply ci_contains_searchFrom in H. vm_compute in H. discriminate H.
  - apply ci_contains_searchFrom in H. vm_compute in H. discriminate H.
  - vm_compute in H. discriminate H.
Qed.

(** ** Combined view *)

Section Combined.

Variable LocalTZA : Z.
Variable legacyDateParse : string -> Date.
Variable mongo : Mongo.

(** the combined response is the four responses together, or an error *)
Lemma getCombinedData_all_or_nothing (store : list Transaction)
    (q : ListParams) :
  getCombinedData LocalTZA legacyDateParse mongo store q
  = match checkMonth (q_month q) with
    | Throw _ => Error500 "Error fetching combined data"
    | Return m =>
        let month := padStart 2 "0" m in
        match
          getTransactions LocalTZA legacyDateParse mongo store
            (forwarded month q),
          getStatistics LocalTZA legacyDateParse mongo store (Some month),
          getBarChartData LocalTZA legacyDateParse mongo store (Some month),
          getPieChartData LocalTZA legacyDateParse mongo store (Some month)
        with
        | Ok200 t, Ok200 s, Ok200 b, Ok200 p =>
            Ok200 {| c_transactions := t; c_statistics := s;
                     c_barChart := b; c_pieChart := p |}
        | _, _, _, _ => Error500 "Error fetching combined data"
        end
    end.
Proof.
  unfold getCombinedData, getCombinedData_try, forwarded.
  destruct (checkMonth (q_month q)) as [m|e]; cbn [bind tryCatch];
    [|reflexivity].
  cbv zeta.
  destruct (getTransactions _ _ _ store _) as [t|?]; cbn [axiosGet bind tryCatch];
    [|reflexivity].
  destruct (getStatistics _ _ _ store _) as [s|?]; cbn [axiosGet bind tryCatch];
    [|reflexivity].
  destruct (getBarChartData _ _ _ store _) as [b|?]; cbn [axiosGet bind tryCatch];
    [|reflexivity].
  destruct (getPieChartData _ _ _ store _) as [p|?]; cbn [axiosGet bind tryCatch];
    reflexivity.
Qed.

End Combined.

(** C9: two combined requests that differ in the search string only have
    the same statistics, bar chart and pie chart, while the transactions
    are those the lister returns for the search of each; the combined
    response is the four parts together when all four requests succeed and
    an error with no part at all as soon as one of them fails. *)
Theorem combined_view
    (LocalTZA : Z) (legacyDateParse : string -> Date)
    (mongo : Mongo)
    (store : list Transaction) (q1 q2 : ListParams) :
  q_month q1 = q_month q2 ->
  q_page q1 = q_page q2 ->
  q_perPage q1 = q_perPage q2 ->
  (forall r1 r2,
      getCombinedData LocalTZA legacyDateParse mongo store q1 = Ok200 r1 ->
      getCombinedData LocalTZA legacyDateParse mongo store q2 = Ok200 r2 ->
      c_statistics r1 = c_statistics r2
      /\ c_barChart r1 = c_barChart r2
      /\ c_pieChart r1 = c_pieChart r2)
  /\ (forall r1,
        getCombinedData LocalTZA legacyDateParse mongo store q1 = Ok200 r1 ->
        exists m,
          checkMonth (q_month q1) = Return m
          /\ getTransactions LocalTZA legacyDateParse mongo store
               (forwarded (padStart 2 "0" m) q1)
             = Ok200 (c_transactions r1)
          /\ getStatistics LocalTZA legacyDateParse mongo store
               (Some (padStart 2 "0" m))
             = Ok200 (c_statistics r1)
          /\ getBarChartData LocalTZA legacyDateParse mongo store
               (Some (padStart 2 "0" m))
             = Ok200 (c_barChart r1)
          /\ getPieChartData LocalTZA legacyDateParse mongo store
               (Some (padStart 2 "0" m))
             = Ok200 (c_pieChart r1))
  /\ (forall m message,
        checkMonth (q_month q1) = Return m ->
        getTransactions LocalTZA legacyDateParse mongo store
          (forwarded (padStart 2 "0" m) q1) = Error500 message
        \/ getStatistics LocalTZA legacyDateParse mongo store
             (Some (padStart 2 "0" m)) = Error500 message
        \/ getBarChartData LocalTZA legacyDateParse mongo store
             (Some (padStart 2 "0" m)) = Error500 message
        \/ getPieChartData LocalTZA legacyDateParse mongo store
             (Some (padStart 2 "0" m)) = Error500 message ->
        getCombinedData LocalTZA legacyDateParse mongo store q1
        = Error500 "Error fetching combined data").
Proof.
  intros Hmonth Hpage Hper.
  assert (Hparts : forall q r,
    getCombinedData LocalTZA legacyDateParse mongo store q = Ok200 r ->
    exists m,
      checkMonth (q_month q) = Return m
      /\ getTransactions LocalTZA legacyDateParse mongo store
           (forwarded (padStart 2 "0" m) q)
         = Ok200 (c_transactions r)
      /\ getStatistics LocalTZA legacyDateParse mongo store
           (Some (padStart 2 "0" m))
         = Ok200 (c_statistics r)
      /\ getBarChartData LocalTZA legacyDateParse mongo store
           (Some (padStart 2 "0" m))
         = Ok200 (c_barChart r)
      /\ getPieChartData LocalTZA legacyDateParse mongo store
           (Some (padStart 2 "0" m))
         = Ok200 (c_pieChart r)).
  { intros q r. rewrite getCombinedData_all_or_nothing.
    destruct (checkMonth (q_month q)) as [m|e]; [|discriminate].
    cbv zeta.
    destruct (getTransactions _ _ _ store _) as [t|?] eqn:Ht; [|discriminate].
    destruct (getStatistics _ _ _ store _) as [s|?] eqn:Hs; [|discriminate].
    destruct (getBarChartData _ _ _ store _) as [b|?] eqn:Hb; [|discriminate].
    destruct (getPieChartData _ _ _ store _) as [p|?] eqn:Hp; [|discriminate].
    intros [= <-]. exists m. cbn [c_transactions c_statistics c_barChart c_pieChart].
    auto. }
  split; [|split].
  - intros r1 r2 H1 H2.
    destruct (Hparts q1 r1 H1) as (m1 & Hm1 & _ & Hs1 & Hb1 & Hp1).
    destruct (Hparts q2 r2 H2) as (m2 & Hm2 & _ & Hs2 & Hb2 & Hp2).
    rewrite Hmonth, Hm2 in Hm1. injection Hm1 as <-.
    rewrite Hs2 in Hs1. rewrite Hb2 in Hb1. rewrite Hp2 in Hp1.
    injection Hs1 as ->. injection Hb1 as ->. injection Hp1 as ->.
    repeat split.
  - exact (Hparts q1).
  - intros m message Hm Hfail. rewrite getCombinedData_all_or_nothing, Hm.
    cbv zeta.
    destruct Hfail as [H|[H|[H|H]]]; rewrite H;
      repeat match goal with
      | |- context [match ?r with Ok200 _ => _ | Error500 _ => _ end] =>
          destruct r
      end; reflexivity.
Qed.

Lemma combined_view_witness :
  q_month (searching "3" "pen") = q_month (searching "3" "ink")
  /\ q_page (searching "3" "pen") = q_page (searching "3" "ink")
  /\ q_perPage (searching "3" "pen") = q_perPage (searching "3" "ink")
  /\ exists r1 r2,
       getCombinedData utc noLegacyParse plainMongo threePrices
         (searching "3" "pen") = Ok200 r1
       /\ getCombinedData utc noLegacyParse plainMongo threePrices
            (searching "3" "ink") = Ok200 r2
       /\ c_statistics r1 = c_statistics r2
       /\ c_barChart r1 = c_barChart r2
       /\ c_pieChart r1 = c_pieChart r2
       /\ map title (transactions (c_transactions r1)) = [utf8 "pen"]
       /\ map title (transactions (c_transactions r2)) = [utf8 "ink"].
Proof.
  split; [reflexivity|]. split; [reflexivity|]. split; [reflexivity|].
  destruct (getCombinedData utc noLegacyParse plainMongo threePrices
              (searching "3" "pen")) as [r1|] eqn:H1;
    [|vm_compute in H1; discriminate H1].
  destruct (getCombinedData utc noLegacyParse plainMongo threePrices
              (searching "3" "ink")) as [r2|] eqn:H2;
    [|vm_compute in H2; discriminate H2].
  exists r1, r2. split; [reflexivity|]. split; [reflexivity|].
  destruct (combined_view utc noLegacyParse plainMongo threePrices
              (searching "3" "pen") (searching "3" "ink")
              eq_refl eq_refl eq_refl) as [Hsame _].
  destruct (Hsame r1 r2 H1 H2) as (Hs & Hb & Hp).
  split; [exact Hs|]. split; [exact Hb|]. split; [exact Hp|].
  vm_compute in H1. vm_compute in H2.
  injection H1 as <-. injection H2 as <-. split; reflexivity.
Defined.

(** ** Seed loader *)

(** *** Rounding never gives NaN *)

Lemma shr_1_nonneg (mrs : shr_record) :
  0 <= shr_m mrs -> 0 <= shr_m (shr_1 mrs).
Proof.
  destruct mrs as [m r s]. cbn [shr_m]. intros Hm. unfold shr_1.
  destruct m as [|[p|p|]|p]; cbn [shr_m]; lia.
Qed.

Lemma iter_pos_shr_1_nonneg (p : positive) :
  forall mrs, 0 <= shr_m mrs -> 0 <= shr_m (SpecFloat.iter_pos shr_1 p mrs).
Proof.
  induction p as [p IH|p IH|]; intros mrs Hm; cbn [SpecFloat.iter_pos].
  - apply IH, IH, shr_1_nonneg, Hm.
  - apply IH, IH, Hm.
  - apply shr_1_nonneg, Hm.
Qed.

Lemma shr_fexp_nonneg (m e : Z) (l : location) :
  0 <= m -> 0 <= shr_m (fst (shr_fexp prec emax m e l)).
Proof.
  intros Hm. unfold shr_fexp, shr.
  assert (H0 : 0 <= shr_m (shr_record_of_loc m l)).
  { destruct l as [|[]]; exact Hm. }
  destruct (_ - e) as [|p|p]; cbn [fst]; [exact H0| |exact H0].
  apply iter_pos_shr_1_nonneg, H0.
Qed.

Lemma round_nearest_even_nonneg (m : Z) (l : location) :
  0 <= m -> 0 <= round_nearest_even m l.
Proof.
  intros Hm. unfold round_nearest_even.
  destruct l as [|[]]; [lia | destruct (Z.even m); lia | lia | lia].
Qed.

Lemma binary_round_aux_not_NaN (sx : bool) (mx ex : Z) (lx : location) :
  0 <= mx -> isNaN (binary_round_aux prec emax sx mx ex lx) = false.
Proof.
  intros Hm. unfold binary_round_aux.
  pose proof (shr_fexp_nonneg mx ex lx Hm) as H1.
  destruct (shr_fexp prec emax mx ex lx) as [mrs' e']. cbn [fst] in H1.
  pose proof (shr_fexp_nonneg
                (round_nearest_even (shr_m mrs') (loc_of_shr_record mrs'))
                e' loc_Exact (round_nearest_even_nonneg _ _ H1)) as H2.
  destruct (shr_fexp prec emax _ e' loc_Exact) as [mrs'' e'']. cbn [fst] in H2.
  destruct (shr_m mrs'') as [|m|m]; [reflexivity| |lia].
  destruct (e'' <=? emax - prec); reflexivity.
Qed.

Lemma ofDecimal_not_NaN (neg : bool) (m : N) (e : Z) :
  isNaN (ofDecimal neg m e) = false.
Proof.
  unfold ofDecimal. destruct m as [|p]; [reflexivity|].
  destruct (0 <=? e).
  - unfold binary_normalize.
    destruct ((if neg then Z.neg p else Z.pos p) * 10 ^ e) as [|q|q];
      [reflexivity| |]; unfold binary_round;
      destruct (shl_align _ _ _) as [mz ez];
      apply binary_round_aux_not_NaN; lia.
  - unfold SFdiv.
    destruct (SFdiv_core_binary prec emax (Z.pos p) 0 _ 0) as [[mz ez] lz] eqn:Hd.
    apply binary_round_aux_not_NaN.
    unfold SFdiv_core_binary in Hd.
    destruct (Z.div_eucl _ _) as [q r] eqn:Hq in Hd.
    injection Hd as <- _ _.
    match type of Hq with Z.div_eucl ?a ?b = _ =>
      pose proof (Z.div_pos a b) as Hpos;
      assert (Hqa : q = a / b) by (unfold Z.div; rewrite Hq; reflexivity)
    end.
    rewrite Hqa. apply Hpos; [|lia].
    destruct (_ - _ - _) as [|s|s]; [lia | apply Z.shiftl_nonneg; lia | lia].
Qed.

(** *** Reading a decimal numeral *)

Ltac digit_cases d H :=
  let Hd := fresh "Hd" in
  assert (Hd : (d = 0 \/ d = 1 \/ d = 2 \/ d = 3 \/ d = 4 \/ d = 5 \/ d = 6
                \/ d = 7 \/ d = 8 \/ d = 9)%N) by (apply N.ltb_lt in H; lia);
  clear H;
  repeat (destruct Hd as [Hd|Hd]; [subst d|]); try subst d.

Lemma digitValue_digit (d : N) :
  (d <? 10)%N = true -> digitValue 10 (ascii_of_N (48 + d)) = Some d.
Proof. intros H. digit_cases d H; reflexivity. Qed.

Lemma scanDigits_stops (acc : N) (len : nat) (s : string) :
  startsWithDigit s = false -> scanDigits 10 acc len s = (acc, len, s).
Proof.
  destruct s as [|c s]; [reflexivity|]. cbn [startsWithDigit scanDigits].
  destruct (digitValue 10 c); [discriminate | reflexivity].
Qed.

Lemma append_String (c : ascii) (s1 s2 : string) :
  (String c s1 ++ s2)%string = String c (s1 ++ s2).
Proof. reflexivity. Qed.

Lemma append_Empty (s : string) : (EmptyString ++ s)%string = s.
Proof. reflexivity. Qed.

Lemma scanDigits_digits (ds : list N) :
  forall (acc : N) (len : nat) (s : string),
    areDigits ds = true ->
    scanDigits 10 acc len (digitsString ds ++ s)
    = scanDigits 10 (fold_left (fun a d => (a * 10 + d)%N) ds acc)
        (len + length ds) s.
Proof.
  induction ds as [|d ds IH]; intros acc len s Hds.
  - cbn [digitsString fold_left length]. rewrite append_Empty, Nat.add_0_r.
    reflexivity.
  - cbn [areDigits forallb] in Hds. apply andb_true_iff in Hds.
    destruct Hds as [Hd Hds].
    cbn [digitsString fold_left length]. rewrite append_String.
    cbn [scanDigits].
    rewrite (digitValue_digit d Hd), (IH _ _ _ Hds).
    replace (len + S (length ds))%nat with (S len + length ds)%nat by lia.
    reflexivity.
Qed.

Lemma code_ascii_of_N (c : N) : (c < 256)%N -> code (ascii_of_N c) = c.
Proof. intros Hc. apply N_ascii_embedding. exact Hc. Qed.

Lemma asciiPrefix_digits (ds : list N) (rest : text) :
  areDigits ds = true ->
  asciiPrefix (digitsText ds ++ rest)%list
  = (digitsString ds ++ asciiPrefix rest)%string.
Proof.
  induction ds as [|d ds IH]; intros Hds; [reflexivity|].
  cbn [areDigits forallb] in Hds. apply andb_true_iff in Hds.
  destruct Hds as [Hd Hds].
  cbn [digitsText map app asciiPrefix digitsString].
  rewrite append_String. fold (digitsText ds). rewrite <- (IH Hds).
  apply N.ltb_lt in Hd.
  destruct (N.ltb_spec (48 + d) 128); [reflexivity | lia].
Qed.

Lemma trimTextStart_blank (ws x : text) :
  isBlank ws = true -> trimTextStart (ws ++ x)%list = trimTextStart x.
Proof.
  induction ws as [|c ws IH]; intros Hws; [reflexivity|].
  cbn [isBlank forallb] in Hws. apply andb_true_iff in Hws.
  destruct Hws as [Hc Hws]. cbn [app trimTextStart]. rewrite Hc.
  apply IH. exact Hws.
Qed.

(** what ends a numeral in a text ends it in the string that is read *)
Lemma endsNumeral_asciiPrefix (rest : text) :
  endsNumeral rest = true ->
  startsWithDigit (asciiPrefix rest) = false
  /\ scanExponent (asciiPrefix rest) = None.
Proof.
  destruct rest as [|c rest]; [split; reflexivity|].
  cbn [endsNumeral asciiPrefix].
  destruct (N.ltb_spec c 128) as [Hc|_]; [|split; reflexivity].
  rewrite <- (code_ascii_of_N c) by lia.
  generalize (ascii_of_N c) (asciiPrefix rest). clear.
  intros a r H.
  destruct a as [[] [] [] [] [] [] [] []];
    vm_compute in H; try discriminate H; split; reflexivity.
Qed.

Lemma endsInteger_asciiPrefix (rest : text) :
  endsInteger rest = true ->
  startsWithDigit (asciiPrefix rest) = false
  /\ scanExponent (asciiPrefix rest) = None
  /\ match asciiPrefix rest with
     | String "." _ => False
     | _ => True
     end.
Proof.
  unfold endsInteger. rewrite andb_true_iff. intros [Hn Hd].
  destruct (endsNumeral_asciiPrefix rest Hn) as [H1 H2].
  split; [exact H1|]. split; [exact H2|].
  destruct rest as [|c rest]; [exact I|]. cbn [asciiPrefix].
  destruct (N.ltb_spec c 128) as [Hc|_]; [|exact I].
  revert Hd. rewrite <- (code_ascii_of_N c) by lia.
  generalize (ascii_of_N c) (asciiPrefix rest). clear.
  intros a r H.
  destruct a as [[] [] [] [] [] [] [] []];
    vm_compute in H; try discriminate H; exact I.
Qed.

Lemma fold_digitsValue (i f : list N) :
  fold_left (fun a d => (a * 10 + d)%N) f
    (fold_left (fun a d => (a * 10 + d)%N) i 0%N)
  = digitsValue (i ++ f)%list.
Proof. unfold digitsValue. rewrite fold_left_app. reflexivity. Qed.

(** the string of a numeral does not start like [Infinity] *)
Lemma stripPrefix_digit (d : N) (s : string) :
  (d <? 10)%N = true ->
  stripPrefix "Infinity" (String (ascii_of_N (48 + d)) s) = None.
Proof. intros H. digit_cases d H; reflexivity. Qed.

Lemma scanUnsignedDecimal_fraction (i f : list N) (r : string) :
  areDigits i = true -> i <> [] -> areDigits f = true ->
  startsWithDigit r = false -> scanExponent r = None ->
  scanUnsignedDecimal (digitsString i ++ String "." (digitsString f ++ r))
  = Some (DecDigits (digitsValue (i ++ f)%list) (- Z.of_nat (length f)), r).
Proof.
  intros Hi Hne Hf Hr He.
  destruct i as [|d i]; [contradiction|].
  pose proof Hi as Hi'. cbn [areDigits forallb] in Hi'.
  apply andb_true_iff in Hi'. destruct Hi' as [Hd _].
  unfold scanUnsignedDecimal.
  replace (digitsString (d :: i) ++ String "." (digitsString f ++ r))%string
    with (String (ascii_of_N (48 + d))
            (digitsString i ++ String "." (digitsString f ++ r)))
    at 1 by reflexivity.
  rewrite (stripPrefix_digit d _ Hd).
  rewrite (scanDigits_digits (d :: i) _ _ _ Hi).
  rewrite (scanDigits_stops _ _ (String "." _)) by reflexivity.
  cbv iota beta.
  rewrite (scanDigits_digits f _ _ _ Hf), (scanDigits_stops _ _ r Hr).
  cbn [length Nat.add]. rewrite He, fold_digitsValue. reflexivity.
Qed.

Lemma scanUnsignedDecimal_integer (i : list N) (r : string) :
  areDigits i = true -> i <> [] ->
  startsWithDigit r = false -> scanExponent r = None ->
  match r with String "." _ => False | _ => True end ->
  scanUnsignedDecimal (digitsString i ++ r)
  = Some (DecDigits (digitsValue i) 0, r).
Proof.
  intros Hi Hne Hr He Hdot.
  destruct i as [|d i]; [contradiction|].
  pose proof Hi as Hi'. cbn [areDigits forallb] in Hi'.
  apply andb_true_iff in Hi'. destruct Hi' as [Hd _].
  unfold scanUnsignedDecimal.
  replace (digitsString (d :: i) ++ r)%string
    with (String (ascii_of_N (48 + d)) (digitsString i ++ r))
    at 1 by reflexivity.
  rewrite (stripPrefix_digit d _ Hd).
  rewrite (scanDigits_digits (d :: i) _ _ _ Hi).
  rewrite (scanDigits_stops _ _ r Hr).
  cbn [length Nat.add].
  destruct r as [|a r']; [cbn; reflexivity|].
  destruct a as [[] [] [] [] [] [] [] []]; try contradiction;
    cbv iota beta; rewrite He; reflexivity.
Qed.

(** the sign and the digits that open the string of a numeral are not
    white space *)
Lemma trimStart_numeral (sg : sign) (d : N) (s : string) :
  (d <? 10)%N = true ->
  trimStart (asciiPrefix (signText sg)
             ++ String (ascii_of_N (48 + d)) s)
  = (asciiPrefix (signText sg) ++ String (ascii_of_N (48 + d)) s)%string.
Proof. intros H. digit_cases d H; destruct sg; reflexivity. Qed.

Lemma scanSign_numeral (sg : sign) (d : N) (s : string) :
  (d <? 10)%N = true ->
  scanSign (asciiPrefix (signText sg) ++ String (ascii_of_N (48 + d)) s)
  = (isMinus sg, String (ascii_of_N (48 + d)) s).
Proof. intros H. digit_cases d H; destruct sg; reflexivity. Qed.

Lemma StringToFloat_numeral (sg : sign) (i : list N) (u : string)
    (dec : decimal) (r : string) :
  areDigits i = true -> i <> [] ->
  scanUnsignedDecimal (digitsString i ++ u) = Some (dec, r) ->
  StringToFloat (asciiPrefix (signText sg) ++ digitsString i ++ u)
  = decimalValue (isMinus sg) dec.
Proof.
  intros Hi Hne Hscan.
  destruct i as [|d i]; [contradiction|].
  cbn [areDigits forallb] in Hi.
  apply andb_true_iff in Hi. destruct Hi as [Hd _].
  revert Hscan. cbn [digitsString]. rewrite append_String. intros Hscan.
  unfold StringToFloat, scanStrDecimalLiteral.
  rewrite (trimStart_numeral sg d _ Hd), (scanSign_numeral sg d _ Hd), Hscan.
  reflexivity.
Qed.

Lemma asciiPrefix_sign (sg : sign) (x : text) :
  asciiPrefix (signText sg ++ x)%list
  = (asciiPrefix (signText sg) ++ asciiPrefix x)%string.
Proof. destruct sg; reflexivity. Qed.

Lemma trimTextStart_numeral (sg : sign) (d : N) (x : text) :
  (d <? 10)%N = true ->
  trimTextStart (signText sg ++ (48 + d)%N :: x)%list
  = (signText sg ++ (48 + d)%N :: x)%list.
Proof. intros H. digit_cases d H; destruct sg; reflexivity. Qed.

(** a decimal numeral with a dot is read as the number nearest to it *)
Lemma parseFloat_fraction (ws : text) (sg : sign) (i f : list N)
    (rest : text) :
  isBlank ws = true -> areDigits i = true -> i <> [] ->
  areDigits f = true -> endsNumeral rest = true ->
  parseFloat
    (ws ++ signText sg ++ digitsText i ++ 46%N :: digitsText f ++ rest)%list
  = ofDecimal (isMinus sg) (digitsValue (i ++ f)%list)
      (- Z.of_nat (length f)).
Proof.
  intros Hws Hi Hne Hf Hend.
  destruct (endsNumeral_asciiPrefix rest Hend) as [Hr He].
  unfold parseFloat. rewrite (trimTextStart_blank ws _ Hws).
  assert (Htrim : trimTextStart
                    (signText sg ++ digitsText i ++ 46%N :: digitsText f
                     ++ rest)%list
                  = (signText sg ++ digitsText i ++ 46%N :: digitsText f
                     ++ rest)%list).
  { destruct i as [|d i]; [contradiction|].
    cbn [areDigits forallb] in Hi. apply andb_true_iff in Hi.
    apply (trimTextStart_numeral sg d). tauto. }
  rewrite Htrim, asciiPrefix_sign, (asciiPrefix_digits i _ Hi).
  change (asciiPrefix (46%N :: digitsText f ++ rest)%list)
    with (String "." (asciiPrefix (digitsText f ++ rest)%list)).
  rewrite (asciiPrefix_digits f _ Hf).
  rewrite (StringToFloat_numeral sg i _ _ _ Hi Hne
             (scanUnsignedDecimal_fraction i f _ Hi Hne Hf Hr He)).
  reflexivity.
Qed.

(** a decimal numeral without a dot is read as the number nearest to it *)
Lemma parseFloat_integer (ws : text) (sg : sign) (i : list N) (rest : text) :
  isBlank ws = true -> areDigits i = true -> i <> [] ->
  endsInteger rest = true ->
  parseFloat (ws ++ signText sg ++ digitsText i ++ rest)%list
  = ofDecimal (isMinus sg) (digitsValue i) 0.
Proof.
  intros Hws Hi Hne Hend.
  destruct (endsInteger_asciiPrefix rest Hend) as (Hr & He & Hdot).
  unfold parseFloat. rewrite (trimTextStart_blank ws _ Hws).
  assert (Htrim : trimTextStart (signText sg ++ digitsText i ++ rest)%list
                  = (signText sg ++ digitsText i ++ rest)%list).
  { destruct i as [|d i]; [contradiction|].
    cbn [areDigits forallb] in Hi. apply andb_true_iff in Hi.
    apply (trimTextStart_numeral sg d). tauto. }
  rewrite Htrim, asciiPrefix_sign, (asciiPrefix_digits i _ Hi).
  rewrite (StringToFloat_numeral sg i _ _ _ Hi Hne
             (scanUnsignedDecimal_integer i _ Hi Hne Hr He Hdot)).
  reflexivity.
Qed.

(** a text that does not start like a number is not read as one *)
Lemma parseFloat_not_a_number (s : text) :
  startsNumber s = false -> parseFloat s = NaN.
Proof.
  unfold startsNumber, parseFloat.
  destruct (trimTextStart s) as [|c x] eqn:Htrim; [reflexivity|].
  cbn [asciiPrefix]. intros Hc.
  destruct (N.ltb_spec c 128) as [H128|_]; [|reflexivity].
  assert (Hws : isStrWhiteSpaceChar c = false).
  { destruct s as [|c0 s0]; [discriminate Htrim|].
    clear Hc H128. revert c0 Htrim.
    induction s0 as [|c1 s1 IH]; intros c0 Htrim; cbn [trimTextStart] in Htrim.
    - destruct (isStrWhiteSpaceChar c0) eqn:H0; [discriminate Htrim|].
      injection Htrim as <- _. exact H0.
    - destruct (isStrWhiteSpaceChar c0) eqn:H0.
      + apply (IH c1). exact Htrim.
      + injection Htrim as <- _. exact H0. }
  revert Hc Hws. rewrite <- (code_ascii_of_N c) by lia.
  generalize (ascii_of_N c) (asciiPrefix x). clear.
  intros a r Hc Hws.
  destruct a as [[] [] [] [] [] [] [] []];
    vm_compute in Hc; try discriminate Hc;
    vm_compute in Hws; try discriminate Hws; reflexivity.
Qed.

Lemma seedTransform_price (raw : RawTransaction) :
  isNaN (price (seedTransform raw)) = false.
Proof.
  unfold seedTransform. cbn [price].
  destruct (isNaN (parseFloatOf (raw_price raw))) eqn:H; [reflexivity | exact H].
Qed.

(** whatever the outcome of the three external calls, prices that were
    numbers before the loader ran are numbers after it *)
Lemma initializeDatabase_invariant
    (fetched : result fetchedData) (deleteFails : bool)
    (insertStops : option nat) (store : list Transaction) :
  Forall (fun t => isNaN (price t) = false) store ->
  Forall (fun t => isNaN (price t) = false)
    (fst (initializeDatabase fetched deleteFails insertStops store)).
Proof.
  intros Hstore. unfold initializeDatabase.
  assert (Hall : forall data,
             Forall (fun t => isNaN (price t) = false) (map seedTransform data)).
  { intros data. apply List.Forall_forall. intros t Hin.
    apply in_map_iff in Hin. destruct Hin as (raw & <- & _).
    apply seedTransform_price. }
  destruct fetched as [[data|]|e]; [| |exact Hstore].
  - destruct deleteFails; [exact Hstore|].
    destruct insertStops as [n|]; cbn [fst app].
    + apply Forall_take. apply Hall.
    + apply Hall.
  - destruct deleteFails; [exact Hstore | constructor].
Qed.

(** the price stored for a raw price that is read as [x] *)
Lemma seedTransform_reads (raw : RawTransaction) (x : number) :
  parseFloatOf (raw_price raw) = x ->
  price (seedTransform raw) = if isNaN x then zero else x.
Proof. intros <-. reflexivity. Qed.

(** C7: when the seed loader succeeds, the store holds one record for each
    raw record, with the fields of the raw record but for the price, and
    none is rejected; every stored price is a number other than [NaN],
    whatever the outcome of the loader.  The price of a text is what
    [parseFloat] reads: for a decimal numeral (white space, a sign, digits,
    with or without a dot and further digits, followed by anything that
    does not go on with the numeral) the binary64 number nearest to it,
    and 0 for a text that does not start like a number.  A price that is
    a number is kept ([NaN] and [-0] become 0); a missing price, [null], a
    boolean, an object and the empty array give 0, any other array what
    its first element gives.  A price "abc" is stored as 0, a price "42.5"
    as 42.5. *)
Theorem seed_prices_are_numbers
    (data : list RawTransaction) (store : list Transaction) :
  initializeDatabase (Return (Records data)) false None store
  = (map seedTransform data, Ok200 "Database initialized with seed data")
  /\ length (map seedTransform data) = length data
  /\ Forall (fun t => isNaN (price t) = false) (map seedTransform data)
  /\ Forall2
       (fun raw t =>
          price t = if isNaN (parseFloatOf (raw_price raw)) then zero
                    else parseFloatOf (raw_price raw))
       data (map seedTransform data)
  /\ price (seedTransform (rawWithPrice (RawString (utf8 "abc")))) = zero
  /\ price (seedTransform (rawWithPrice RawMissing)) = zero
  /\ price (seedTransform (rawWithPrice RawNull)) = zero
  /\ price (seedTransform (rawWithPrice (RawString (utf8 "42.5"))))
     = ofDecimal false 425 (-1)
  /\ price (seedTransform (rawWithPrice (RawNumber (ofDecimal false 425 (-1)))))
     = ofDecimal false 425 (-1)
  /\ (forall raw,
        _id (seedTransform raw) = raw_id raw
        /\ title (seedTransform raw) = raw_title raw
        /\ description (seedTransform raw) = raw_description raw
        /\ category (seedTransform raw) = raw_category raw
        /\ sold (seedTransform raw) = raw_sold raw
        /\ dateOfSale (seedTransform raw) = raw_dateOfSale raw)
  /\ (forall raw ws sg i f rest,
        raw_price raw
        = RawString
            (ws ++ signText sg ++ digitsText i ++ 46%N :: digitsText f
             ++ rest)%list ->
        isBlank ws = true -> areDigits i = true -> i <> [] ->
        areDigits f = true -> endsNumeral rest = true ->
        price (seedTransform raw)
        = ofDecimal (isMinus sg) (digitsValue (i ++ f)%list)
            (- Z.of_nat (length f)))
  /\ (forall raw ws sg i rest,
        raw_price raw
        = RawString (ws ++ signText sg ++ digitsText i ++ rest)%list ->
        isBlank ws = true -> areDigits i = true -> i <> [] ->
        endsInteger rest = true ->
        price (seedTransform raw) = ofDecimal (isMinus sg) (digitsValue i) 0)
  /\ (forall raw s,
        raw_price raw = RawString s -> startsNumber s = false ->
        price (seedTransform raw) = zero)
  /\ (forall raw x,
        raw_price raw = RawNumber x ->
        price (seedTransform raw)
        = match x with S754_nan | S754_zero _ => zero | _ => x end)
  /\ (forall raw,
        raw_price raw = RawMissing \/ raw_price raw = RawNull
        \/ (exists b, raw_price raw = RawBool b)
        \/ raw_price raw = RawObject \/ raw_price raw = RawArray [] ->
        price (seedTransform raw) = zero)
  /\ (forall raw raw' e es,
        raw_price raw = RawArray (e :: es) -> raw_price raw' = e ->
        price (seedTransform raw)
        = match e with
          | RawMissing | RawNull => zero
          | _ => price (seedTransform raw')
          end)
  /\ price (seedTransform (rawWithPrice (RawString (utf8 "42.5"))))
     = S754_finite false 5981343255101440 (-47)
  /\ price (seedTransform (rawWithPrice (RawString (utf8 "0.1"))))
     = S754_finite false 7205759403792794 (-56)
  /\ price (seedTransform (rawWithPrice (RawString (utf8 " -1e3 each"))))
     = S754_finite true 8796093022208000 (-43)
  /\ price (seedTransform (rawWithPrice (RawString (utf8 "₹42.5")))) = zero
  /\ (forall fetched deleteFails insertStops,
        Forall (fun t => isNaN (price t) = false) store ->
        Forall (fun t => isNaN (price t) = false)
          (fst (initializeDatabase fetched deleteFails insertStops store))).
Proof.
  split; [reflexivity|]. split; [apply length_map|]. split.
  { apply List.Forall_forall. intros t Hin.
    apply in_map_iff in Hin. destruct Hin as (raw & <- & _).
    apply seedTransform_price. }
  split.
  { induction data as [|raw data IH]; cbn [map]; constructor;
      [reflexivity | exact IH]. }
  do 5 (split; [vm_compute; reflexivity|]).
  split; [intros raw; repeat split|].
  split.
  { intros raw ws sg i f rest Hraw Hws Hi Hne Hf Hend.
    rewrite (seedTransform_reads raw
               (ofDecimal (isMinus sg) (digitsValue (i ++ f)%list)
                  (- Z.of_nat (length f)))).
    - rewrite ofDecimal_not_NaN. reflexivity.
    - rewrite Hraw. apply parseFloat_fraction; assumption. }
  split.
  { intros raw ws sg i rest Hraw Hws Hi Hne Hend.
    rewrite (seedTransform_reads raw
               (ofDecimal (isMinus sg) (digitsValue i) 0)).
    - rewrite ofDecimal_not_NaN. reflexivity.
    - rewrite Hraw. apply parseFloat_integer; assumption. }
  split.
  { intros raw s Hraw Hs. rewrite (seedTransform_reads raw NaN);
      [reflexivity|]. rewrite Hraw. apply parseFloat_not_a_number. exact Hs. }
  split.
  { intros raw x Hraw. unfold seedTransform. cbn [price]. rewrite Hraw.
    destruct x; reflexivity. }
  split.
  { intros raw [H|[H|[[b H]|[H|H]]]]; unfold seedTransform; cbn [price];
      rewrite H; [| |destruct b| |]; reflexivity. }
  split.
  { intros raw raw' e es Hraw Hraw'. unfold seedTransform. cbn [price].
    rewrite Hraw, Hraw'. destruct e; reflexivity. }
  do 4 (split; [vm_compute; reflexivity|]).
  intros fetched deleteFails insertStops.
  apply initializeDatabase_invariant.
Qed.

Lemma seed_prices_are_numbers_witness :
  price
    (seedTransform
       (rawWithPrice
          (RawString
             ([] ++ signText NoSign ++ digitsText [4; 2]%N
              ++ 46%N :: digitsText [5]%N ++ [])%list)))
  = ofDecimal false 425 (-1).
Proof.
  destruct (seed_prices_are_numbers [] [])
    as (_ & _ & _ & _ & _ & _ & _ & _ & _ & _ & Hfraction & _).
  apply (Hfraction _ [] NoSign [4; 2]%N [5]%N []);
    [reflexivity | reflexivity | reflexivity | discriminate
    | reflexivity | reflexivity].
Defined.

(** ** Category tally *)

Lemma inherited_proto (k : string) : inherited k = false -> k <> "__proto__".
Proof. intros H ->. discriminate H. Qed.

(** one step of the tally, for a label that [Object.prototype] does not
    define: the count of the label goes up by one, from 0 if it was absent *)
Lemma countCategory_step (o : gmap string value) (t : Transaction)
    (c : string -> N) :
  inherited (category t) = false ->
  (forall k, o !! k = if (c k =? 0)%N then None else Some (Num (c k))) ->
  forall k,
    countCategory o t !! k
    = if String.eqb (category t) k then Some (Num (c k + 1)) else o !! k.
Proof.
  intros Hb Ho k. set (b := category t) in *.
  pose proof (inherited_proto b Hb) as Hproto.
  apply String.eqb_neq in Hproto.
  assert (Hstep : countCategory o t = <[b := Num (c b + 1)]> o).
  { unfold countCategory. fold b. unfold postIncrement, get, set.
    rewrite Hproto, (Ho b), Hb.
    destruct (N.eqb_spec (c b) 0) as [Hz|Hnz].
    - cbn [truthy negb]. rewrite lookup_insert_eq. cbn [increment].
      rewrite insert_insert_eq, Hz. reflexivity.
    - cbn [truthy]. apply N.eqb_neq in Hnz. rewrite Hnz. cbn [negb].
      rewrite (Ho b), Hnz. reflexivity. }
  rewrite Hstep, lookup_insert.
  destruct (decide (b = k)) as [->|Hne].
  - rewrite String.eqb_refl. reflexivity.
  - apply String.eqb_neq in Hne. rewrite Hne. reflexivity.
Qed.

Lemma fold_countCategory (l : list Transaction) :
  forall (o : gmap string value) (c : string -> N),
    Forall (fun t => inherited (category t) = false) l ->
    (forall k, o !! k = if (c k =? 0)%N then None else Some (Num (c k))) ->
    forall k,
      fold_left countCategory l o !! k
      = let n := (c k + N.of_nat
                          (countWhere (fun t => String.eqb (category t) k) l))%N
        in if (n =? 0)%N then None else Some (Num n).
Proof.
  induction l as [|t l IH]; intros o c Hl Ho k; cbv zeta.
  - cbn [fold_left]. unfold countWhere. cbn [List.filter length].
    rewrite N.add_0_r. apply Ho.
  - cbn [fold_left]. inversion Hl as [|? ? Ht Hl']; subst.
    rewrite (IH _ (fun k => c k + if String.eqb (category t) k then 1 else 0)%N
               Hl').
    + cbv zeta. rewrite countWhere_cons.
      destruct (String.eqb (category t) k);
        match goal with
        | |- (if (?a =? 0)%N then _ else _) = (if (?b =? 0)%N then _ else _) =>
            replace a with b by lia; reflexivity
        end.
    + intros k'. rewrite (countCategory_step o t c Ht Ho).
      destruct (String.eqb (category t) k').
      * destruct (N.eqb_spec (c k' + 1) 0); [lia | reflexivity].
      * rewrite N.add_0_r. apply Ho.
Qed.

(** the tally of the categories, when no record of the window bears a label
    that [Object.prototype] defines: each label that occurs is mapped to
    the number of records bearing it, no other key is present *)
Lemma categories_tally
    (LocalTZA : Z) (legacyDateParse : string -> Date)
    (mongo : Mongo)
    (store : list Transaction) (month : option string) (m : string)
    (lo hi : Z) :
  checkMonth month = Return m ->
  monthWindow LocalTZA legacyDateParse (padStart 2 "0" m) = (Some lo, Some hi) ->
  Forall (fun t => inWindow lo hi t = true -> inherited (category t) = false)
    store ->
  exists body,
    getPieChartData LocalTZA legacyDateParse mongo store month = Ok200 body
    /\ forall k,
         body !! k
         = let n := countWhere
                      (fun t => inWindow lo hi t && String.eqb (category t) k)
                      store in
           if (n =? 0)%nat then None else Some (Num (N.of_nat n)).
Proof.
  intros Hm Hw Hstore. eexists. split.
  { exact (getPieChartData_run _ _ _ store month m lo hi Hm Hw). }
  intros k. rewrite (fold_countCategory _ ∅ (fun _ => 0%N)).
  - cbv zeta. rewrite N.add_0_l, countWhere_filter.
    set (n := countWhere _ store).
    destruct (Nat.eqb_spec n 0) as [->|Hn]; [reflexivity|].
    destruct (N.eqb_spec (N.of_nat n) 0); [lia | reflexivity].
  - apply List.Forall_forall. intros t Hin. apply filter_In in Hin.
    destruct Hin as [Hin Hwin].
    rewrite List.Forall_forall in Hstore. exact (Hstore t Hin Hwin).
  - intros k'. apply lookup_empty.
Qed.

(** C8 fails on a label that every object inherits: the only record of
    March bears the category "constructor", and the tally maps that label
    to [NaN] (sent as [null]), not to 1; with two such records it maps it
    to 1, not to 2; and the label "__proto__" gets no key at all. *)
Theorem categories_inherited_label :
  getPieChartData utc noLegacyParse plainMongo [builderKit] (Some "3")
  = Ok200 {[ "constructor" := NotANumber ]}
  /\ getPieChartData utc noLegacyParse plainMongo
       [builderKit; builderKit] (Some "3")
     = Ok200 {[ "constructor" := Num 1 ]}
  /\ getPieChartData utc noLegacyParse plainMongo
       [sale 10 "kit" "builder kit" "10" "__proto__" true "2021-03-05"]
       (Some "3")
     = Ok200 ∅
  /\ countWhere
       (fun t => inWindow 1614556800000 1617235200000 t
                 && String.eqb (category t) "constructor")
       [builderKit]
     = 1%nat.
Proof. repeat split; vm_compute; reflexivity. Qed.

(** ** Month validation *)

Lemma checkMonth_accepts (month : option string) (m : string) :
  checkMonth month = Return m
  <-> month = Some m /\ m <> ""
      /\ exists n, parseInt m = Some n /\ 1 <= n <= 12.
Proof.
  unfold checkMonth, invalidMonth.
  destruct month as [s|];
    [|split; [discriminate | intros (H & _); discriminate H]].
  destruct (String.eqb_spec s "") as [Hs|Hs];
    destruct (parseInt s) as [n|] eqn:Hp;
    try destruct (Z.ltb_spec n 1) as [L1|L1];
    try destruct (Z.ltb_spec 12 n) as [L2|L2];
    cbn [orb]; (split; [intros H | intros (H & Hne & n' & Hn & Hr)]);
    try discriminate;
    try (inversion H; subst; try congruence; rewrite Hp in Hn;
         inversion Hn; subst; try lia; reflexivity).
  inversion H; subst. split; [reflexivity|]. split; [exact Hs|].
  exists n. split; [exact Hp | lia].
Qed.

(** an absent or empty month, one that does not start with an integer, and
    one whose leading integer is outside 1..12, are all rejected *)
Lemma checkMonth_rejects (month : option string) :
  month = None
  \/ month = Some ""
  \/ (exists m, month = Some m
                /\ (parseInt m = None
                    \/ exists n, parseInt m = Some n /\ (n < 1 \/ 12 < n))) ->
  checkMonth month = Throw InvalidMonthParameter.
Proof.
  intros H. destruct (checkMonth month) as [m|e] eqn:Hc.
  - apply checkMonth_accepts in Hc.
    destruct Hc as (-> & Hne & n & Hn & Hr).
    destruct H as [H|[H|(m' & H & [Hnone|(n' & Hn' & Hout)])]];
      try discriminate H; injection H as H; subst; try congruence.
    rewrite Hn in Hn'. injection Hn' as Hn'. lia.
  - unfold checkMonth in Hc.
    destruct month as [s|]; [destruct (invalidMonth (Some s))|]; congruence.
Qed.

(** the months 1 to 12, as a client writes them, pass the validation *)
Lemma monthParams_valid :
  Forall (fun p => checkMonth (Some (snd p)) = Return (snd p)
                   /\ parseInt (snd p) = Some (fst p))
    monthParams.
Proof. repeat constructor. Qed.

(** a request whose month does not pass the validation is answered with an
    error by each of the five handlers, the store left aside *)
Lemma invalid_month_is_rejected
    (LocalTZA : Z) (legacyDateParse : string -> Date)
    (mongo : Mongo)
    (store : list Transaction) (q : ListParams) (e : thrown) :
  checkMonth (q_month q) = Throw e ->
  e = InvalidMonthParameter
  /\ getTransactions_try LocalTZA legacyDateParse mongo store q
     = Throw InvalidMonthParameter
  /\ getStatistics_try LocalTZA legacyDateParse mongo store (q_month q)
     = Throw InvalidMonthParameter
  /\ getBarChartData_try LocalTZA legacyDateParse mongo store (q_month q)
     = Throw InvalidMonthParameter
  /\ getPieChartData_try LocalTZA legacyDateParse mongo store (q_month q)
     = Throw InvalidMonthParameter
  /\ getCombinedData_try LocalTZA legacyDateParse mongo store q
     = Throw InvalidMonthParameter.
Proof.
  intros He. assert (e = InvalidMonthParameter) as ->.
  { unfold checkMonth in He. destruct (q_month q) as [s|];
      [destruct (invalidMonth (Some s))|]; congruence. }
  unfold getTransactions_try, getStatistics_try, getBarChartData_try,
    getPieChartData_try, getCombinedData_try.
  rewrite He. repeat split.
Qed.

Lemma compile_throws (mongo : Mongo)
    (q : query) (e : thrown) :
  compile mongo q = Throw e -> e = StoreFailure.
Proof.
  unfold compile.
  destruct (dateOfSale_gte q), (dateOfSale_lt q); try congruence.
  destruct (or_ q) as [cs|]; [destruct (compileOr mongo cs)|]; congruence.
Qed.

(** the invalid-month error comes from the validation only *)
Lemma invalid_month_is_thrown_by_validation
    (LocalTZA : Z) (legacyDateParse : string -> Date)
    (mongo : Mongo)
    (store : list Transaction) (month : option string) :
  getStatistics_try LocalTZA legacyDateParse mongo store month
  = Throw InvalidMonthParameter ->
  checkMonth month = Throw InvalidMonthParameter.
Proof.
  unfold getStatistics_try.
  destruct (checkMonth month) as [m|e]; cbn [bind].
  - unfold find.
    destruct (compile mongo _) as [accepts|e] eqn:Hc; cbn [bind];
      [discriminate|].
    apply compile_throws in Hc. congruence.
  - intros [= ->]. reflexivity.
Qed.

(** C4 fails on a month that starts with an integer from 1 to 12 and goes
    on: [parseInt] reads the integer and ignores the rest, so that "1.5",
    "3abc" and "0xC" pass the validation; the handlers go on to build the
    date [2021-1.5-01], and no invalid-month error is thrown. *)
Theorem month_validation_reads_a_prefix :
  parseInt "1.5" = Some 1
  /\ checkMonth (Some "1.5") = Return "1.5"
  /\ checkMonth (Some "3abc") = Return "3abc"
  /\ checkMonth (Some "0xC") = Return "0xC"
  /\ (forall (LocalTZA : Z) (legacyDateParse : string -> Date)
             (mongo : Mongo)
             (store : list Transaction),
        getStatistics_try LocalTZA legacyDateParse mongo store
          (Some "1.5")
        <> Throw InvalidMonthParameter)
  /\ getStatistics_try utc noLegacyParse plainMongo threePrices
       (Some "1.5")
     = Throw StoreFailure.
Proof.
  split; [vm_compute; reflexivity|]. split; [vm_compute; reflexivity|].
  split; [vm_compute; reflexivity|]. split; [vm_compute; reflexivity|].
  split; [|vm_compute; reflexivity].
  intros tz legacy pcre store H.
  apply invalid_month_is_thrown_by_validation in H.
  vm_compute in H. discriminate H.
Qed.

(** ** Month window *)

Lemma Day_offset (d tz : Z) :
  0 <= tz < msPerDay -> Day (d * msPerDay + tz) = d.
Proof.
  intros H. unfold Day. rewrite Z.div_add_l by (unfold msPerDay; lia).
  rewrite Z.div_small by exact H. lia.
Qed.

Lemma TimeWithinDay_offset (d tz : Z) :
  0 <= tz < msPerDay -> TimeWithinDay (d * msPerDay + tz) = tz.
Proof.
  intros H. unfold TimeWithinDay.
  rewrite Z.add_comm, Z.mod_add by (unfold msPerDay; lia).
  apply Z.mod_small. exact H.
Qed.

(** [setMonth] on a date at midnight UTC, on a server whose local time is
    ahead of UTC by less than a day: the local date is the same day, and
    the result is midnight UTC again *)
Lemma setMonth_midnight_east (tz d m : Z) :
  0 <= tz < msPerDay ->
  setMonth tz (Some (MakeDate d 0)) (Some m)
  = TimeClip
      (MakeDate (MakeDay (fst (fst (civilFromDays d))) m
                   (snd (civilFromDays d))) 0).
Proof.
  intros H. unfold setMonth, LocalTime, UTC, YearFromTime, DateFromTime,
    MakeDate.
  rewrite !Z.add_0_r, Day_offset, TimeWithinDay_offset by exact H.
  f_equal. lia.
Qed.

Lemma getMonth_midnight_east (tz d : Z) :
  0 <= tz < msPerDay ->
  getMonth tz (Some (MakeDate d 0))
  = Some (snd (fst (civilFromDays d)) - 1).
Proof.
  intros H. unfold getMonth, LocalTime, MonthFromTime, MakeDate.
  rewrite Z.add_0_r, Day_offset by exact H. reflexivity.
Qed.

(** the month window on a server on UTC, or ahead of UTC by a fixed offset:
    from the first instant of day 1 of the month to the first instant of
    day 1 of the next month, which for month 12 is January 2022 *)
Lemma monthWindow_east_of_UTC (tz : Z) (legacyDateParse : string -> Date)
    (n : Z) (s : string) :
  0 <= tz < msPerDay ->
  In (n, s) monthParams ->
  monthWindow tz legacyDateParse (padStart 2 "0" s)
  = (Some (firstOfMonth n), Some (firstOfMonth (n + 1))).
Proof.
  intros Htz Hin. unfold monthParams in Hin. cbn [In] in Hin.
  unfold monthWindow.
  repeat (destruct Hin as [Hin|Hin];
    [ injection Hin as <- <-;
      match goal with
      | |- context [newDate legacyDateParse ?str] =>
          let t := eval vm_compute in (parseISODate str) in
          match t with
          | Some ?v =>
              replace (newDate legacyDateParse str)
                with (Some (MakeDate (Day v) 0))
                by (vm_compute; reflexivity)
          end
      end;
      rewrite getMonth_midnight_east, setMonth_midnight_east by exact Htz;
      vm_compute; reflexivity
    | ]).
  contradiction.
Qed.

Lemma Day_offset_west (d tz : Z) :
  - msPerDay <= tz < 0 -> Day (d * msPerDay + tz) = d - 1.
Proof.
  intros H. replace (d * msPerDay + tz)
    with ((d - 1) * msPerDay + (msPerDay + tz)) by lia.
  apply Day_offset. lia.
Qed.

Lemma TimeWithinDay_offset_west (d tz : Z) :
  - msPerDay <= tz < 0 -> TimeWithinDay (d * msPerDay + tz) = msPerDay + tz.
Proof.
  intros H. replace (d * msPerDay + tz)
    with ((d - 1) * msPerDay + (msPerDay + tz)) by lia.
  apply TimeWithinDay_offset. lia.
Qed.

(** [setMonth] on a date at midnight UTC, on a server whose local time is
    behind UTC by at most a day: the local date is the day before, and the
    day of the month that is kept is the one of the day before *)
Lemma setMonth_midnight_west (tz d m : Z) :
  - msPerDay <= tz < 0 ->
  setMonth tz (Some (MakeDate d 0)) (Some m)
  = TimeClip
      (MakeDate (MakeDay (fst (fst (civilFromDays (d - 1)))) m
                   (snd (civilFromDays (d - 1))) + 1) 0).
Proof.
  intros H. unfold setMonth, LocalTime, UTC, YearFromTime, DateFromTime,
    MakeDate.
  rewrite !Z.add_0_r, Day_offset_west, TimeWithinDay_offset_west by exact H.
  f_equal. lia.
Qed.

Lemma getMonth_midnight_west (tz d : Z) :
  - msPerDay <= tz < 0 ->
  getMonth tz (Some (MakeDate d 0))
  = Some (snd (fst (civilFromDays (d - 1))) - 1).
Proof.
  intros H. unfold getMonth, LocalTime, MonthFromTime, MakeDate.
  rewrite Z.add_0_r, Day_offset_west by exact H. reflexivity.
Qed.

(** the month window on a server behind UTC by a fixed offset: it has the
    length of the month BEFORE the one asked for, and so ends on the first
    instant of the next month for January and August only *)
Lemma monthWindow_behind_UTC (tz : Z) (legacyDateParse : string -> Date)
    (n : Z) (s : string) :
  - msPerDay <= tz < 0 ->
  In (n, s) monthParams ->
  monthWindow tz legacyDateParse (padStart 2 "0" s)
  = (Some (firstOfMonth n),
     Some (firstOfMonth n + DaysInMonth 2021 (n - 1) * msPerDay)).
Proof.
  intros Htz Hin. unfold monthParams in Hin. cbn [In] in Hin.
  unfold monthWindow.
  repeat (destruct Hin as [Hin|Hin];
    [ injection Hin as <- <-;
      match goal with
      | |- context [newDate legacyDateParse ?str] =>
          let t := eval vm_compute in (parseISODate str) in
          match t with
          | Some ?v =>
              replace (newDate legacyDateParse str)
                with (Some (MakeDate (Day v) 0))
                by (vm_compute; reflexivity)
          end
      end;
      rewrite getMonth_midnight_west, setMonth_midnight_west by exact Htz;
      vm_compute; reflexivity
    | ]).
  contradiction.
Qed.

Lemma monthWindow_behind_UTC_right_months :
  Forall
    (fun p =>
       firstOfMonth (fst p) + DaysInMonth 2021 (fst p - 1) * msPerDay
       = firstOfMonth (fst p + 1)
       <-> fst p = 1 \/ fst p = 8)
    monthParams.
Proof.
  unfold monthParams.
  repeat (apply List.Forall_cons; [cbn [fst]; vm_compute; lia|]).
  apply List.Forall_nil.
Qed.

(** on every server within a day of UTC, the window of each of the months
    1 to 12 is a range of dates that starts with the month *)
Lemma monthWindow_resolves (tz : Z) (legacyDateParse : string -> Date)
    (n : Z) (s : string) :
  - msPerDay <= tz < msPerDay ->
  In (n, s) monthParams ->
  exists hi,
    monthWindow tz legacyDateParse (padStart 2 "0" s)
    = (Some (firstOfMonth n), Some hi)
    /\ firstOfMonth n < hi.
Proof.
  intros Htz Hin. destruct (Z.lt_ge_cases tz 0) as [Hwest|Heast].
  - rewrite (monthWindow_behind_UTC tz legacyDateParse n s) by (auto; lia).
    eexists. split; [reflexivity|].
    unfold monthParams in Hin. cbn [In] in Hin.
    repeat (destruct Hin as [Hin|Hin];
            [injection Hin as <- <-; vm_compute; reflexivity|]).
    contradiction.
  - rewrite (monthWindow_east_of_UTC tz legacyDateParse n s) by (auto; lia).
    eexists. split; [reflexivity|].
    unfold monthParams in Hin. cbn [In] in Hin.
    repeat (destruct Hin as [Hin|Hin];
            [injection Hin as <- <-; vm_compute; reflexivity|]).
    contradiction.
Qed.

(** on every such server the windows of the twelve months lie within 2021
    (UTC): a record dated in another year is matched by none *)
Lemma monthWindow_within_2021 (tz : Z) (legacyDateParse : string -> Date)
    (n : Z) (s : string) :
  - msPerDay <= tz < msPerDay ->
  In (n, s) monthParams ->
  exists lo hi,
    monthWindow tz legacyDateParse (padStart 2 "0" s) = (Some lo, Some hi)
    /\ firstOfMonth 1 <= lo /\ hi <= firstOfMonth 13.
Proof.
  intros Htz Hin. destruct (Z.lt_ge_cases tz 0) as [Hwest|Heast].
  - rewrite (monthWindow_behind_UTC tz legacyDateParse n s) by (auto; lia).
    do 2 eexists. split; [reflexivity|].
    unfold monthParams in Hin. cbn [In] in Hin.
    repeat (destruct Hin as [Hin|Hin];
            [injection Hin as <- <-; vm_compute; split; discriminate|]).
    contradiction.
  - rewrite (monthWindow_east_of_UTC tz legacyDateParse n s) by (auto; lia).
    do 2 eexists. split; [reflexivity|].
    unfold monthParams in Hin. cbn [In] in Hin.
    repeat (destruct Hin as [Hin|Hin];
            [injection Hin as <- <-; vm_compute; split; discriminate|]).
    contradiction.
Qed.

(** C3 fails on a server behind UTC: five hours west of it, the window of
    month 3 starts on 1 March and ends on 29 March already, since
    [setMonth] moves the local date, 28 February 19:00, to 28 March 19:00;
    a sale of 30 March is in no window of the year. *)
Theorem month_window_west_of_UTC :
  monthWindow utcMinus5 noLegacyParse (padStart 2 "0" "3")
  = (parseISODate "2021-03-01", parseISODate "2021-03-29")
  /\ firstOfMonth 4 = default 0 (parseISODate "2021-04-01")
  /\ Forall
       (fun p =>
          exists body,
            getTransactions utcMinus5 noLegacyParse plainMongo
              [sale 1 "pen" "blue" "2" "office" true "2021-03-30"]
              (onlyMonth (snd p))
            = Ok200 body
            /\ total body = 0)
       monthParams.
Proof.
  split; [vm_compute; reflexivity|]. split; [vm_compute; reflexivity|].
  repeat constructor; eexists; (split; [vm_compute; reflexivity|]);
    reflexivity.
Qed.

(* ===================================================================== *)
(** * Further properties of the handlers *)
(* ===================================================================== *)

(** ** Month validation and month forms *)

(** X1: a request whose month is absent, empty, does not start with an
    integer, or starts with an integer outside 1..12 is answered by each of
    the five read handlers with status 500 and the fixed message of that
    handler; the message of the thrown error is not sent. *)
Theorem invalid_month_answers
    (LocalTZA : Z) (legacyDateParse : string -> Date)
    (mongo : Mongo)
    (store : list Transaction) (q : ListParams) :
  invalidMonth (q_month q) = true ->
  getTransactions LocalTZA legacyDateParse mongo store q
  = Error500 "Error fetching transactions"
  /\ getStatistics LocalTZA legacyDateParse mongo store (q_month q)
     = Error500 "Error fetching statistics"
  /\ getBarChartData LocalTZA legacyDateParse mongo store (q_month q)
     = Error500 "Error fetching bar chart data"
  /\ getPieChartData LocalTZA legacyDateParse mongo store (q_month q)
     = Error500 "Error fetching pie chart data"
  /\ getCombinedData LocalTZA legacyDateParse mongo store q
     = Error500 "Error fetching combined data".
Proof.
  intros Hinv.
  assert (Hc : checkMonth (q_month q) = Throw InvalidMonthParameter).
  { unfold checkMonth. destruct (q_month q); [rewrite Hinv|]; reflexivity. }
  destruct (invalid_month_is_rejected LocalTZA legacyDateParse mongo
              store q _ Hc) as (_ & Ht & Hs & Hb & Hp & Hcomb).
  unfold getTransactions, getStatistics, getBarChartData, getPieChartData,
    getCombinedData.
  rewrite Ht, Hs, Hb, Hp, Hcomb. repeat split.
Qed.

Lemma invalid_month_answers_witness :
  invalidMonth (q_month (onlyMonth "13")) = true
  /\ getTransactions utc noLegacyParse plainMongo threePrices
       (onlyMonth "13")
     = Error500 "Error fetching transactions"
  /\ getCombinedData utc noLegacyParse plainMongo threePrices
       (onlyMonth "13")
     = Error500 "Error fetching combined data".
Proof.
  split; [vm_compute; reflexivity|].
  destruct (invalid_month_answers utc noLegacyParse plainMongo
              threePrices (onlyMonth "13"))
    as (Ht & _ & _ & _ & Hc); [vm_compute; reflexivity|].
  split; [exact Ht | exact Hc].
Defined.

(** X2: the validation reads the integer a month starts with and nothing
    after it: each of the months 1 to 12 followed by any text that does not
    start with a digit ("3abc", "1.5", "12 ") passes it, and is handed on
    as it is when it has two characters or more. *)
Theorem month_validation_ignores_what_follows
    (n : Z) (s suffix : string) :
  In (n, s) monthParams ->
  startsWithDigit suffix = false ->
  parseInt (s ++ suffix) = Some n
  /\ checkMonth (Some (s ++ suffix)) = Return (s ++ suffix)%string
  /\ (suffix <> "" ->
      padStart 2 "0" (s ++ suffix) = (s ++ suffix)%string).
Proof.
  intros Hin Hsuffix. unfold monthParams in Hin. cbn [In] in Hin.
  assert (Hparse : parseInt (s ++ suffix) = Some n).
  { assert (Hread : forall acc len,
               (let '(v, l, _) := scanDigits 10 acc (S len) suffix in
                match l with
                | O => None
                | S _ => Some (Z.of_N v)
                end) = Some (Z.of_N acc)).
    { intros acc len. rewrite (scanDigits_stops _ _ suffix Hsuffix).
      reflexivity. }
    repeat (destruct Hin as [Hin|Hin];
      [injection Hin as <- <-;
       first [ exact (Hread 1%N 0%nat) | exact (Hread 2%N 0%nat)
             | exact (Hread 3%N 0%nat) | exact (Hread 4%N 0%nat)
             | exact (Hread 5%N 0%nat) | exact (Hread 6%N 0%nat)
             | exact (Hread 7%N 0%nat) | exact (Hread 8%N 0%nat)
             | exact (Hread 9%N 0%nat) | exact (Hread 10%N 1%nat)
             | exact (Hread 11%N 1%nat) | exact (Hread 12%N 1%nat) ]|]).
    contradiction. }
  split; [exact Hparse|]. split.
  - apply checkMonth_accepts. split; [reflexivity|]. split.
    + repeat (destruct Hin as [Hin|Hin];
        [injection Hin as <- <-; discriminate|]).
      contradiction.
    + exists n. split; [exact Hparse|].
      repeat (destruct Hin as [Hin|Hin]; [injection Hin as <- <-; lia|]).
      contradiction.
  - intros Hne. destruct suffix as [|c suffix]; [congruence|].
    repeat (destruct Hin as [Hin|Hin];
      [injection Hin as <- <-; reflexivity|]).
    contradiction.
Qed.

Lemma month_validation_ignores_what_follows_witness :
  In (3, "3") monthParams
  /\ startsWithDigit "abc" = false
  /\ parseInt "3abc" = Some 3
  /\ checkMonth (Some "3abc") = Return "3abc"
  /\ padStart 2 "0" "3abc" = "3abc".
Proof.
  split; [cbn; tauto|]. split; [reflexivity|].
  destruct (month_validation_ignores_what_follows 3 "3" "abc")
    as (Hp & Hc & Hpad); [cbn; tauto | reflexivity |].
  split; [exact Hp|]. split; [exact Hc|]. apply Hpad. discriminate.
Defined.

(** ** Month window *)

(** X3: on a server on UTC, or ahead of UTC by a fixed offset of less than
    a day, the window of each of the months 1 to 12 runs from the first
    instant (UTC) of day 1 of the month in 2021 to the first instant of
    day 1 of the next month, January 2022 for month 12; it has the length
    of the month. *)
Theorem month_window_ahead_of_UTC
    (tz : Z) (legacyDateParse : string -> Date) (n : Z) (s : string) :
  0 <= tz < msPerDay ->
  In (n, s) monthParams ->
  monthWindow tz legacyDateParse (padStart 2 "0" s)
  = (Some (firstOfMonth n), Some (firstOfMonth (n + 1)))
  /\ firstOfMonth (n + 1) = firstOfMonth n + DaysInMonth 2021 n * msPerDay.
Proof.
  intros Htz Hin. split.
  - exact (monthWindow_east_of_UTC tz legacyDateParse n s Htz Hin).
  - unfold monthParams in Hin. cbn [In] in Hin.
    repeat (destruct Hin as [Hin|Hin];
            [injection Hin as <- <-; vm_compute; reflexivity|]).
    contradiction.
Qed.

Lemma month_window_ahead_of_UTC_witness :
  0 <= 19800000 < msPerDay
  /\ In (12, "12") monthParams
  /\ monthWindow 19800000 noLegacyParse (padStart 2 "0" "12")
     = (parseISODate "2021-12-01", parseISODate "2022-01-01").
Proof.
  split; [unfold msPerDay; lia|]. split; [cbn; tauto|].
  destruct (month_window_ahead_of_UTC 19800000 noLegacyParse 12 "12")
    as [Hw _]; [unfold msPerDay; lia | cbn; tauto |].
  rewrite Hw. vm_compute. reflexivity.
Defined.

(** X4: on a server behind UTC by a fixed offset of at most a day, the
    window of each of the months 1 to 12 starts at the first instant (UTC)
    of the month and has the length of the month BEFORE it (28 days for
    March, 31 for February); it ends where the next month starts for
    January and August only. *)
Theorem month_window_behind_UTC
    (tz : Z) (legacyDateParse : string -> Date) (n : Z) (s : string) :
  - msPerDay <= tz < 0 ->
  In (n, s) monthParams ->
  monthWindow tz legacyDateParse (padStart 2 "0" s)
  = (Some (firstOfMonth n),
     Some (firstOfMonth n + DaysInMonth 2021 (n - 1) * msPerDay))
  /\ (firstOfMonth n + DaysInMonth 2021 (n - 1) * msPerDay
      = firstOfMonth (n + 1)
      <-> n = 1 \/ n = 8).
Proof.
  intros Htz Hin. split.
  - exact (monthWindow_behind_UTC tz legacyDateParse n s Htz Hin).
  - pose proof monthWindow_behind_UTC_right_months as Hall.
    rewrite List.Forall_forall in Hall. exact (Hall (n, s) Hin).
Qed.

Lemma month_window_behind_UTC_witness :
  - msPerDay <= utcMinus5 < 0
  /\ In (2, "2") monthParams
  /\ monthWindow utcMinus5 noLegacyParse (padStart 2 "0" "2")
     = (parseISODate "2021-02-01", parseISODate "2021-03-04").
Proof.
  split; [unfold msPerDay, utcMinus5; lia|]. split; [cbn; tauto|].
  destruct (month_window_behind_UTC utcMinus5 noLegacyParse 2 "2")
    as [Hw _]; [unfold msPerDay, utcMinus5; lia | cbn; tauto |].
  rewrite Hw. vm_compute. reflexivity.
Defined.

(** X5: the year 2021 is written into the date the window starts from: on
    every server within a day of UTC, and for each of the months 1 to 12, a
    record dated before 2021 or after it (UTC) lies outside the window,
    and so is never listed nor counted. *)
Theorem other_years_lie_outside
    (tz : Z) (legacyDateParse : string -> Date) (n : Z) (s : string) :
  - msPerDay <= tz < msPerDay ->
  In (n, s) monthParams ->
  exists lo hi,
    monthWindow tz legacyDateParse (padStart 2 "0" s) = (Some lo, Some hi)
    /\ forall t,
         dateOfSale t < firstOfMonth 1 \/ firstOfMonth 13 <= dateOfSale t ->
         inWindow lo hi t = false.
Proof.
  intros Htz Hin.
  destruct (monthWindow_within_2021 tz legacyDateParse n s Htz Hin)
    as (lo & hi & Hw & Hlo & Hhi).
  exists lo, hi. split; [exact Hw|]. intros t Ht. unfold inWindow.
  destruct (Z.leb_spec lo (dateOfSale t));
    destruct (Z.ltb_spec (dateOfSale t) hi); try reflexivity; lia.
Qed.

Lemma other_years_lie_outside_witness :
  - msPerDay <= utcMinus5 < msPerDay
  /\ In (3, "3") monthParams
  /\ exists lo hi,
       monthWindow utcMinus5 noLegacyParse (padStart 2 "0" "3")
       = (Some lo, Some hi)
       /\ inWindow lo hi
            (sale 1 "pen" "blue" "2" "office" true "2022-03-05")
          = false.
Proof.
  split; [unfold msPerDay, utcMinus5; lia|]. split; [cbn; tauto|].
  destruct (other_years_lie_outside utcMinus5 noLegacyParse 3 "3")
    as (lo & hi & Hw & Hout); [unfold msPerDay, utcMinus5; lia | cbn; tauto |].
  exists lo, hi. split; [exact Hw|]. apply Hout. right.
  vm_compute. discriminate.
Defined.

(** X6: on a server on UTC, or ahead of UTC by a fixed offset of less
    than a day (a zone without daylight saving time), the windows of the
    months 1 to 12 divide the year 2021 (UTC): a record dated within 2021
    lies within the window of one month and of no other. *)
Theorem months_divide_the_year
    (tz : Z) (legacyDateParse : string -> Date) (t : Transaction) :
  0 <= tz < msPerDay ->
  firstOfMonth 1 <= dateOfSale t < firstOfMonth 13 ->
  exists n s,
    In (n, s) monthParams
    /\ monthWindow tz legacyDateParse (padStart 2 "0" s)
       = (Some (firstOfMonth n), Some (firstOfMonth (n + 1)))
    /\ inWindow (firstOfMonth n) (firstOfMonth (n + 1)) t = true
    /\ forall n' s' lo hi,
         In (n', s') monthParams ->
         monthWindow tz legacyDateParse (padStart 2 "0" s') = (Some lo, Some hi) ->
         inWindow lo hi t = true ->
         n' = n.
Proof.
  intros Htz Hyear.
  assert (Hwin : forall n s, In (n, s) monthParams ->
            monthWindow tz legacyDateParse (padStart 2 "0" s)
            = (Some (firstOfMonth n), Some (firstOfMonth (n + 1)))).
  { intros n s Hin. apply monthWindow_east_of_UTC; assumption. }
  assert (H1 : firstOfMonth 1 = 1609459200000) by (vm_compute; reflexivity).
  assert (H2 : firstOfMonth 2 = 1612137600000) by (vm_compute; reflexivity).
  assert (H3 : firstOfMonth 3 = 1614556800000) by (vm_compute; reflexivity).
  assert (H4 : firstOfMonth 4 = 1617235200000) by (vm_compute; reflexivity).
  assert (H5 : firstOfMonth 5 = 1619827200000) by (vm_compute; reflexivity).
  assert (H6 : firstOfMonth 6 = 1622505600000) by (vm_compute; reflexivity).
  assert (H7 : firstOfMonth 7 = 1625097600000) by (vm_compute; reflexivity).
  assert (H8 : firstOfMonth 8 = 1627776000000) by (vm_compute; reflexivity).
  assert (H9 : firstOfMonth 9 = 1630454400000) by (vm_compute; reflexivity).
  assert (H10 : firstOfMonth 10 = 1633046400000) by (vm_compute; reflexivity).
  assert (H11 : firstOfMonth 11 = 1635724800000) by (vm_compute; reflexivity).
  assert (H12 : firstOfMonth 12 = 1638316800000) by (vm_compute; reflexivity).
  assert (H13 : firstOfMonth 13 = 1640995200000) by (vm_compute; reflexivity).
  assert (Hin : forall n, 1 <= n <= 12 ->
            firstOfMonth n <= dateOfSale t < firstOfMonth (n + 1) ->
            inWindow (firstOfMonth n) (firstOfMonth (n + 1)) t = true).
  { intros n _ Hn. unfold inWindow. apply andb_true_iff.
    split; [apply Z.leb_le | apply Z.ltb_lt]; tauto. }
  assert (Hfind : exists n s,
            In (n, s) monthParams
            /\ firstOfMonth n <= dateOfSale t < firstOfMonth (n + 1)).
  { destruct (Z.lt_ge_cases (dateOfSale t) (firstOfMonth 2));
      [exists 1, "1"; split; [cbn; tauto|change (1 + 1) with 2; lia]|].
    destruct (Z.lt_ge_cases (dateOfSale t) (firstOfMonth 3));
      [exists 2, "2"; split; [cbn; tauto|change (2 + 1) with 3; lia]|].
    destruct (Z.lt_ge_cases (dateOfSale t) (firstOfMonth 4));
      [exists 3, "3"; split; [cbn; tauto|change (3 + 1) with 4; lia]|].
    destruct (Z.lt_ge_cases (dateOfSale t) (firstOfMonth 5));
      [exists 4, "4"; split; [cbn; tauto|change (4 + 1) with 5; lia]|].
    destruct (Z.lt_ge_cases (dateOfSale t) (firstOfMonth 6));
      [exists 5, "5"; split; [cbn; tauto|change (5 + 1) with 6; lia]|].
    destruct (Z.lt_ge_cases (dateOfSale t) (firstOfMonth 7));
      [exists 6, "6"; split; [cbn; tauto|change (6 + 1) with 7; lia]|].
    destruct (Z.lt_ge_cases (dateOfSale t) (firstOfMonth 8));
      [exists 7, "7"; split; [cbn; tauto|change (7 + 1) with 8; lia]|].
    destruct (Z.lt_ge_cases (dateOfSale t) (firstOfMonth 9));
      [exists 8, "8"; split; [cbn; tauto|change (8 + 1) with 9; lia]|].
    destruct (Z.lt_ge_cases (dateOfSale t) (firstOfMonth 10));
      [exists 9, "9"; split; [cbn; tauto|change (9 + 1) with 10; lia]|].
    destruct (Z.lt_ge_cases (dateOfSale t) (firstOfMonth 11));
      [exists 10, "10"; split; [cbn; tauto|change (10 + 1) with 11; lia]|].
    destruct (Z.lt_ge_cases (dateOfSale t) (firstOfMonth 12));
      [exists 11, "11"; split; [cbn; tauto|change (11 + 1) with 12; lia]|].
    exists 12, "12". split; [cbn; tauto|change (12 + 1) with 13; lia]. }
  destruct Hfind as (n & s & Hs & Hn).
  exists n, s. split; [exact Hs|]. split; [apply Hwin; exact Hs|].
  split.
  { unfold inWindow. apply andb_true_iff.
    split; [apply Z.leb_le | apply Z.ltb_lt]; tauto. }
  intros n' s' lo hi Hs' Hw' Hin'.
  rewrite (Hwin n' s' Hs') in Hw'. injection Hw' as <- <-.
  unfold inWindow in Hin'. apply andb_true_iff in Hin'.
  destruct Hin' as [Hlo Hhi]. apply Z.leb_le in Hlo. apply Z.ltb_lt in Hhi.
  clear Hwin Hin Htz.
  unfold monthParams in Hs, Hs'. cbn [In] in Hs, Hs'.
  repeat (destruct Hs as [Hs|Hs]; [injection Hs as <- <-|]);
    try contradiction;
    repeat (destruct Hs' as [Hs'|Hs']; [injection Hs' as <- <-|]);
    try contradiction;
    repeat match goal with
           | H : context [firstOfMonth (?a + 1)] |- _ =>
               let v := eval vm_compute in (a + 1) in
               change (a + 1) with v in H
           end;
    lia.
Qed.

Lemma months_divide_the_year_witness :
  0 <= 19800000 < msPerDay
  /\ firstOfMonth 1 <= dateOfSale item125 < firstOfMonth 13
  /\ exists n s,
       In (n, s) monthParams
       /\ inWindow (firstOfMonth n) (firstOfMonth (n + 1)) item125 = true.
Proof.
  split; [unfold msPerDay; lia|].
  split; [vm_compute; split; [discriminate|reflexivity]|].
  destruct (months_divide_the_year 19800000 noLegacyParse item125)
    as (n & s & Hs & _ & Hin & _);
    [unfold msPerDay; lia
    | vm_compute; split; [discriminate|reflexivity] |].
  exists n, s. split; [exact Hs | exact Hin].
Defined.

(** ** Zero-padded months *)

Lemma padStart_idempotent (s : string) :
  padStart 2 "0" (padStart 2 "0" s) = padStart 2 "0" s.
Proof. destruct s as [|c [|d s]]; reflexivity. Qed.

Lemma checkMonth_Some (m m' : string) :
  checkMonth (Some m) = Return m' -> m' = m.
Proof.
  unfold checkMonth. destruct (invalidMonth (Some m)); [discriminate|].
  intros [= ->]. reflexivity.
Qed.

(** padding to two digits keeps a month valid, and an invalid one invalid *)
Lemma checkMonth_padStart (m : string) :
  checkMonth (Some (padStart 2 "0" m))
  = match checkMonth (Some m) with
    | Return _ => Return (padStart 2 "0" m)
    | Throw e => Throw e
    end.
Proof.
  destruct m as [|c [|d s]].
  - vm_compute. reflexivity.
  - destruct c as [[] [] [] [] [] [] [] []]; vm_compute; reflexivity.
  - change (padStart 2 "0" (String c (String d s))) with (String c (String d s)).
    unfold checkMonth.
    destruct (invalidMonth (Some (String c (String d s)))); reflexivity.
Qed.

Lemma padded_month_answers
    (LocalTZA : Z) (legacyDateParse : string -> Date)
    (mongo : Mongo)
    (store : list Transaction) (q : ListParams) (m : string) :
  getTransactions LocalTZA legacyDateParse mongo store
    (withMonth q (padStart 2 "0" m))
  = getTransactions LocalTZA legacyDateParse mongo store (withMonth q m)
  /\ getStatistics LocalTZA legacyDateParse mongo store
       (Some (padStart 2 "0" m))
     = getStatistics LocalTZA legacyDateParse mongo store (Some m)
  /\ getBarChartData LocalTZA legacyDateParse mongo store
       (Some (padStart 2 "0" m))
     = getBarChartData LocalTZA legacyDateParse mongo store (Some m)
  /\ getPieChartData LocalTZA legacyDateParse mongo store
       (Some (padStart 2 "0" m))
     = getPieChartData LocalTZA legacyDateParse mongo store (Some m).
Proof.
  pose proof (checkMonth_padStart m) as Hpad.
  unfold getTransactions, getTransactions_try, getStatistics,
    getStatistics_try, getBarChartData, getBarChartData_try, getPieChartData,
    getPieChartData_try.
  cbn [q_month q_page q_perPage q_search withMonth].
  rewrite Hpad.
  destruct (checkMonth (Some m)) as [m'|e] eqn:Hm; cbn [bind].
  - apply checkMonth_Some in Hm. subst m'.
    rewrite padStart_idempotent. repeat split.
  - repeat split.
Qed.

(** X7: a month and the same month padded with a zero to two characters
    ("3" and "03", and also "" and "00", "x" and "0x") get the same
    answer from each of the five read handlers, error answers included. *)
Theorem padded_month_same_answers
    (LocalTZA : Z) (legacyDateParse : string -> Date)
    (mongo : Mongo)
    (store : list Transaction) (q : ListParams) (m : string) :
  let padded := padStart 2 "0" m in
  getTransactions LocalTZA legacyDateParse mongo store (withMonth q padded)
  = getTransactions LocalTZA legacyDateParse mongo store (withMonth q m)
  /\ getStatistics LocalTZA legacyDateParse mongo store (Some padded)
     = getStatistics LocalTZA legacyDateParse mongo store (Some m)
  /\ getBarChartData LocalTZA legacyDateParse mongo store (Some padded)
     = getBarChartData LocalTZA legacyDateParse mongo store (Some m)
  /\ getPieChartData LocalTZA legacyDateParse mongo store (Some padded)
     = getPieChartData LocalTZA legacyDateParse mongo store (Some m)
  /\ getCombinedData LocalTZA legacyDateParse mongo store
       (withMonth q padded)
     = getCombinedData LocalTZA legacyDateParse mongo store (withMonth q m).
Proof.
  intros padded. subst padded.
  pose proof (checkMonth_padStart m) as Hpad.
  unfold getTransactions, getTransactions_try, getStatistics,
    getStatistics_try, getBarChartData, getBarChartData_try, getPieChartData,
    getPieChartData_try, getCombinedData, getCombinedData_try.
  cbn [q_month q_page q_perPage q_search withMonth].
  rewrite Hpad.
  destruct (checkMonth (Some m)) as [m'|e] eqn:Hm; cbn [bind].
  - apply checkMonth_Some in Hm. subst m'.
    rewrite padStart_idempotent. repeat split.
  - repeat split.
Qed.

(** ** Combined view and the four handlers *)

Lemma getCombinedData_direct
    (LocalTZA : Z) (legacyDateParse : string -> Date)
    (mongo : Mongo)
    (store : list Transaction) (q : ListParams) :
  getCombinedData LocalTZA legacyDateParse mongo store q
  = match
      getTransactions LocalTZA legacyDateParse mongo store q,
      getStatistics LocalTZA legacyDateParse mongo store (q_month q),
      getBarChartData LocalTZA legacyDateParse mongo store (q_month q),
      getPieChartData LocalTZA legacyDateParse mongo store (q_month q)
    with
    | Ok200 t, Ok200 s, Ok200 b, Ok200 p =>
        Ok200 {| c_transactions := t; c_statistics := s;
                 c_barChart := b; c_pieChart := p |}
    | _, _, _, _ => Error500 "Error fetching combined data"
    end.
Proof.
  rewrite getCombinedData_all_or_nothing.
  destruct (checkMonth (q_month q)) as [m|e] eqn:Hm.
  - assert (Hq : q_month q = Some m).
    { apply checkMonth_accepts in Hm. tauto. }
    cbv zeta.
    destruct (padded_month_answers LocalTZA legacyDateParse mongo store
                (forwarded m q) m) as (Ht & Hs & Hb & Hp).
    rewrite Hq, Hs, Hb, Hp.
    replace (forwarded (padStart 2 "0" m) q)
      with (withMonth (forwarded m q) (padStart 2 "0" m)) by reflexivity.
    rewrite Ht.
    replace (getTransactions LocalTZA legacyDateParse mongo store
               (withMonth (forwarded m q) m))
      with (getTransactions LocalTZA legacyDateParse mongo store q);
      [reflexivity|].
    unfold getTransactions, getTransactions_try.
    cbn [withMonth forwarded q_month q_page q_perPage q_search default
         from_option]. rewrite Hq. reflexivity.
  - unfold getTransactions, getTransactions_try. rewrite Hm. reflexivity.
Qed.

(** X8: the combined view answers with the bodies that the lister, the
    statistics, the histogram and the category handler give for the same
    request, when each of the four answers with status 200; when one of
    them answers with status 500, so does the combined view, with its own
    message. *)
Theorem combined_agrees_with_the_four_handlers
    (LocalTZA : Z) (legacyDateParse : string -> Date)
    (mongo : Mongo)
    (store : list Transaction) (q : ListParams) :
  getCombinedData LocalTZA legacyDateParse mongo store q
  = match
      getTransactions LocalTZA legacyDateParse mongo store q,
      getStatistics LocalTZA legacyDateParse mongo store (q_month q),
      getBarChartData LocalTZA legacyDateParse mongo store (q_month q),
      getPieChartData LocalTZA legacyDateParse mongo store (q_month q)
    with
    | Ok200 t, Ok200 s, Ok200 b, Ok200 p =>
        Ok200 {| c_transactions := t; c_statistics := s;
                 c_barChart := b; c_pieChart := p |}
    | _, _, _, _ => Error500 "Error fetching combined data"
    end.
Proof. apply getCombinedData_direct. Qed.

(** ** The window in every answer *)

(** the empty pattern is found in every text *)
Lemma searchFrom_nil (unicodeFold : N -> N) (s : text) :
  searchFrom unicodeFold [] s = true.
Proof. destruct s; reflexivity. Qed.

Lemma buildQuery_dates (LocalTZA : Z) (legacyDateParse : string -> Date)
    (month : string) (search : text) :
  dateOfSale_gte (buildQuery LocalTZA legacyDateParse month search)
  = fst (monthWindow LocalTZA legacyDateParse month)
  /\ dateOfSale_lt (buildQuery LocalTZA legacyDateParse month search)
     = snd (monthWindow LocalTZA legacyDateParse month).
Proof.
  unfold buildQuery.
  destruct (monthWindow LocalTZA legacyDateParse month) as [s e].
  destruct (negb (isNaN (Number search))); split; reflexivity.
Qed.

(** the test a query compiles to is the window and a test that does not
    depend on the window *)
Lemma compile_window (mongo : Mongo)
    (q : query) (accepts : Transaction -> bool) :
  compile mongo q = Return accepts ->
  exists lo hi f,
    dateOfSale_gte q = Some lo /\ dateOfSale_lt q = Some hi
    /\ (or_ q = None -> forall t, f t = true)
    /\ forall t, accepts t = inWindow lo hi t && f t.
Proof.
  unfold compile.
  destruct (dateOfSale_gte q) as [lo|]; [|discriminate].
  destruct (dateOfSale_lt q) as [hi|]; [|discriminate].
  destruct (or_ q) as [cs|].
  - destruct (compileOr mongo cs) as [f|]; [|discriminate].
    intros [= <-]. exists lo, hi, f. repeat split. discriminate.
  - intros [= <-]. exists lo, hi, (fun _ => true). repeat split.
    intros t. rewrite andb_true_r. reflexivity.
Qed.

Lemma compile_no_window (mongo : Mongo)
    (q : query) :
  dateOfSale_gte q = None -> compile mongo q = Throw StoreFailure.
Proof. unfold compile. intros ->. reflexivity. Qed.

Lemma compile_no_hi (mongo : Mongo)
    (q : query) :
  dateOfSale_lt q = None -> compile mongo q = Throw StoreFailure.
Proof.
  unfold compile. intros ->. destruct (dateOfSale_gte q); reflexivity.
Qed.

Lemma filter_window_and {A : Type} (w f a : A -> bool) (l : list A) :
  (forall t, a t = w t && f t) ->
  List.filter a l = List.filter f (List.filter w l).
Proof.
  intros Ha. induction l as [|x l IH]; [reflexivity|].
  cbn [List.filter]. rewrite Ha.
  destruct (w x); cbn [andb List.filter]; [destruct (f x)|]; rewrite IH;
    reflexivity.
Qed.

Lemma filter_sublist {A : Type} (f : A -> bool) (l : list A) :
  sublist (List.filter f l) l.
Proof.
  induction l as [|x l IH]; [constructor|].
  cbn [List.filter]. destruct (f x); constructor; exact IH.
Qed.

Lemma filter_length_le {A : Type} (f : A -> bool) (l : list A) :
  (length (List.filter f l) <= length l)%nat.
Proof. apply sublist_length, filter_sublist. Qed.

Lemma limit_sublist (mongo : Mongo) (n : Z) (l : list Transaction) :
  sublist (limit mongo n l) l.
Proof.
  unfold limit. destruct (n =? 0); [reflexivity|].
  destruct (n <? 0); apply sublist_take.
Qed.

Lemma limit_length (mongo : Mongo) (n : Z) (l : list Transaction) :
  n <> 0 -> Z.of_nat (length (limit mongo n l)) <= Z.abs n.
Proof.
  intros Hn. unfold limit. destruct (Z.eqb_spec n 0); [contradiction|].
  destruct (Z.ltb_spec n 0); rewrite length_take; lia.
Qed.

(** what a 200 answer of the lister says about the request *)
Lemma getTransactions_Ok200
    (LocalTZA : Z) (legacyDateParse : string -> Date)
    (mongo : Mongo)
    (store : list Transaction) (q : ListParams) (body : TransactionsBody) :
  getTransactions LocalTZA legacyDateParse mongo store q = Ok200 body ->
  exists m accepts,
    checkMonth (q_month q) = Return m
    /\ compile mongo
         (buildQuery LocalTZA legacyDateParse (padStart 2 "0" m)
            (default [] (q_search q)))
       = Return accepts
    /\ 0 <= (default 1 (q_page q) - 1) * default 10 (q_perPage q)
    /\ body
       = let matching := List.filter accepts store in
         let page := default 1 (q_page q) in
         let perPage := default 10 (q_perPage q) in
         {| transactions :=
              limit mongo perPage (drop (Z.to_nat ((page - 1) * perPage)) matching);
            total := Z.of_nat (length matching);
            page := page;
            perPage := perPage;
            totalPages := ceilDiv (Z.of_nat (length matching)) perPage |}.
Proof.
  intros Hok.
  destruct (checkMonth (q_month q)) as [m|e] eqn:Hm.
  2:{ unfold getTransactions, getTransactions_try in Hok.
      rewrite Hm in Hok. discriminate. }
  destruct (compile mongo
              (buildQuery LocalTZA legacyDateParse (padStart 2 "0" m)
                 (default [] (q_search q)))) as [accepts|e] eqn:Hc.
  2:{ unfold getTransactions, getTransactions_try, find in Hok.
      rewrite Hm in Hok. cbn [bind] in Hok. rewrite Hc in Hok.
      discriminate. }
  destruct (Z.lt_ge_cases
              ((default 1 (q_page q) - 1) * default 10 (q_perPage q)) 0)
    as [Hneg|Hpos].
  { unfold getTransactions, getTransactions_try, find, skip in Hok.
    rewrite Hm in Hok. cbn [bind] in Hok. rewrite Hc in Hok.
    cbn [bind] in Hok.
    apply Z.ltb_lt in Hneg. rewrite Hneg in Hok. discriminate. }
  exists m, accepts. repeat split; try assumption.
  rewrite (getTransactions_run LocalTZA legacyDateParse mongo store q m
             accepts Hm Hc Hpos) in Hok.
  injection Hok as <-. reflexivity.
Qed.

(** a 200 answer of the lister is made from the records within the
    window; [f] is the test of the search *)
Lemma getTransactions_window
    (LocalTZA : Z) (legacyDateParse : string -> Date)
    (mongo : Mongo)
    (store : list Transaction) (q : ListParams) (m : string) (lo hi : Z)
    (body : TransactionsBody) :
  checkMonth (q_month q) = Return m ->
  monthWindow LocalTZA legacyDateParse (padStart 2 "0" m)
  = (Some lo, Some hi) ->
  getTransactions LocalTZA legacyDateParse mongo store q = Ok200 body ->
  exists f,
    body
    = let matching := List.filter f (List.filter (inWindow lo hi) store) in
      let page := default 1 (q_page q) in
      let perPage := default 10 (q_perPage q) in
      {| transactions :=
           limit mongo perPage (drop (Z.to_nat ((page - 1) * perPage)) matching);
         total := Z.of_nat (length matching);
         page := page;
         perPage := perPage;
         totalPages := ceilDiv (Z.of_nat (length matching)) perPage |}.
Proof.
  intros Hm Hw Hok.
  destruct (getTransactions_Ok200 _ _ _ _ _ _ Hok)
    as (m' & accepts & Hm' & Hc & _ & ->).
  rewrite Hm in Hm'. injection Hm' as <-.
  destruct (compile_window _ _ _ Hc) as (lo' & hi' & f & Hlo & Hhi & _ & Hacc).
  destruct (buildQuery_dates LocalTZA legacyDateParse (padStart 2 "0" m)
              (default [] (q_search q))) as [Hgte Hlt].
  rewrite Hw in Hgte, Hlt. cbn [fst snd] in Hgte, Hlt.
  rewrite Hgte in Hlo. rewrite Hlt in Hhi.
  injection Hlo as <-. injection Hhi as <-.
  exists f. cbv zeta.
  rewrite (filter_window_and (inWindow lo hi) f accepts store Hacc).
  reflexivity.
Qed.

(** X9: whatever the search, the page and the page size, the records of a
    200 answer of the lister are records of the store dated within the
    window, in the order of the store and each at most once per place in
    the store; they are no more than the total reported, which is no more
    than the number of records within the window; and a page size other
    than 0 bounds their number by its absolute value. *)
Theorem lister_returns_records_of_the_window
    (LocalTZA : Z) (legacyDateParse : string -> Date)
    (mongo : Mongo)
    (store : list Transaction) (q : ListParams) (m : string) (lo hi : Z)
    (body : TransactionsBody) :
  checkMonth (q_month q) = Return m ->
  monthWindow LocalTZA legacyDateParse (padStart 2 "0" m)
  = (Some lo, Some hi) ->
  getTransactions LocalTZA legacyDateParse mongo store q = Ok200 body ->
  sublist (transactions body) (List.filter (inWindow lo hi) store)
  /\ Z.of_nat (length (transactions body)) <= total body
  /\ total body <= Z.of_nat (countWhere (inWindow lo hi) store)
  /\ (default 10 (q_perPage q) <> 0 ->
      Z.of_nat (length (transactions body))
      <= Z.abs (default 10 (q_perPage q))).
Proof.
  intros Hm Hw Hok.
  destruct (getTransactions_window _ _ _ _ _ _ _ _ _ Hm Hw Hok) as [f ->].
  cbv zeta. cbn [transactions total].
  set (window := List.filter (inWindow lo hi) store).
  repeat split.
  - etransitivity; [apply limit_sublist|].
    etransitivity; [apply sublist_drop|]. apply filter_sublist.
  - apply inj_le. etransitivity; [apply sublist_length, limit_sublist|].
    apply sublist_length, sublist_drop.
  - apply inj_le. unfold countWhere. fold window. apply filter_length_le.
  - intros Hn. apply limit_length. exact Hn.
Qed.

Lemma lister_returns_records_of_the_window_witness :
  checkMonth (q_month (searching "3" "ink")) = Return "3"
  /\ monthWindow utc noLegacyParse (padStart 2 "0" "3")
     = (Some 1614556800000, Some 1617235200000)
  /\ exists body,
       getTransactions utc noLegacyParse plainMongo threePrices
         (searching "3" "ink")
       = Ok200 body
       /\ sublist (transactions body)
            (List.filter (inWindow 1614556800000 1617235200000) threePrices)
       /\ total body = 1.
Proof.
  split; [vm_compute; reflexivity|]. split; [vm_compute; reflexivity|].
  destruct (getTransactions utc noLegacyParse plainMongo threePrices
              (searching "3" "ink")) as [body|message] eqn:Hrun.
  - exists body. split; [reflexivity|].
    destruct (lister_returns_records_of_the_window utc noLegacyParse
                plainMongo threePrices (searching "3" "ink") "3"
                1614556800000 1617235200000 body)
      as (Hsub & _); [vm_compute; reflexivity | vm_compute; reflexivity
                     | exact Hrun |].
    split; [exact Hsub|].
    vm_compute in Hrun. injection Hrun as <-. reflexivity.
  - vm_compute in Hrun. discriminate.
Defined.

(** ** Pages *)


Lemma chunks_concat {A : Type} (n : nat) (l : list A) (k : nat) :
  (0 < n)%nat ->
  concat (map (fun i => take n (drop (i * n) l)) (seq 0 k))
  = take (k * n) l.
Proof.
  intros Hn. induction k as [|k IH]; [reflexivity|].
  rewrite seq_S, map_app, concat_app, IH. cbn [map concat plus].
  rewrite app_nil_r.
  replace (S k * n)%nat with (k * n + n)%nat by lia.
  rewrite <- take_take_drop. reflexivity.
Qed.

(** X10: with a page size of at least 1, the pages 1 to [totalPages] of a
    listing, one after the other, are the matching records of the store in
    the order of the store: no record is left out and none is listed twice;
    the total and the number of pages are the same on every page. *)
Theorem pages_make_up_the_listing
    (LocalTZA : Z) (legacyDateParse : string -> Date)
    (mongo : Mongo)
    (store : list Transaction) (q : ListParams) (m : string)
    (accepts : Transaction -> bool) :
  checkMonth (q_month q) = Return m ->
  compile mongo
    (buildQuery LocalTZA legacyDateParse (padStart 2 "0" m)
       (default [] (q_search q)))
  = Return accepts ->
  1 <= default 10 (q_perPage q) ->
  exists pages,
    ceilDiv (Z.of_nat (length (List.filter accepts store)))
      (default 10 (q_perPage q)) = Some pages
    /\ concat (map (listedPage LocalTZA legacyDateParse mongo store q)
                 (pageNumbers pages))
       = List.filter accepts store
    /\ forall p, 1 <= p ->
         exists body,
           getTransactions LocalTZA legacyDateParse mongo store
             (withPage q p) = Ok200 body
           /\ total body = Z.of_nat (length (List.filter accepts store))
           /\ totalPages body = Some pages.
Proof.
  intros Hm Hc Hpp.
  set (perPage_ := default 10 (q_perPage q)) in *.
  set (matching := List.filter accepts store).
  destruct (ceilDiv_least (Z.of_nat (length matching)) perPage_)
    as (pages & Hpages & Hup & Hlow); [lia|].
  assert (Hrun : forall p, 1 <= p ->
            getTransactions LocalTZA legacyDateParse mongo store
              (withPage q p)
            = Ok200
                {| transactions :=
                     take (Z.to_nat perPage_)
                       (drop (Z.to_nat (p - 1) * Z.to_nat perPage_) matching);
                   total := Z.of_nat (length matching);
                   page := p;
                   perPage := perPage_;
                   totalPages := Some pages |}).
  { intros p Hp.
    rewrite (getTransactions_run LocalTZA legacyDateParse mongo store
               (withPage q p) m accepts); [| exact Hm | exact Hc |].
    - cbv zeta. cbn [withPage q_page q_perPage].
      change (default 1 (Some p)) with p.
      fold perPage_. fold matching. rewrite Hpages.
      rewrite limit_positive by lia.
      rewrite Z2Nat.inj_mul by lia. reflexivity.
    - cbn [withPage q_page q_perPage].
      change (default 1 (Some p)) with p. fold perPage_. nia. }
  exists pages. split; [exact Hpages|]. split.
  - unfold pageNumbers. rewrite map_map.
    rewrite (map_ext _
               (fun i => take (Z.to_nat perPage_)
                           (drop (i * Z.to_nat perPage_) matching))).
    + assert (Hnonneg : 0 <= pages) by nia.
      rewrite chunks_concat by lia. apply take_ge.
      apply Nat2Z.inj_le. rewrite Nat2Z.inj_mul, !Z2Nat.id; lia.
    + intros i. unfold listedPage. rewrite Hrun by lia.
      cbn [transactions]. replace (Z.of_nat i + 1 - 1) with (Z.of_nat i) by lia.
      rewrite Nat2Z.id. reflexivity.
  - intros p Hp. eexists. split; [apply Hrun; exact Hp|]. split; reflexivity.
Qed.

Lemma pages_make_up_the_listing_witness :
  checkMonth (q_month (paging "3" 1 10)) = Return "3"
  /\ 1 <= default 10 (q_perPage (paging "3" 1 10))
  /\ concat (map (listedPage utc noLegacyParse plainMongo twentyFiveSales
                    (paging "3" 1 10))
               [1; 2; 3])
     = twentyFiveSales.
Proof.
  split; [vm_compute; reflexivity|].
  split; [vm_compute; discriminate|].
  destruct (compile_buildQuery utc noLegacyParse plainMongo
              (padStart 2 "0" "3") [] 1614556800000 1617235200000 [])
    as (accepts & Hc & Hacc); [vm_compute; reflexivity | reflexivity |].
  destruct (pages_make_up_the_listing utc noLegacyParse plainMongo
              twentyFiveSales (paging "3" 1 10) "3" accepts)
    as (pages & Hpages & Hall & _);
    [vm_compute; reflexivity | exact Hc | vm_compute; discriminate |].
  assert (Hfilter : List.filter accepts twentyFiveSales = twentyFiveSales).
  { rewrite (filter_ext accepts (fun t => inWindow 1614556800000 1617235200000 t)).
    - vm_compute. reflexivity.
    - intros t. rewrite Hacc, searchFrom_nil. apply andb_true_r. }
  rewrite Hfilter in Hpages, Hall.
  assert (Hp : pages = 3).
  { vm_compute in Hpages. injection Hpages as <-. reflexivity. }
  rewrite Hp in Hall. exact Hall.
Defined.

Lemma getTransactions_negative_skip
    (LocalTZA : Z) (legacyDateParse : string -> Date)
    (mongo : Mongo)
    (store : list Transaction) (q : ListParams) :
  (default 1 (q_page q) - 1) * default 10 (q_perPage q) < 0 ->
  getTransactions LocalTZA legacyDateParse mongo store q
  = Error500 "Error fetching transactions".
Proof.
  intros Hneg. unfold getTransactions, getTransactions_try, find, skip.
  destruct (checkMonth (q_month q)); [|reflexivity]. cbn [bind].
  destruct (compile mongo _); [|reflexivity]. cbn [bind].
  apply Z.ltb_lt in Hneg. rewrite Hneg. reflexivity.
Qed.

(** X11: a page before the first with a positive page size, or a page
    after the first with a negative one, makes the number of records to
    skip negative; the store rejects it, and the lister and the combined
    view answer with status 500, whatever the month and the search. *)
Theorem negative_skip_is_an_error
    (LocalTZA : Z) (legacyDateParse : string -> Date)
    (mongo : Mongo)
    (store : list Transaction) (q : ListParams) :
  (default 1 (q_page q) - 1) * default 10 (q_perPage q) < 0 ->
  getTransactions LocalTZA legacyDateParse mongo store q
  = Error500 "Error fetching transactions"
  /\ getCombinedData LocalTZA legacyDateParse mongo store q
     = Error500 "Error fetching combined data".
Proof.
  intros Hneg.
  pose proof (getTransactions_negative_skip LocalTZA legacyDateParse
                mongo store q Hneg) as Hlist.
  split; [exact Hlist|].
  rewrite getCombinedData_direct, Hlist. reflexivity.
Qed.

Lemma negative_skip_is_an_error_witness :
  (default 1 (q_page (paging "3" 0 10)) - 1)
  * default 10 (q_perPage (paging "3" 0 10)) < 0
  /\ getTransactions utc noLegacyParse plainMongo twentyFiveSales
       (paging "3" 0 10)
     = Error500 "Error fetching transactions".
Proof.
  split; [vm_compute; reflexivity|].
  apply (negative_skip_is_an_error utc noLegacyParse plainMongo
           twentyFiveSales (paging "3" 0 10)).
  vm_compute. reflexivity.
Defined.

(** ** What the answers depend on *)

(** X12: the answers of the five read handlers for a month depend on the
    records of the store dated within the window of the month, and on
    nothing else of the store: two stores with the same records within the
    window, in the same order, get the same answers. *)
Theorem records_outside_the_window_do_not_count
    (LocalTZA : Z) (legacyDateParse : string -> Date)
    (mongo : Mongo)
    (store store' : list Transaction) (q : ListParams) (m : string)
    (lo hi : Z) :
  checkMonth (q_month q) = Return m ->
  monthWindow LocalTZA legacyDateParse (padStart 2 "0" m)
  = (Some lo, Some hi) ->
  List.filter (inWindow lo hi) store = List.filter (inWindow lo hi) store' ->
  getTransactions LocalTZA legacyDateParse mongo store q
  = getTransactions LocalTZA legacyDateParse mongo store' q
  /\ getStatistics LocalTZA legacyDateParse mongo store (q_month q)
     = getStatistics LocalTZA legacyDateParse mongo store' (q_month q)
  /\ getBarChartData LocalTZA legacyDateParse mongo store (q_month q)
     = getBarChartData LocalTZA legacyDateParse mongo store' (q_month q)
  /\ getPieChartData LocalTZA legacyDateParse mongo store (q_month q)
     = getPieChartData LocalTZA legacyDateParse mongo store' (q_month q)
  /\ getCombinedData LocalTZA legacyDateParse mongo store q
     = getCombinedData LocalTZA legacyDateParse mongo store' q.
Proof.
  intros Hm Hw Hsame.
  assert (Ht : getTransactions LocalTZA legacyDateParse mongo store q
               = getTransactions LocalTZA legacyDateParse mongo store' q).
  { unfold getTransactions, getTransactions_try, find, countDocuments.
    rewrite Hm. cbn [bind].
    destruct (compile mongo _) as [accepts|e] eqn:Hc; [|reflexivity].
    cbn [bind].
    destruct (compile_window _ _ _ Hc)
      as (lo' & hi' & f & Hlo & Hhi & _ & Hacc).
    destruct (buildQuery_dates LocalTZA legacyDateParse (padStart 2 "0" m)
                (default [] (q_search q))) as [Hgte Hlt].
    rewrite Hw in Hgte, Hlt. cbn [fst snd] in Hgte, Hlt.
    rewrite Hgte in Hlo. rewrite Hlt in Hhi.
    injection Hlo as <-. injection Hhi as <-.
    rewrite (filter_window_and (inWindow lo hi) f accepts store Hacc).
    rewrite (filter_window_and (inWindow lo hi) f accepts store' Hacc).
    rewrite Hsame. reflexivity. }
  assert (Hs : getStatistics LocalTZA legacyDateParse mongo store
                 (q_month q)
               = getStatistics LocalTZA legacyDateParse mongo store'
                   (q_month q)).
  { rewrite !(getStatistics_run _ _ _ _ _ m lo hi Hm Hw), Hsame.
    reflexivity. }
  assert (Hb : getBarChartData LocalTZA legacyDateParse mongo store
                 (q_month q)
               = getBarChartData LocalTZA legacyDateParse mongo store'
                   (q_month q)).
  { rewrite !(getBarChartData_run _ _ _ _ _ m lo hi Hm Hw), Hsame.
    reflexivity. }
  assert (Hp : getPieChartData LocalTZA legacyDateParse mongo store
                 (q_month q)
               = getPieChartData LocalTZA legacyDateParse mongo store'
                   (q_month q)).
  { rewrite !(getPieChartData_run _ _ _ _ _ m lo hi Hm Hw), Hsame.
    reflexivity. }
  repeat split; try assumption.
  rewrite !getCombinedData_direct, Ht, Hs, Hb, Hp. reflexivity.
Qed.

Lemma records_outside_the_window_do_not_count_witness :
  checkMonth (q_month (onlyMonth "3")) = Return "3"
  /\ monthWindow utc noLegacyParse (padStart 2 "0" "3")
     = (Some 1614556800000, Some 1617235200000)
  /\ getStatistics utc noLegacyParse plainMongo
       (sale 4 "cap" "red" "9" "wear" true "2021-04-01" :: threePrices)
       (Some "3")
     = getStatistics utc noLegacyParse plainMongo threePrices (Some "3").
Proof.
  split; [vm_compute; reflexivity|]. split; [vm_compute; reflexivity|].
  apply (records_outside_the_window_do_not_count utc noLegacyParse
           plainMongo
           (sale 4 "cap" "red" "9" "wear" true "2021-04-01" :: threePrices)
           threePrices (onlyMonth "3") "3" 1614556800000 1617235200000);
    vm_compute; reflexivity.
Defined.

(** X13: for a month with no record within its window, the statistics are
    a total of 0 with 0 items sold and 0 not sold, the histogram has its ten
    ranges at 0, the category tally is the empty object, and a 200 answer
    of the lister has no record, a total of 0 and, for a page size other
    than 0, 0 pages. *)
Theorem month_without_records
    (LocalTZA : Z) (legacyDateParse : string -> Date)
    (mongo : Mongo)
    (store : list Transaction) (q : ListParams) (m : string) (lo hi : Z) :
  checkMonth (q_month q) = Return m ->
  monthWindow LocalTZA legacyDateParse (padStart 2 "0" m)
  = (Some lo, Some hi) ->
  countWhere (inWindow lo hi) store = 0%nat ->
  getStatistics LocalTZA legacyDateParse mongo store (q_month q)
  = Ok200 {| totalSaleAmount := zero; totalSoldItems := 0;
             totalNotSoldItems := 0 |}
  /\ getBarChartData LocalTZA legacyDateParse mongo store (q_month q)
     = Ok200 priceRangesInit
  /\ getPieChartData LocalTZA legacyDateParse mongo store (q_month q)
     = Ok200 ∅
  /\ forall body,
       getTransactions LocalTZA legacyDateParse mongo store q
       = Ok200 body ->
       transactions body = [] /\ total body = 0
       /\ (default 10 (q_perPage q) <> 0 -> totalPages body = Some 0).
Proof.
  intros Hm Hw Hnone.
  assert (Hempty : List.filter (inWindow lo hi) store = []).
  { apply length_zero_iff_nil. exact Hnone. }
  rewrite (getStatistics_run _ _ _ _ _ m lo hi Hm Hw).
  rewrite (getBarChartData_run _ _ _ _ _ m lo hi Hm Hw).
  rewrite (getPieChartData_run _ _ _ _ _ m lo hi Hm Hw).
  rewrite Hempty.
  split; [reflexivity|]. split; [reflexivity|]. split; [reflexivity|].
  intros body Hok.
  destruct (getTransactions_window _ _ _ _ _ _ _ _ _ Hm Hw Hok) as [f ->].
  rewrite Hempty. cbv zeta. cbn [List.filter length transactions total
                                 totalPages].
  rewrite drop_nil. repeat split.
  - unfold limit. destruct (_ =? 0); [reflexivity|].
    destruct (_ <? 0); apply take_nil.
  - intros Hpp. unfold ceilDiv.
    destruct (Z.eqb_spec (default 10 (q_perPage q)) 0); [contradiction|].
    reflexivity.
Qed.

Lemma month_without_records_witness :
  checkMonth (q_month (onlyMonth "4")) = Return "4"
  /\ monthWindow utc noLegacyParse (padStart 2 "0" "4")
     = (Some (firstOfMonth 4), Some (firstOfMonth 5))
  /\ countWhere (inWindow (firstOfMonth 4) (firstOfMonth 5)) threePrices
     = 0%nat
  /\ getBarChartData utc noLegacyParse plainMongo threePrices (Some "4")
     = Ok200 priceRangesInit.
Proof.
  split; [vm_compute; reflexivity|]. split; [vm_compute; reflexivity|].
  split; [vm_compute; reflexivity|].
  apply (month_without_records utc noLegacyParse plainMongo threePrices
           (onlyMonth "4") "4" (firstOfMonth 4) (firstOfMonth 5));
    vm_compute; reflexivity.
Defined.

(** X14: the handlers count the same records: for a month with a window,
    the total of a listing without search (or with the empty search) is
    the number of records within the window, and so are the items sold
    and not sold of the statistics taken together, and the ten counts of
    the histogram taken together. *)
Theorem handlers_count_the_same_records
    (LocalTZA : Z) (legacyDateParse : string -> Date)
    (mongo : Mongo)
    (store : list Transaction) (q : ListParams) (m : string) (lo hi : Z) :
  checkMonth (q_month q) = Return m ->
  monthWindow LocalTZA legacyDateParse (padStart 2 "0" m)
  = (Some lo, Some hi) ->
  default [] (q_search q) = [] ->
  0 <= (default 1 (q_page q) - 1) * default 10 (q_perPage q) ->
  exists listing statistics bars,
    getTransactions LocalTZA legacyDateParse mongo store q = Ok200 listing
    /\ getStatistics LocalTZA legacyDateParse mongo store (q_month q)
       = Ok200 statistics
    /\ getBarChartData LocalTZA legacyDateParse mongo store (q_month q)
       = Ok200 bars
    /\ total listing = Z.of_nat (countWhere (inWindow lo hi) store)
    /\ (totalSoldItems statistics + totalNotSoldItems statistics)%nat
       = countWhere (inWindow lo hi) store
    /\ sumCounts bars priceRangeKeys
       = N.of_nat (countWhere (inWindow lo hi) store).
Proof.
  intros Hm Hw Hsearch Hskip.
  destruct (compile_buildQuery LocalTZA legacyDateParse mongo
              (padStart 2 "0" m) [] lo hi [] Hw eq_refl)
    as (accepts & Hc & Hacc).
  assert (Hc' : compile mongo
                  (buildQuery LocalTZA legacyDateParse (padStart 2 "0" m)
                     (default [] (q_search q)))
                = Return accepts) by (rewrite Hsearch; exact Hc).
  rewrite (getTransactions_run _ _ _ _ _ m accepts Hm Hc' Hskip).
  rewrite (getStatistics_run _ _ _ _ _ m lo hi Hm Hw).
  rewrite (getBarChartData_run _ _ _ _ _ m lo hi Hm Hw).
  eexists. eexists. eexists.
  split; [reflexivity|]. split; [reflexivity|]. split; [reflexivity|].
  cbv zeta. cbn [total totalSoldItems totalNotSoldItems].
  split; [|split].
  - rewrite (filter_ext accepts (inWindow lo hi)); [reflexivity|].
    intros t. rewrite Hacc, searchFrom_nil. apply andb_true_r.
  - apply countWhere_split.
  - unfold sumCounts. apply histogram_total.
Qed.

Lemma handlers_count_the_same_records_witness :
  checkMonth (q_month (onlyMonth "3")) = Return "3"
  /\ monthWindow utc noLegacyParse (padStart 2 "0" "3")
     = (Some 1614556800000, Some 1617235200000)
  /\ default [] (q_search (onlyMonth "3")) = []
  /\ 0 <= (default 1 (q_page (onlyMonth "3")) - 1)
          * default 10 (q_perPage (onlyMonth "3"))
  /\ exists listing statistics bars,
       getTransactions utc noLegacyParse plainMongo threePrices
         (onlyMonth "3") = Ok200 listing
       /\ getStatistics utc noLegacyParse plainMongo threePrices
            (Some "3") = Ok200 statistics
       /\ getBarChartData utc noLegacyParse plainMongo threePrices
            (Some "3") = Ok200 bars
       /\ total listing = 3
       /\ (totalSoldItems statistics + totalNotSoldItems statistics)%nat
          = 3%nat
       /\ sumCounts bars priceRangeKeys = 3%N.
Proof.
  split; [vm_compute; reflexivity|]. split; [vm_compute; reflexivity|].
  split; [vm_compute; reflexivity|]. split; [vm_compute; discriminate|].
  destruct (handlers_count_the_same_records utc noLegacyParse plainMongo
              threePrices (onlyMonth "3") "3" 1614556800000 1617235200000)
    as (listing & statistics & bars & Hl & Hs & Hb & Ht & Hst & Hbt);
    [vm_compute; reflexivity | vm_compute; reflexivity
    | vm_compute; reflexivity | vm_compute; discriminate |].
  assert (Hcount : countWhere (inWindow 1614556800000 1617235200000)
                     threePrices = 3%nat) by (vm_compute; reflexivity).
  rewrite Hcount in Ht, Hst, Hbt.
  exists listing, statistics, bars. repeat split; assumption.
Defined.

(** ** Requests the store refuses *)

Lemma getTransactions_store_failure
    (LocalTZA : Z) (legacyDateParse : string -> Date)
    (mongo : Mongo)
    (store : list Transaction) (q : ListParams) :
  (forall m, checkMonth (q_month q) = Return m ->
     compile mongo
       (buildQuery LocalTZA legacyDateParse (padStart 2 "0" m)
          (default [] (q_search q)))
     = Throw StoreFailure) ->
  getTransactions LocalTZA legacyDateParse mongo store q
  = Error500 "Error fetching transactions".
Proof.
  intros Hfail. unfold getTransactions, getTransactions_try, find.
  destruct (checkMonth (q_month q)) as [m|e]; [|reflexivity]. cbn [bind].
  rewrite (Hfail m eq_refl). reflexivity.
Qed.

(** X15: the search string reaches the store as a regular expression, as
    it was typed: when the store rejects it as a pattern, the lister and
    the combined view answer with status 500, whatever the month, the page
    and the records of the store. *)
Theorem rejected_pattern_is_an_error
    (LocalTZA : Z) (legacyDateParse : string -> Date)
    (mongo : Mongo)
    (store : list Transaction) (q : ListParams) :
  regexI (caseFolding mongo) (otherPattern mongo) (default [] (q_search q)) = None ->
  getTransactions LocalTZA legacyDateParse mongo store q
  = Error500 "Error fetching transactions"
  /\ getCombinedData LocalTZA legacyDateParse mongo store q
     = Error500 "Error fetching combined data".
Proof.
  intros Hre. split.
  - apply getTransactions_store_failure. intros m _.
    apply compile_rejected_pattern. exact Hre.
  - rewrite getCombinedData_all_or_nothing.
    destruct (checkMonth (q_month q)) as [m|e]; [|reflexivity]. cbv zeta.
    rewrite getTransactions_store_failure; [reflexivity|].
    intros m' _. apply compile_rejected_pattern. exact Hre.
Qed.

Lemma rejected_pattern_is_an_error_witness :
  regexI (caseFolding plainMongo) (otherPattern plainMongo)
    (default [] (q_search (searching "3" "(pen"))) = None
  /\ getTransactions utc noLegacyParse plainMongo threePrices
       (searching "3" "(pen")
     = Error500 "Error fetching transactions".
Proof.
  split; [vm_compute; reflexivity|].
  apply (rejected_pattern_is_an_error utc noLegacyParse plainMongo
           threePrices (searching "3" "(pen")).
  vm_compute. reflexivity.
Defined.

Lemma monthWindow_invalid (LocalTZA : Z) (legacyDateParse : string -> Date)
    (month : string) :
  newDate legacyDateParse ("2021-" ++ month ++ "-01") = None ->
  monthWindow LocalTZA legacyDateParse month = (None, None).
Proof. unfold monthWindow. intros ->. reflexivity. Qed.

(** X16: a month that passes the validation and makes a date that the
    engine cannot read (an Invalid Date) is refused by the store: the four
    read handlers and the combined view answer with status 500 and their
    fixed messages. *)
Theorem unreadable_date_is_an_error
    (LocalTZA : Z) (legacyDateParse : string -> Date)
    (mongo : Mongo)
    (store : list Transaction) (q : ListParams) (m : string) :
  checkMonth (q_month q) = Return m ->
  newDate legacyDateParse ("2021-" ++ padStart 2 "0" m ++ "-01") = None ->
  getTransactions LocalTZA legacyDateParse mongo store q
  = Error500 "Error fetching transactions"
  /\ getStatistics LocalTZA legacyDateParse mongo store (q_month q)
     = Error500 "Error fetching statistics"
  /\ getBarChartData LocalTZA legacyDateParse mongo store (q_month q)
     = Error500 "Error fetching bar chart data"
  /\ getPieChartData LocalTZA legacyDateParse mongo store (q_month q)
     = Error500 "Error fetching pie chart data"
  /\ getCombinedData LocalTZA legacyDateParse mongo store q
     = Error500 "Error fetching combined data".
Proof.
  intros Hm Hdate.
  pose proof (monthWindow_invalid LocalTZA _ _ Hdate) as Hw.
  assert (Hs : getStatistics LocalTZA legacyDateParse mongo store
                 (q_month q)
               = Error500 "Error fetching statistics").
  { unfold getStatistics, getStatistics_try, find, windowQuery.
    rewrite Hm. cbn [bind]. rewrite Hw. reflexivity. }
  split; [|split; [exact Hs|split; [|split]]].
  - apply getTransactions_store_failure. intros m' Hm'.
    rewrite Hm in Hm'. injection Hm' as <-.
    apply compile_no_window.
    rewrite (proj1 (buildQuery_dates _ _ _ _)), Hw. reflexivity.
  - unfold getBarChartData, getBarChartData_try, find, windowQuery.
    rewrite Hm. cbn [bind]. rewrite Hw. reflexivity.
  - unfold getPieChartData, getPieChartData_try, find, windowQuery.
    rewrite Hm. cbn [bind]. rewrite Hw. reflexivity.
  - rewrite getCombinedData_all_or_nothing, Hm. cbv zeta.
    destruct (padded_month_answers LocalTZA legacyDateParse mongo store
                q m) as (_ & Hps & _).
    assert (Hq : q_month q = Some m).
    { apply checkMonth_accepts in Hm. tauto. }
    rewrite Hps, <- Hq, Hs.
    destruct (getTransactions _ _ _ _ _); reflexivity.
Qed.

Lemma unreadable_date_is_an_error_witness :
  checkMonth (q_month (onlyMonth "3abc")) = Return "3abc"
  /\ newDate noLegacyParse ("2021-" ++ padStart 2 "0" "3abc" ++ "-01") = None
  /\ getTransactions utc noLegacyParse plainMongo threePrices
       (onlyMonth "3abc")
     = Error500 "Error fetching transactions".
Proof.
  split; [vm_compute; reflexivity|]. split; [vm_compute; reflexivity|].
  apply (unreadable_date_is_an_error utc noLegacyParse plainMongo
           threePrices (onlyMonth "3abc") "3abc"); vm_compute; reflexivity.
Defined.

(** ** Search and case *)

(** characters that differ in the case of a letter A to Z fold alike *)
Lemma fold_toLower (unicodeFold : N -> N) (c c' : N) :
  toLower c = toLower c' -> fold unicodeFold c = fold unicodeFold c'.
Proof.
  unfold fold, toLower. intros H.
  destruct (N.ltb_spec c 128), (N.ltb_spec c' 128);
    destruct (N.leb_spec 65 c), (N.leb_spec c 90),
      (N.leb_spec 65 c'), (N.leb_spec c' 90);
    cbn [andb] in H |- *; try lia; try (f_equal; lia);
    assert (c = c') as -> by lia; reflexivity.
Qed.

Lemma folded_lower (unicodeFold : N -> N) (cs cs' : text) :
  lower cs = lower cs' -> folded unicodeFold cs = folded unicodeFold cs'.
Proof.
  unfold lower, folded. revert cs'.
  induction cs as [|c cs IH]; intros [|c' cs'] H; try discriminate H;
    [reflexivity|].
  cbn [map] in H |- *. injection H as Hc Hcs.
  rewrite (fold_toLower unicodeFold c c' Hc), (IH cs' Hcs). reflexivity.
Qed.

Lemma searchFrom_literal_lower (unicodeFold : N -> N) (cs cs' s : text) :
  lower cs = lower cs' ->
  searchFrom unicodeFold (map Lit cs) s
  = searchFrom unicodeFold (map Lit cs') s.
Proof.
  intros Hlow. apply eq_true_iff_eq.
  rewrite !searchFrom_literal, (folded_lower unicodeFold cs cs' Hlow).
  reflexivity.
Qed.

(** X17: the search does not tell upper case from lower case: two search
    strings without special characters that differ in the case of their
    letters A to Z only, and that denote the same number or no number at
    all, get the same answer from the lister. *)
Theorem search_ignores_case
    (LocalTZA : Z) (legacyDateParse : string -> Date)
    (mongo : Mongo)
    (store : list Transaction) (q : ListParams) (s1 s2 : text) :
  literalSearch s1 = true ->
  literalSearch s2 = true ->
  lower s1 = lower s2 ->
  Number s1 = Number s2 ->
  getTransactions LocalTZA legacyDateParse mongo store (withSearch q s1)
  = getTransactions LocalTZA legacyDateParse mongo store (withSearch q s2).
Proof.
  intros Hl1 Hl2 Hlow Hnum.
  destruct (checkMonth (q_month q)) as [m|e] eqn:Hm.
  2:{ unfold getTransactions, getTransactions_try.
      cbn [withSearch q_month]. rewrite Hm. reflexivity. }
  destruct (Z.lt_ge_cases
              ((default 1 (q_page q) - 1) * default 10 (q_perPage q)) 0)
    as [Hneg|Hpos].
  { rewrite !getTransactions_negative_skip; [reflexivity | exact Hneg
                                            | exact Hneg]. }
  destruct (monthWindow LocalTZA legacyDateParse (padStart 2 "0" m))
    as [[lo|] [hi|]] eqn:Hw.
  - destruct (compile_buildQuery LocalTZA legacyDateParse mongo
                (padStart 2 "0" m) s1 lo hi _ Hw
                (parseFragment_literal s1 Hl1)) as (a1 & Hc1 & Ha1).
    destruct (compile_buildQuery LocalTZA legacyDateParse mongo
                (padStart 2 "0" m) s2 lo hi _ Hw
                (parseFragment_literal s2 Hl2)) as (a2 & Hc2 & Ha2).
    rewrite (getTransactions_run LocalTZA legacyDateParse mongo store
               (withSearch q s1) m a1 Hm Hc1 Hpos).
    rewrite (getTransactions_run LocalTZA legacyDateParse mongo store
               (withSearch q s2) m a2 Hm Hc2 Hpos).
    cbn [withSearch q_page q_perPage].
    rewrite (filter_ext a1 a2); [reflexivity|].
    intros t. rewrite Ha1, Ha2, Hnum.
    rewrite !(searchFrom_literal_lower _ _ _ _ Hlow). reflexivity.
  - rewrite !getTransactions_store_failure; [reflexivity| |];
      intros m' Hm'; cbn [withSearch q_month] in Hm'; rewrite Hm in Hm';
      injection Hm' as <-; apply compile_no_hi;
      rewrite (proj2 (buildQuery_dates _ _ _ _)), Hw; reflexivity.
  - rewrite !getTransactions_store_failure; [reflexivity| |];
      intros m' Hm'; cbn [withSearch q_month] in Hm'; rewrite Hm in Hm';
      injection Hm' as <-; apply compile_no_window;
      rewrite (proj1 (buildQuery_dates _ _ _ _)), Hw; reflexivity.
  - rewrite !getTransactions_store_failure; [reflexivity| |];
      intros m' Hm'; cbn [withSearch q_month] in Hm'; rewrite Hm in Hm';
      injection Hm' as <-; apply compile_no_window;
      rewrite (proj1 (buildQuery_dates _ _ _ _)), Hw; reflexivity.
Qed.

Lemma search_ignores_case_witness :
  literalSearch (utf8 "INK") = true /\ literalSearch (utf8 "ink") = true
  /\ lower (utf8 "INK") = lower (utf8 "ink")
  /\ Number (utf8 "INK") = Number (utf8 "ink")
  /\ getTransactions utc noLegacyParse plainMongo threePrices
       (withSearch (onlyMonth "3") (utf8 "INK"))
     = getTransactions utc noLegacyParse plainMongo threePrices
         (withSearch (onlyMonth "3") (utf8 "ink")).
Proof.
  split; [vm_compute; reflexivity|]. split; [vm_compute; reflexivity|].
  split; [vm_compute; reflexivity|]. split; [vm_compute; reflexivity|].
  apply (search_ignores_case utc noLegacyParse plainMongo threePrices
           (onlyMonth "3") (utf8 "INK") (utf8 "ink")); vm_compute; reflexivity.
Defined.

(** ** Tallies and the order of the store *)

Lemma fold_left_Permutation {A B : Type} (f : B -> A -> B) (l l' : list A) :
  (forall o a b, f (f o a) b = f (f o b) a) ->
  Permutation l l' -> forall o, fold_left f l o = fold_left f l' o.
Proof.
  intros Hcomm Hperm.
  induction Hperm as [|x l l' _ IH|x y l|l l' l'' _ IH1 _ IH2]; intros o.
  - reflexivity.
  - cbn [fold_left]. apply IH.
  - cbn [fold_left]. rewrite Hcomm. reflexivity.
  - rewrite IH1. apply IH2.
Qed.

Lemma filter_Permutation {A : Type} (f : A -> bool) (l l' : list A) :
  Permutation l l' -> Permutation (List.filter f l) (List.filter f l').
Proof.
  intros Hperm.
  induction Hperm as [|x l l' _ IH|x y l|l l' l'' _ IH1 _ IH2].
  - constructor.
  - cbn [List.filter]. destruct (f x); [constructor|]; exact IH.
  - cbn [List.filter]. destruct (f x), (f y); try reflexivity. constructor.
  - etransitivity; eassumption.
Qed.

(** [countCategory] writes under the label of the record only *)
Lemma countCategory_other (o : gmap string value) (t : Transaction)
    (k : string) :
  category t <> k -> countCategory o t !! k = o !! k.
Proof.
  intros Hk. unfold countCategory, postIncrement, set.
  destruct (String.eqb (category t) "__proto__").
  - destruct (negb _); reflexivity.
  - rewrite lookup_insert_ne by exact Hk.
    destruct (negb _); [rewrite lookup_insert_ne by exact Hk|]; reflexivity.
Qed.

(** and what it writes there depends on what it finds there only *)
Lemma countCategory_own (o o' : gmap string value) (t : Transaction) :
  o !! category t = o' !! category t ->
  countCategory o t !! category t = countCategory o' t !! category t.
Proof.
  intros Hsame. unfold countCategory, postIncrement, set, get.
  rewrite <- Hsame.
  destruct (String.eqb (category t) "__proto__").
  - destruct (negb _); exact Hsame.
  - rewrite !lookup_insert_eq.
    destruct (negb _); [rewrite !lookup_insert_eq|rewrite <- Hsame];
      reflexivity.
Qed.

Lemma countCategory_label (o : gmap string value) (a b : Transaction) :
  category a = category b -> countCategory o a = countCategory o b.
Proof. unfold countCategory. intros ->. reflexivity. Qed.

Lemma countCategory_comm (o : gmap string value) (a b : Transaction) :
  countCategory (countCategory o a) b = countCategory (countCategory o b) a.
Proof.
  destruct (String.eqb_spec (category a) (category b)) as [Hab|Hab].
  - rewrite (countCategory_label (countCategory o b) a b Hab).
    rewrite (countCategory_label o a b Hab). reflexivity.
  - apply map_eq. intros k.
    destruct (String.eqb_spec (category b) k) as [<-|Hbk].
    + rewrite (countCategory_other _ a _ Hab).
      apply countCategory_own. apply countCategory_other. exact Hab.
    + rewrite (countCategory_other _ b k Hbk).
      destruct (String.eqb_spec (category a) k) as [<-|Hak].
      * symmetry. apply countCategory_own.
        apply countCategory_other. congruence.
      * rewrite !(countCategory_other _ a k Hak).
        rewrite (countCategory_other _ b k Hbk). reflexivity.
Qed.

(** X18: the histogram and the category tally do not depend on the order
    of the records in the store, whatever the labels and the prices; nor
    do the total and the number of pages of a listing. *)
Theorem tallies_do_not_depend_on_order
    (LocalTZA : Z) (legacyDateParse : string -> Date)
    (mongo : Mongo)
    (store store' : list Transaction) (q : ListParams) :
  Permutation store store' ->
  getBarChartData LocalTZA legacyDateParse mongo store (q_month q)
  = getBarChartData LocalTZA legacyDateParse mongo store' (q_month q)
  /\ getPieChartData LocalTZA legacyDateParse mongo store (q_month q)
     = getPieChartData LocalTZA legacyDateParse mongo store' (q_month q)
  /\ forall body body',
       getTransactions LocalTZA legacyDateParse mongo store q
       = Ok200 body ->
       getTransactions LocalTZA legacyDateParse mongo store' q
       = Ok200 body' ->
       total body = total body' /\ totalPages body = totalPages body'.
Proof.
  intros Hperm. split; [|split].
  - unfold getBarChartData, getBarChartData_try, find.
    destruct (checkMonth (q_month q)) as [m|e]; [|reflexivity]. cbn [bind].
    destruct (compile mongo _) as [accepts|e]; [|reflexivity].
    cbn [bind tryCatch]. f_equal. apply map_eq. intros k.
    rewrite !histogram_lookup.
    rewrite (countWhere_Permutation _ _ _
               (filter_Permutation accepts _ _ Hperm)).
    reflexivity.
  - unfold getPieChartData, getPieChartData_try, find.
    destruct (checkMonth (q_month q)) as [m|e]; [|reflexivity]. cbn [bind].
    destruct (compile mongo _) as [accepts|e]; [|reflexivity].
    cbn [bind tryCatch]. f_equal.
    apply fold_left_Permutation;
      [apply countCategory_comm | apply filter_Permutation; exact Hperm].
  - intros body body' Hok Hok'.
    destruct (getTransactions_Ok200 _ _ _ _ _ _ Hok)
      as (m & accepts & Hm & Hc & _ & ->).
    destruct (getTransactions_Ok200 _ _ _ _ _ _ Hok')
      as (m' & accepts' & Hm' & Hc' & _ & ->).
    rewrite Hm in Hm'. injection Hm' as <-.
    rewrite Hc in Hc'. injection Hc' as <-.
    cbv zeta. cbn [total totalPages].
    rewrite (Permutation_length (filter_Permutation accepts _ _ Hperm)).
    split; reflexivity.
Qed.

Lemma tallies_do_not_depend_on_order_witness :
  Permutation threePrices (rev threePrices)
  /\ getPieChartData utc noLegacyParse plainMongo threePrices
       (q_month (onlyMonth "3"))
     = getPieChartData utc noLegacyParse plainMongo (rev threePrices)
         (q_month (onlyMonth "3")).
Proof.
  split; [apply Permutation_rev|].
  apply (tallies_do_not_depend_on_order utc noLegacyParse plainMongo
           threePrices (rev threePrices) (onlyMonth "3")).
  apply Permutation_rev.
Defined.

(** ** Category tally on ordinary labels *)

Lemma list_sum_cons (x : nat) (l : list nat) :
  list_sum (x :: l) = (x + list_sum l)%nat.
Proof. reflexivity. Qed.

Lemma list_sum_map_add {A : Type} (f g : A -> nat) (l : list A) :
  list_sum (map (fun k => (f k + g k)%nat) l)
  = (list_sum (map f l) + list_sum (map g l))%nat.
Proof.
  unfold list_sum. induction l as [|x l IH]; [reflexivity|].
  cbn [map fold_right]. rewrite IH. lia.
Qed.

Lemma label_once (c : string) (labels : list string) :
  NoDup labels -> In c labels ->
  list_sum (map (fun k => if String.eqb c k then 1 else 0)%nat labels)
  = 1%nat.
Proof.
  intros Hnd. induction Hnd as [|k labels Hk _ IH]; [intros []|].
  intros Hin. cbn [map]. rewrite ?list_sum_cons.
  destruct (String.eqb_spec c k) as [->|Hck].
  - assert (Hzero : list_sum
                      (map (fun k0 => if String.eqb k k0 then 1 else 0)%nat
                         labels) = 0%nat).
    { clear IH Hin. induction labels as [|k' labels IH']; [reflexivity|].
      cbn [map]. rewrite ?list_sum_cons.
      destruct (String.eqb_spec k k') as [->|_].
      - exfalso. apply Hk. apply list_elem_of_In. left. reflexivity.
      - apply IH'. intros Hin. apply Hk.
        apply list_elem_of_In. right. apply list_elem_of_In. exact Hin. }
    rewrite Hzero. reflexivity.
  - destruct Hin as [->|Hin]; [contradiction|]. rewrite (IH Hin). reflexivity.
Qed.

Lemma count_by_label {A : Type} (w : A -> bool) (key : A -> string)
    (labels : list string) (l : list A) :
  NoDup labels ->
  (forall t, In t l -> w t = true -> In (key t) labels) ->
  list_sum
    (map (fun k => countWhere (fun t => w t && String.eqb (key t) k) l)
       labels)
  = countWhere w l.
Proof.
  intros Hnd. induction l as [|x l IH]; intros Hall.
  - unfold countWhere. cbn [List.filter length]. clear.
    induction labels as [|k labels IHl]; [reflexivity|exact IHl].
  - rewrite countWhere_cons.
    rewrite (map_ext
               (fun k => countWhere
                           (fun t => w t && String.eqb (key t) k) (x :: l))
               (fun k => ((if w x && String.eqb (key x) k then 1 else 0)
                          + countWhere
                              (fun t => w t && String.eqb (key t) k) l)%nat))
      by (intros k; rewrite countWhere_cons; reflexivity).
    rewrite list_sum_map_add, IH
      by (intros t Ht; apply Hall; right; exact Ht).
    f_equal. destruct (w x) eqn:Hwx; cbn [andb].
    + apply label_once; [exact Hnd|]. apply Hall; [left; reflexivity|exact Hwx].
    + clear. induction labels as [|k labels IHl]; [reflexivity|exact IHl].
Qed.

Lemma sum_of_counts {A : Type} (c : A -> nat) (l : list A) :
  fold_right N.add 0%N (map (fun k => N.of_nat (c k)) l)
  = N.of_nat (list_sum (map c l)).
Proof.
  unfold list_sum. induction l as [|k l IH]; [reflexivity|].
  cbn [map fold_right]. rewrite IH, Nat2N.inj_add. reflexivity.
Qed.

Lemma countWhere_positive {A : Type} (f : A -> bool) (l : list A) :
  countWhere f l <> 0%nat <-> exists t, In t l /\ f t = true.
Proof.
  unfold countWhere. split.
  - destruct (List.filter f l) as [|t rest] eqn:Hf; [intros []; reflexivity|].
    intros _. exists t. apply filter_In. rewrite Hf. left. reflexivity.
  - intros (t & Hin & Hft) Hzero.
    apply length_zero_iff_nil in Hzero.
    assert (Hint : In t (List.filter f l)) by (apply filter_In; tauto).
    rewrite Hzero in Hint. exact Hint.
Qed.

(** X19: when no record of the window bears a label that every object
    inherits, the category tally has a key for each label borne by a record
    of the window and no other key; the count under a label is the number
    of records of the window that bear it, and the counts add up to the
    number of records of the window. *)
Theorem categories_count_every_record
    (LocalTZA : Z) (legacyDateParse : string -> Date)
    (mongo : Mongo)
    (store : list Transaction) (month : option string) (m : string)
    (lo hi : Z) :
  checkMonth month = Return m ->
  monthWindow LocalTZA legacyDateParse (padStart 2 "0" m)
  = (Some lo, Some hi) ->
  Forall (fun t => inWindow lo hi t = true -> inherited (category t) = false)
    store ->
  exists body,
    getPieChartData LocalTZA legacyDateParse mongo store month = Ok200 body
    /\ (forall k,
          is_Some (body !! k)
          <-> exists t, In t store /\ inWindow lo hi t = true
                        /\ category t = k)
    /\ (forall k,
          countOf body k
          = N.of_nat
              (countWhere
                 (fun t => inWindow lo hi t && String.eqb (category t) k)
                 store))
    /\ (forall labels,
          NoDup labels ->
          (forall t, In t store -> inWindow lo hi t = true ->
                     In (category t) labels) ->
          sumCounts body labels
          = N.of_nat (countWhere (inWindow lo hi) store)).
Proof.
  intros Hm Hw Hplain.
  destruct (categories_tally LocalTZA legacyDateParse mongo store month m
              lo hi Hm Hw Hplain) as (body & Hrun & Hlook).
  exists body. split; [exact Hrun|].
  assert (Hcount : forall k,
             countOf body k
             = N.of_nat
                 (countWhere
                    (fun t => inWindow lo hi t && String.eqb (category t) k)
                    store)).
  { intros k. unfold countOf. rewrite Hlook. cbv zeta.
    destruct (Nat.eqb_spec
                (countWhere
                   (fun t => inWindow lo hi t && String.eqb (category t) k)
                   store) 0) as [->|_]; reflexivity. }
  split; [|split; [exact Hcount|]].
  - intros k. rewrite Hlook. cbv zeta.
    destruct (Nat.eqb_spec
                (countWhere
                   (fun t => inWindow lo hi t && String.eqb (category t) k)
                   store) 0) as [Hzero|Hpos].
    + split; [intros [v Hv]; discriminate|].
      intros (t & Hin & Hwin & Hcat). exfalso.
      apply (proj2 (countWhere_positive _ store)) in Hzero; [exact Hzero|].
      exists t. split; [exact Hin|]. rewrite Hwin. cbn [andb].
      apply String.eqb_eq. exact Hcat.
    + split; [intros _|intros _; eexists; reflexivity].
      apply countWhere_positive in Hpos. destruct Hpos as (t & Hin & Ht).
      apply andb_true_iff in Ht. destruct Ht as [Hwin Hcat].
      exists t. split; [exact Hin|]. split; [exact Hwin|].
      apply String.eqb_eq. exact Hcat.
  - intros labels Hnd Hall. unfold sumCounts.
    rewrite (map_ext _ _ Hcount), sum_of_counts.
    rewrite (count_by_label (inWindow lo hi) category labels store Hnd Hall).
    reflexivity.
Qed.

Lemma categories_count_every_record_witness :
  checkMonth (Some "3") = Return "3"
  /\ monthWindow utc noLegacyParse (padStart 2 "0" "3")
     = (Some 1614556800000, Some 1617235200000)
  /\ Forall (fun t => inWindow 1614556800000 1617235200000 t = true ->
                      inherited (category t) = false)
       (item125 :: threePrices)
  /\ exists body,
       getPieChartData utc noLegacyParse plainMongo
         (item125 :: threePrices) (Some "3") = Ok200 body
       /\ countOf body "office" = 3%N
       /\ sumCounts body ["office"; "tools"] = 4%N.
Proof.
  assert (Hplain : Forall
                     (fun t => inWindow 1614556800000 1617235200000 t = true ->
                               inherited (category t) = false)
                     (item125 :: threePrices)).
  { repeat (apply List.Forall_cons; [intros _; vm_compute; reflexivity|]).
    apply List.Forall_nil. }
  split; [vm_compute; reflexivity|]. split; [vm_compute; reflexivity|].
  split; [exact Hplain|].
  destruct (categories_count_every_record utc noLegacyParse plainMongo
              (item125 :: threePrices) (Some "3") "3"
              1614556800000 1617235200000)
    as (body & Hrun & _ & Hcount & Hsum);
    [vm_compute; reflexivity | vm_compute; reflexivity | exact Hplain |].
  exists body. split; [exact Hrun|]. split.
  - rewrite Hcount. vm_compute. reflexivity.
  - rewrite (Hsum ["office"; "tools"]).
    + vm_compute. reflexivity.
    + repeat constructor; rewrite ?list_elem_of_In; cbn [In];
        intuition discriminate.
    + intros t Hin _. cbn [In] in Hin.
      destruct Hin as [<-|[<-|[<-|[<-|[]]]]]; cbn; tauto.
Defined.

(** ** From the seed to the answers *)

Lemma countWhere_map {A B : Type} (f : B -> bool) (g : A -> B) (l : list A) :
  countWhere f (map g l) = countWhere (fun x => f (g x)) l.
Proof.
  induction l as [|x l IH]; [reflexivity|].
  cbn [map]. rewrite !countWhere_cons, IH. reflexivity.
Qed.

Lemma countWhere_le {A : Type} (f g : A -> bool) (l : list A) :
  (forall x, f x = true -> g x = true) ->
  (countWhere f l <= countWhere g l)%nat.
Proof.
  intros Hfg. induction l as [|x l IH]; [reflexivity|].
  rewrite !countWhere_cons. specialize (Hfg x).
  destruct (f x), (g x); lia.
Qed.

(** X20: after a successful seeding, the read handlers count every
    fetched record dated within the window of the month, whatever its
    price field: the items sold and not sold are those so marked in the
    fetched data, the ten counts of the histogram add up to the number of
    fetched records within the window, and the records whose price could
    not be read as a number are among those counted under 0-100. *)
Theorem seeded_records_are_counted
    (LocalTZA : Z) (legacyDateParse : string -> Date)
    (mongo : Mongo)
    (data : list RawTransaction) (store : list Transaction)
    (month : option string) (m : string) (lo hi : Z) :
  checkMonth month = Return m ->
  monthWindow LocalTZA legacyDateParse (padStart 2 "0" m)
  = (Some lo, Some hi) ->
  exists statistics bars,
    getStatistics LocalTZA legacyDateParse mongo
      (fst (initializeDatabase (Return (Records data)) false None store)) month
    = Ok200 statistics
    /\ getBarChartData LocalTZA legacyDateParse mongo
         (fst (initializeDatabase (Return (Records data)) false None store)) month
       = Ok200 bars
    /\ totalSoldItems statistics
       = countWhere (fun raw => rawInWindow lo hi raw && raw_sold raw) data
    /\ totalNotSoldItems statistics
       = countWhere (fun raw => rawInWindow lo hi raw && negb (raw_sold raw))
           data
    /\ sumCounts bars priceRangeKeys
       = N.of_nat (countWhere (rawInWindow lo hi) data)
    /\ (N.of_nat
          (countWhere
             (fun raw => rawInWindow lo hi raw
                         && isNaN (parseFloatOf (raw_price raw)))
             data)
        <= countOf bars "0-100")%N.
Proof.
  intros Hm Hw.
  change (fst (initializeDatabase (Return (Records data)) false None store))
    with (map seedTransform data).
  rewrite (getStatistics_run _ _ _ _ _ m lo hi Hm Hw).
  rewrite (getBarChartData_run _ _ _ _ _ m lo hi Hm Hw).
  eexists. eexists. split; [reflexivity|]. split; [reflexivity|].
  cbv zeta. cbn [totalSoldItems totalNotSoldItems].
  split; [|split; [|split]].
  - rewrite countWhere_filter, countWhere_map. reflexivity.
  - rewrite countWhere_filter, countWhere_map. reflexivity.
  - unfold sumCounts. rewrite histogram_total. f_equal.
    change (length (List.filter (inWindow lo hi) (map seedTransform data)))
      with (countWhere (inWindow lo hi) (map seedTransform data)).
    rewrite countWhere_map. reflexivity.
  - unfold countOf. rewrite histogram_lookup.
    change (isPriceRangeKey "0-100") with true. cbv iota.
    rewrite countWhere_filter, countWhere_map.
    apply N2Z.inj_le. rewrite !nat_N_Z. apply inj_le.
    apply countWhere_le. intros raw Hraw.
    apply andb_true_iff in Hraw. destruct Hraw as [Hwin Hnan].
    apply andb_true_iff. split; [exact Hwin|].
    cbn [seedTransform price]. rewrite Hnan. reflexivity.
Qed.

Lemma seeded_records_are_counted_witness :
  checkMonth (Some "3") = Return "3"
  /\ monthWindow utc noLegacyParse (padStart 2 "0" "3")
     = (Some 1614556800000, Some 1617235200000)
  /\ exists statistics bars,
       getStatistics utc noLegacyParse plainMongo
         (fst (initializeDatabase
                 (Return (Records [rawWithPrice (RawString (utf8 "abc"))])) false None
                 threePrices))
         (Some "3")
       = Ok200 statistics
       /\ getBarChartData utc noLegacyParse plainMongo
            (fst (initializeDatabase
                    (Return (Records [rawWithPrice (RawString (utf8 "abc"))])) false None
                    threePrices))
            (Some "3")
          = Ok200 bars
       /\ totalNotSoldItems statistics = 1%nat
       /\ (1 <= countOf bars "0-100")%N.
Proof.
  split; [vm_compute; reflexivity|]. split; [vm_compute; reflexivity|].
  destruct (seeded_records_are_counted utc noLegacyParse plainMongo
              [rawWithPrice (RawString (utf8 "abc"))] threePrices (Some "3") "3"
              1614556800000 1617235200000)
    as (statistics & bars & Hs & Hb & _ & Hnot & _ & Hlow);
    [vm_compute; reflexivity | vm_compute; reflexivity |].
  exists statistics, bars. split; [exact Hs|]. split; [exact Hb|].
  split; [rewrite Hnot; vm_compute; reflexivity|].
  assert (Hone : countWhere
                   (fun raw => rawInWindow 1614556800000 1617235200000 raw
                               && isNaN (parseFloatOf (raw_price raw)))
                   [rawWithPrice (RawString (utf8 "abc"))] = 1%nat)
    by (vm_compute; reflexivity).
  rewrite Hone in Hlow. exact Hlow.
Defined.

(** ** Page sizes that are not positive *)

(** X21: a page size of 0 puts no limit on the listing: whatever the page,
    the answer holds all the matching records, and [totalPages] is not a
    number.  With a negative page size and a page of at most 1, the answer
    holds the matching records that follow those skipped, no more of them
    than the absolute value of the page size and no more than the store
    puts into one batch (the absolute value of the page size when the
    batch holds as many); [totalPages] is then 0 or negative. *)
Theorem page_size_not_positive
    (LocalTZA : Z) (legacyDateParse : string -> Date)
    (mongo : Mongo)
    (store : list Transaction) (q : ListParams) (m : string)
    (accepts : Transaction -> bool) (size : Z) :
  checkMonth (q_month q) = Return m ->
  compile mongo
    (buildQuery LocalTZA legacyDateParse (padStart 2 "0" m)
       (default [] (q_search q)))
  = Return accepts ->
  q_perPage q = Some size ->
  size <= 0 ->
  size = 0 \/ default 1 (q_page q) <= 1 ->
  exists body,
    getTransactions LocalTZA legacyDateParse mongo store q = Ok200 body
    /\ total body = Z.of_nat (length (List.filter accepts store))
    /\ (size = 0 ->
        transactions body = List.filter accepts store
        /\ totalPages body = None)
    /\ (size < 0 ->
        let skipped :=
          drop (Z.to_nat ((1 - default 1 (q_page q)) * - size))
            (List.filter accepts store) in
        transactions body
        = take (Nat.min (Z.to_nat (- size)) (firstBatch mongo skipped))
            skipped
        /\ ((Z.to_nat (- size) <= firstBatch mongo skipped)%nat ->
            transactions body = take (Z.to_nat (- size)) skipped)
        /\ exists pages, totalPages body = Some pages /\ pages <= 0).
Proof.
  intros Hm Hc Hsize Hle Hpage.
  assert (Hpp : default 10 (q_perPage q) = size) by (rewrite Hsize; reflexivity).
  assert (Hskip : 0 <= (default 1 (q_page q) - 1) * default 10 (q_perPage q)).
  { rewrite Hpp. destruct Hpage as [->|Hpage]; nia. }
  rewrite (getTransactions_run _ _ _ store q m accepts Hm Hc Hskip).
  eexists. split; [reflexivity|]. cbv zeta. rewrite Hpp.
  cbn [transactions total totalPages]. split; [reflexivity|]. split.
  - intros ->. rewrite Z.mul_0_r. split; reflexivity.
  - intros Hneg.
    replace ((default 1 (q_page q) - 1) * size)
      with ((1 - default 1 (q_page q)) * - size) by lia.
    assert (Hlimit : forall l,
               limit mongo size l
               = take (Nat.min (Z.to_nat (- size)) (firstBatch mongo l)) l).
    { intros l. unfold limit. destruct (Z.eqb_spec size 0); [lia|].
      destruct (Z.ltb_spec size 0); [reflexivity | lia]. }
    rewrite Hlimit. split; [reflexivity|]. split.
    + intros Hfits. rewrite Nat.min_l by exact Hfits. reflexivity.
    + unfold ceilDiv. destruct (Z.eqb_spec size 0); [lia|].
      eexists. split; [reflexivity|].
      rewrite <- (Z.div_opp_opp _ size), Z.opp_involutive by lia.
      pose proof (Z.div_pos (Z.of_nat (length (List.filter accepts store)))
                    (- size)).
      lia.
Qed.

Lemma page_size_not_positive_witness :
  checkMonth (q_month (paging "3" 1 (-10))) = Return "3"
  /\ q_perPage (paging "3" 1 (-10)) = Some (-10)
  /\ exists body,
       getTransactions utc noLegacyParse smallBatches twentyFiveSales
         (paging "3" 1 (-10))
       = Ok200 body
       /\ total body = 25
       /\ transactions body = take 2 twentyFiveSales
       /\ totalPages body = Some (-2).
Proof.
  split; [vm_compute; reflexivity|]. split; [reflexivity|].
  destruct (compile_buildQuery utc noLegacyParse smallBatches
              (padStart 2 "0" "3") [] 1614556800000 1617235200000 [])
    as (accepts & Hc & Hacc); [vm_compute; reflexivity | reflexivity |].
  destruct (page_size_not_positive utc noLegacyParse smallBatches
              twentyFiveSales (paging "3" 1 (-10)) "3" accepts (-10))
    as (body & Hrun & Htotal & _ & Hneg);
    [vm_compute; reflexivity | exact Hc | reflexivity | lia
    | right; vm_compute; discriminate |].
  assert (Hfilter : List.filter accepts twentyFiveSales = twentyFiveSales).
  { rewrite (filter_ext accepts
               (fun t => inWindow 1614556800000 1617235200000 t)).
    - vm_compute. reflexivity.
    - intros t. rewrite Hacc, searchFrom_nil. apply andb_true_r. }
  destruct (Hneg ltac:(lia)) as (Hlist & _ & pages & Hpages & _).
  rewrite Hfilter in Htotal, Hlist.
  exists body. split; [exact Hrun|]. split; [exact Htotal|].
  split; [exact Hlist|].
  assert (Hp : totalPages body = Some (-2)).
  { vm_compute in Hrun. injection Hrun as <-. reflexivity. }
  exact Hp.
Defined.
